(** * tap-ga4: the extraction engine, discovery and the client

    A shallow embedding of the functions of [tap_ga4/sync.py], of the
    discovery of [tap_ga4/discover.py] and of the request wrapper of
    [tap_ga4/client.py], and the properties proved about them.

    Conventions of the embedding:
    - a Python [str] is the list of its Unicode code points;
    - a [datetime] is a number of microseconds since 1970-01-01T00:00:00
      UTC, a [timedelta] a number of microseconds; where the engine adds a
      number of days that its caller chooses to a date of the configuration
      ([generate_report_dates]), the additions raise [OverflowError] outside
      the years 1 to 9999 as Python's do; the arithmetic on the clock (90
      days back, one hour on) is far from these limits and is not checked;
    - a [dict] with string keys is a [gmap]; the metadata of a catalog
      entry, whose order the field loop of [sync] follows, is an
      association list;
    - a Python exception is the [Raise] case of [result];
    - library calls whose behaviour the engine only passes through
      (dateutil's parser, [strptime]/[strftime], singer's [Transformer])
      are fields of the class [Externals]; singer's standard metadata,
      the selected streams of the catalog and the content of
      [field_exclusions.json] are arguments of the functions that use
      them. *)

From Stdlib Require Import ZArith List Ascii String Lia ZifyBool.
From stdpp Require Import base option list gmap sorting numbers lexico.

Local Open Scope Z_scope.

(* ===================================================================== *)
(** * Part I: definitions *)
(* ===================================================================== *)

(** ** Python values *)

Abbreviation pystr := (list Z) (only parsing).

Definition ord (a : ascii) : Z := Z.of_nat (nat_of_ascii a).

(** The Python string with the characters of an ASCII literal. *)
Definition py (s : string) : pystr := ord <$> list_ascii_of_string s.

(** Truthiness of a string: [bool(s)]. *)
Definition truthy (s : pystr) : bool :=
  match s with [] => false | _ => true end.

Inductive exn : Type :=
| ValueError
| IndexError
| KeyError
| ParserError
| UnicodeEncodeError
| ServerError
| TooManyRequests
| ResourceExhausted
| OverflowError
| OtherError.

Inductive result (A : Type) : Type :=
| Ok (a : A)
| Raise (e : exn).
Arguments Ok {A} a.
Arguments Raise {A} e.

Definition rbind {A B} (r : result A) (k : A -> result B) : result B :=
  match r with
  | Ok a => k a
  | Raise e => Raise e
  end.

Notation "x <- r ;; k" := (rbind r (fun x => k))
  (at level 100, r at next level, right associativity).

Definition rmap {A B} (f : A -> B) (r : result A) : result B :=
  match r with
  | Ok a => Ok (f a)
  | Raise e => Raise e
  end.

Definition of_option {A} (e : exn) (o : option A) : result A :=
  match o with
  | Some a => Ok a
  | None => Raise e
  end.

(** How a run of a generator ended: exhausted, by an exception, or still
    running when the fuel of the model ran out. *)
Inductive ending : Type :=
| Exhausted
| Raised (e : exn)
| Unfinished.

(** ** Dates and times *)

Abbreviation datetime := Z (only parsing).

Definition US_PER_SECOND : Z := 1000000.
Definition US_PER_HOUR : Z := 3600 * US_PER_SECOND.
Definition US_PER_DAY : Z := 24 * US_PER_HOUR.

(** [timedelta(days=n)], [timedelta(hours=n)] for a constant [n]. *)
Definition timedelta_days (n : Z) : Z := n * US_PER_DAY.
Definition timedelta_hours (n : Z) : Z := n * US_PER_HOUR.

(** [timedelta(days=n)] for an [n] that the caller supplies: a magnitude of
    more than 999999999 days is an [OverflowError]. *)
Definition timedelta (days : Z) : result Z :=
  if bool_decide (-999999999 <= days <= 999999999)
  then Ok (timedelta_days days)
  else Raise OverflowError.

(** [datetime.min] and [datetime.max]: 0001-01-01T00:00:00 and
    9999-12-31T23:59:59.999999. *)
Definition DATETIME_MIN : Z := -62135596800 * US_PER_SECOND.
Definition DATETIME_MAX : Z := 253402300800 * US_PER_SECOND - 1.

(** [t + d] for a datetime [t] and a timedelta [d]: a result outside the
    years 1 to 9999 is an [OverflowError]. *)
Definition datetime_add (t : datetime) (d : Z) : result datetime :=
  if bool_decide (DATETIME_MIN <= t + d <= DATETIME_MAX)
  then Ok (t + d)
  else Raise OverflowError.

(** [t.replace(hour=0, minute=0, second=0, microsecond=0)]. *)
Definition replace_midnight (t : datetime) : datetime := t - t mod US_PER_DAY.

(** The calendar date of [t] as a day number; [t.strftime("%Y-%m-%d")]
    prints exactly this date. *)
Definition date_of (t : datetime) : Z := t / US_PER_DAY.

(** A datetime without time component. *)
Definition is_date (t : datetime) : Prop := t mod US_PER_DAY = 0.

(** The [seconds] attribute of a non-negative [timedelta] of less than one
    day. In general it is the seconds component after the days have been
    taken out. *)
Definition timedelta_seconds (d : Z) : Z := (d mod US_PER_DAY) / US_PER_SECOND.

(** ** Library calls *)

Abbreviation record := (gmap (list Z) (list Z)) (only parsing).

Class Externals : Type := {
  (** [singer.utils.strptime_to_utc]: [None] when the parser raises. *)
  strptime_to_utc : pystr -> option datetime;
  (** [datetime.strptime(value, fmt).strftime(singer.utils.DATETIME_FMT)]:
      [None] when [strptime] raises [ValueError]. *)
  strptime_strftime : pystr -> pystr -> option pystr;
  (** [d.strftime("%Y-%m-%d")] for the date with day number [d]. *)
  strftime_ymd : Z -> pystr;
  (** The records that singer's [Transformer] returns, with the values
      typed as the schema of the stream asks. *)
  transformed : Type;
  (** [Transformer().transform(rec, schema)] for the schema of the stream:
      the typed record, or the exception of a record that does not fit. *)
  singer_transform : record -> result transformed
}.

(** ** An executable instance of the library calls

    [iso_externals] implements the library calls on the inputs the tap
    itself reads and writes, with ASCII digits: dateutil's parser on
    [YYYY-MM-DD] and [YYYY-MM-DDTHH:MM:SSZ], and [strptime] on the compact
    formats with the regular expressions of CPython's [_strptime]. The
    properties of the engine are proved for every instance of [Externals];
    this one runs them on concrete strings. *)

Definition is_digit (lo hi c : Z) : bool := (48 + lo <=? c) && (c <=? 48 + hi).

Definition digit_val (c : Z) : Z := c - 48.

(** [int(s)] for a string of ASCII digits. *)
Definition int_of_digits (s : pystr) : option Z :=
  if forallb (is_digit 0 9) s && truthy s
  then Some (fold_left (fun acc c => 10 * acc + digit_val c) s 0)
  else None.

Definition is_leap (y : Z) : bool :=
  ((y mod 4 =? 0) && negb (y mod 100 =? 0)) || (y mod 400 =? 0).

Definition days_in_month (y m : Z) : Z :=
  if m =? 2 then (if is_leap y then 29 else 28)
  else if (m =? 4) || (m =? 6) || (m =? 9) || (m =? 11) then 30
  else 31.

(** Days from 1970-01-01 to the civil date [y]-[m]-[d]. *)
Definition days_from_civil (y m d : Z) : Z :=
  let y' := if m <=? 2 then y - 1 else y in
  let era := y' / 400 in
  let yoe := y' - era * 400 in
  let doy := (153 * (if 2 <? m then m - 3 else m + 9) + 2) / 5 + d - 1 in
  let doe := yoe * 365 + yoe / 4 - yoe / 100 + doy in
  era * 146097 + doe - 719468.

(** [datetime(y, m, d, hh, mm, ss)], [None] for [ValueError]. *)
Definition make_datetime (y m d hh mm ss : Z) : option datetime :=
  if (1 <=? y) && (y <=? 9999) && (1 <=? m) && (m <=? 12) && (1 <=? d)
     && (d <=? days_in_month y m) && (0 <=? hh) && (hh <=? 23)
     && (0 <=? mm) && (mm <=? 59) && (0 <=? ss) && (ss <=? 59)
  then Some (days_from_civil y m d * US_PER_DAY
             + ((hh * 60 + mm) * 60 + ss) * US_PER_SECOND)
  else None.

(** [s[i : i + n]]. *)
Definition slice (s : pystr) (i n : Z) : pystr :=
  take (Z.to_nat n) (drop (Z.to_nat i) s).

Definition iso_strptime_to_utc (s : pystr) : option datetime :=
  let num i n := int_of_digits (slice s i n) in
  let date_part :=
    if bool_decide (slice s 4 1 = py "-" /\ slice s 7 1 = py "-")
    then y ← num 0 4; m ← num 5 2; d ← num 8 2; Some (y, m, d)
    else None in
  '(y, m, d) ← date_part;
  if bool_decide (length s = 10%nat) then make_datetime y m d 0 0 0
  else if bool_decide (length s = 20%nat /\ slice s 10 1 = py "T"
                       /\ slice s 13 1 = py ":" /\ slice s 16 1 = py ":"
                       /\ slice s 19 1 = py "Z")
  then hh ← num 11 2; mm ← num 14 2; ss ← num 17 2; make_datetime y m d hh mm ss
  else None.

(** Regular-expression matching with backtracking: a matcher returns its
    matches (value, rest of the input) in the order the regular
    expression engine tries them. *)
Definition matcher := list Z -> list (Z * list Z).

Definition re_one (p : Z -> bool) : matcher := fun s =>
  match s with
  | a :: r => if p a then [(digit_val a, r)] else []
  | [] => []
  end.

Definition re_two (p q : Z -> bool) : matcher := fun s =>
  match s with
  | a :: b :: r =>
      if p a && q b then [(10 * digit_val a + digit_val b, r)] else []
  | _ => []
  end.

(** A space followed by a digit, as in the last alternative of [%d]. *)
Definition re_space_one (p : Z -> bool) : matcher := fun s =>
  match s with
  | a :: b :: r => if (a =? 32) && p b then [(digit_val b, r)] else []
  | _ => []
  end.

Definition re_alt (ms : list matcher) : matcher := fun s =>
  concat ((fun m => m s) <$> ms).

(** [%Y]: [\d\d\d\d]. *)
Definition re_Y : matcher := fun s =>
  match int_of_digits (take 4 s) with
  | Some y => if bool_decide (length (take 4 s) = 4%nat)
              then [(y, drop 4 s)] else []
  | None => []
  end.

(** [%m]: [1[0-2]|0[1-9]|[1-9]]. *)
Definition re_m : matcher :=
  re_alt [re_two (is_digit 1 1) (is_digit 0 2);
          re_two (is_digit 0 0) (is_digit 1 9);
          re_one (is_digit 1 9)].

(** [%d]: [3[0-1]|[1-2]\d|0[1-9]|[1-9]| [1-9]]. *)
Definition re_d : matcher :=
  re_alt [re_two (is_digit 3 3) (is_digit 0 1);
          re_two (is_digit 1 2) (is_digit 0 9);
          re_two (is_digit 0 0) (is_digit 1 9);
          re_one (is_digit 1 9);
          re_space_one (is_digit 1 9)].

(** [%H]: [2[0-3]|[0-1]\d|\d]. *)
Definition re_H : matcher :=
  re_alt [re_two (is_digit 2 2) (is_digit 0 3);
          re_two (is_digit 0 1) (is_digit 0 9);
          re_one (is_digit 0 9)].

(** [%M]: [[0-5]\d|\d]. *)
Definition re_M : matcher :=
  re_alt [re_two (is_digit 0 5) (is_digit 0 9); re_one (is_digit 0 9)].

(** A matcher for no directive: the value it yields is the default one. *)
Definition re_none (dflt : Z) : matcher := fun s => [(dflt, s)].

(** [datetime.strptime(value, fmt)] for a format made of [%Y%m%d] followed
    by the matchers [mH] and [mM]: the first match of the whole pattern is
    taken, and data left after it is a [ValueError]. *)
Definition strptime_with (mH mM : matcher) (value : pystr)
  : option (Z * Z * Z * Z * Z) :=
  let found :=
    '(y, r) ← re_Y value; '(m, r) ← re_m r; '(d, r) ← re_d r;
    '(hh, r) ← mH r; '(mm, r) ← mM r; [(y, m, d, hh, mm, r)] in
  match found with
  | (y, m, d, hh, mm, []) :: _ =>
      _ ← make_datetime y m d hh mm 0; Some (y, m, d, hh, mm)
  | _ => None
  end.

(** The decimal digits of [n], zero-padded to [width] characters. *)
Fixpoint zero_padded (width : nat) (n : Z) : pystr :=
  match width with
  | O => []
  | S w => zero_padded w (n / 10) ++ [48 + n mod 10]
  end.

(** [strftime] with [singer.utils.DATETIME_FMT],
    ["%04Y-%m-%dT%H:%M:%S.%fZ"], for whole minutes. *)
Definition strftime_singer (t : Z * Z * Z * Z * Z) : pystr :=
  let '(y, m, d, hh, mm) := t in
  zero_padded 4 y ++ py "-" ++ zero_padded 2 m ++ py "-" ++ zero_padded 2 d
  ++ py "T" ++ zero_padded 2 hh ++ py ":" ++ zero_padded 2 mm
  ++ py ":00.000000Z".

Definition iso_strptime_strftime (fmt value : pystr) : option pystr :=
  if bool_decide (fmt = py "%Y%m%d")
  then strftime_singer <$> strptime_with (re_none 0) (re_none 0) value
  else if bool_decide (fmt = py "%Y%m%d%H")
  then strftime_singer <$> strptime_with re_H (re_none 0) value
  else if bool_decide (fmt = py "%Y%m%d%H%M")
  then strftime_singer <$> strptime_with re_H re_M value
  else None.

(** The civil date [(y, m, d)] of a day number. *)
Definition civil_from_days (days : Z) : Z * Z * Z :=
  let z := days + 719468 in
  let era := z / 146097 in
  let doe := z - era * 146097 in
  let yoe := (doe - doe / 1460 + doe / 36524 - doe / 146096) / 365 in
  let doy := doe - (365 * yoe + yoe / 4 - yoe / 100) in
  let mp := (5 * doy + 2) / 153 in
  let d := doy - (153 * mp + 2) / 5 + 1 in
  let m := if mp <? 10 then mp + 3 else mp - 9 in
  ((if m <=? 2 then yoe + era * 400 + 1 else yoe + era * 400), m, d).

Definition iso_strftime_ymd (days : Z) : pystr :=
  let '(y, m, d) := civil_from_days days in
  zero_padded 4 y ++ py "-" ++ zero_padded 2 m ++ py "-" ++ zero_padded 2 d.

Definition iso_externals : Externals :=
  {| strptime_to_utc := iso_strptime_to_utc;
     strptime_strftime := iso_strptime_strftime;
     strftime_ymd := iso_strftime_ymd;
     transformed := gmap (list Z) (list Z);
     singer_transform := fun rec => Ok rec |}.

(** ** JSON and UTF-8 *)

Definition hex_digit (d : Z) : Z := if d <? 10 then 48 + d else 87 + d.

(** ['{0:04x}'.format(n)] for [0 <= n < 65536]. *)
Definition hex4 (n : Z) : pystr :=
  [hex_digit (n / 4096 mod 16); hex_digit (n / 256 mod 16);
   hex_digit (n / 16 mod 16); hex_digit (n mod 16)].

(** The replacement of one character by [json.encoder]'s
    [encode_basestring_ascii]: the short escapes, printable ASCII as it
    is, and [\uXXXX] for the rest, a surrogate pair above the basic
    plane. 92 is the backslash, 34 the double quote, 117 the letter u. *)
Definition escape_char (c : Z) : pystr :=
  if c =? 34 then [92; 34]
  else if c =? 92 then [92; 92]
  else if c =? 8 then [92; 98]
  else if c =? 12 then [92; 102]
  else if c =? 10 then [92; 110]
  else if c =? 13 then [92; 114]
  else if c =? 9 then [92; 116]
  else if (32 <=? c) && (c <=? 126) then [c]
  else if c <? 65536 then 92 :: 117 :: hex4 c
  else
    let n := c - 65536 in
    let s1 := Z.lor 0xd800 (Z.land (Z.shiftr n 10) 0x3ff) in
    let s2 := Z.lor 0xdc00 (Z.land n 0x3ff) in
    (92 :: 117 :: hex4 s1) ++ (92 :: 117 :: hex4 s2).

Definition encode_basestring_ascii (s : pystr) : pystr :=
  34 :: concat (escape_char <$> s) ++ [34].

(** The JSON values that the hash source is made of: strings and lists
    (a tuple is written as a list). *)
#[local] Set Warnings "-register-all".
Inductive json : Type :=
| JString (s : pystr)
| JArray (items : list json).
#[local] Set Warnings "register-all".

(** [json.dumps(v)] with its defaults: [ensure_ascii=True] and the
    separator [", "]. *)
Fixpoint json_dumps (v : json) : pystr :=
  match v with
  | JString s => encode_basestring_ascii s
  | JArray items =>
      let items_text :=
        fix items_text (l : list json) : pystr :=
          match l with
          | [] => []
          | x :: rest =>
              match rest with
              | [] => json_dumps x
              | _ :: _ => json_dumps x ++ py ", " ++ items_text rest
              end
          end in
      py "[" ++ items_text items ++ py "]"
  end.

(** The UTF-8 encoding of one code point; a surrogate cannot be encoded. *)
Definition utf8_char (c : Z) : option (list Z) :=
  if (c <? 0) || (0x110000 <=? c) then None
  else if c <? 0x80 then Some [c]
  else if c <? 0x800 then Some [0xc0 + c / 64; 0x80 + c mod 64]
  else if (0xd800 <=? c) && (c <? 0xe000) then None
  else if c <? 0x10000
  then Some [0xe0 + c / 4096; 0x80 + c / 64 mod 64; 0x80 + c mod 64]
  else Some [0xf0 + c / 262144; 0x80 + c / 4096 mod 64;
             0x80 + c / 64 mod 64; 0x80 + c mod 64].

(** [s.encode('utf-8')]: the bytes, or [None] for [UnicodeEncodeError]. *)
Definition encode_utf8 (s : pystr) : option (list Z) :=
  (fun chunks => concat chunks) <$> mapM utf8_char s.

(** ** SHA-256 (FIPS 180-4) on 32-bit words kept in [Z] *)

Definition w32 (x : Z) : Z := x mod 2 ^ 32.

Definition rotr (n x : Z) : Z :=
  Z.lor (Z.shiftr x n) (w32 (Z.shiftl x (32 - n))).

Definition Ch (x y z : Z) : Z :=
  Z.lxor (Z.land x y) (Z.land (Z.lxor x 0xffffffff) z).

Definition Maj (x y z : Z) : Z :=
  Z.lxor (Z.lxor (Z.land x y) (Z.land x z)) (Z.land y z).

Definition Sigma0 (x : Z) : Z := Z.lxor (Z.lxor (rotr 2 x) (rotr 13 x)) (rotr 22 x).
Definition Sigma1 (x : Z) : Z := Z.lxor (Z.lxor (rotr 6 x) (rotr 11 x)) (rotr 25 x).
Definition sigma0 (x : Z) : Z := Z.lxor (Z.lxor (rotr 7 x) (rotr 18 x)) (Z.shiftr x 3).
Definition sigma1 (x : Z) : Z := Z.lxor (Z.lxor (rotr 17 x) (rotr 19 x)) (Z.shiftr x 10).

(** The largest [r] between [lo] and [hi] with [r ^ k <= n], by
    bisection. *)
Fixpoint iroot_between (fuel : nat) (k lo hi n : Z) : Z :=
  match fuel with
  | O => lo
  | S fuel' =>
      if hi - lo <=? 1 then lo
      else
        let mid := (lo + hi) / 2 in
        if mid ^ k <=? n then iroot_between fuel' k mid hi n
        else iroot_between fuel' k lo mid n
  end.

(** The integer part of the [k]-th root of [n]. *)
Definition iroot (k n : Z) : Z := iroot_between 256 k 0 (n + 1) n.

Definition is_prime (n : Z) : bool :=
  (2 <=? n) && forallb (fun d => negb (n mod d =? 0)) (seqZ 2 (n - 2)).

Definition first_primes (count : nat) : list Z :=
  take count (List.filter is_prime (seqZ 2 400)).

(** The first 32 bits of the fractional part of the [k]-th root of [p]. *)
Definition root_fraction (k p : Z) : Z := iroot k (p * 2 ^ (32 * k)) mod 2 ^ 32.

(** The round constants: from the cube roots of the first 64 primes. *)
Definition K256 : list Z :=
  Eval vm_compute in root_fraction 3 <$> first_primes 64.

(** The eight working registers, and the hash value between blocks. *)
Definition regs : Type := Z * Z * Z * Z * Z * Z * Z * Z.

(** The initial hash value: from the square roots of the first 8 primes. *)
Definition H256 : regs :=
  Eval vm_compute in
    match root_fraction 2 <$> first_primes 8 with
    | [a; b; c; d; e; f; g; h] => (a, b, c, d, e, f, g, h)
    | _ => (0, 0, 0, 0, 0, 0, 0, 0)
    end.

(** The message with its padding: a one bit, zeros up to 56 modulo 64
    bytes, and the length in bits as a 64-bit big-endian number. *)
Definition sha_pad (msg : list Z) : list Z :=
  let len := Z.of_nat (length msg) in
  let zeros := Z.to_nat ((55 - len) mod 64) in
  let bits := 8 * len in
  msg ++ [0x80] ++ replicate zeros 0
  ++ ((fun i => (bits / 2 ^ (8 * i)) mod 256) <$> [7; 6; 5; 4; 3; 2; 1; 0]).

(** The big-endian words of a list of bytes. *)
Fixpoint be_words (bytes : list Z) : list Z :=
  match bytes with
  | b0 :: b1 :: b2 :: b3 :: rest =>
      (((b0 * 256 + b1) * 256 + b2) * 256 + b3) :: be_words rest
  | _ => []
  end.

(** The message schedule: [n] more words after the words [ws]. *)
Fixpoint schedule (n : nat) (ws : list Z) : list Z :=
  match n with
  | O => ws
  | S n' =>
      let t := length ws in
      let at_ i := nth (t - i) ws 0 in
      schedule n'
        (ws ++ [w32 (sigma1 (at_ 2%nat) + at_ 7%nat + sigma0 (at_ 15%nat)
                     + at_ 16%nat)])
  end.

Definition sha_round (r : regs) (kw : Z * Z) : regs :=
  let '(a, b, c, d, e, f, g, h) := r in
  let t1 := h + Sigma1 e + Ch e f g + fst kw + snd kw in
  let t2 := Sigma0 a + Maj a b c in
  (w32 (t1 + t2), a, b, c, w32 (d + t1), e, f, g).

(** The compression of one block of sixteen words into the hash value. *)
Definition sha_block (hv : regs) (block : list Z) : regs :=
  let ws := schedule 48 block in
  let '(a, b, c, d, e, f, g, h) := fold_left sha_round (combine K256 ws) hv in
  let '(a0, b0, c0, d0, e0, f0, g0, h0) := hv in
  (w32 (a0 + a), w32 (b0 + b), w32 (c0 + c), w32 (d0 + d),
   w32 (e0 + e), w32 (f0 + f), w32 (g0 + g), w32 (h0 + h)).

(** The hash value after the words [ws], sixteen at a time. *)
Fixpoint sha_blocks (fuel : nat) (hv : regs) (ws : list Z) : regs :=
  match fuel, ws with
  | S fuel', _ :: _ => sha_blocks fuel' (sha_block hv (take 16 ws)) (drop 16 ws)
  | _, _ => hv
  end.

Definition sha256 (msg : list Z) : regs :=
  let ws := be_words (sha_pad msg) in
  sha_blocks (length ws) H256 ws.

(** ['{:08x}'] of a word. *)
Definition hex8 (x : Z) : pystr := hex4 (x / 65536) ++ hex4 (x mod 65536).

(** [hashlib.sha256(msg).hexdigest()]. *)
Definition sha256_hexdigest (msg : list Z) : pystr :=
  let '(a, b, c, d, e, f, g, h) := sha256 msg in
  hex8 a ++ hex8 b ++ hex8 c ++ hex8 d ++ hex8 e ++ hex8 f ++ hex8 g ++ hex8 h.

(** ** Configuration and state *)

Record Config : Type := {
  cfg_start_date : pystr;
  cfg_end_date : option pystr;
  cfg_property_id : pystr
}.

(** The singer state: [{"bookmarks": {stream: {key: {...}}},
    "currently_syncing": ...}]. *)
Record State : Type := {
  bookmarks : gmap (list Z) (gmap (list Z) (gmap (list Z) (list Z)));
  currently_syncing : option pystr
}.

Definition CONVERSION_WINDOW : Z := 90.
Definition REPORT_LIMIT : Z := 100000.

(** [singer.get_bookmark(state, tap_stream_id, key, default={})]. *)
Definition get_bookmark (state : State) (tap_stream_id key : pystr)
  : gmap (list Z) (list Z) :=
  default ∅ (default ∅ (bookmarks state !! tap_stream_id) !! key).

(** [singer.write_bookmark(state, tap_stream_id, key, val)]. *)
Definition write_bookmark (state : State) (tap_stream_id key : pystr)
    (val : gmap (list Z) (list Z)) : State :=
  {| bookmarks :=
       <[tap_stream_id :=
           <[key := val]> (default ∅ (bookmarks state !! tap_stream_id))]>
         (bookmarks state);
     currently_syncing := currently_syncing state |}.

Definition get_report_start_date `{Externals} (config : Config)
    (property_id : pystr) (state : State) (tap_stream_id : pystr)
    (now : datetime) : result datetime :=
  let bookmark :=
    get_bookmark state tap_stream_id property_id !! py "last_report_date" in
  start_date <- of_option ParserError (strptime_to_utc (cfg_start_date config));;
  match bookmark with
  | None => Ok start_date
  | Some bookmark =>
      if negb (truthy bookmark) then Ok start_date
      else
        bookmark <- of_option ParserError (strptime_to_utc bookmark);;
        let conversion_day :=
          replace_midnight now - timedelta_days CONVERSION_WINDOW in
        Ok (Z.min bookmark (Z.max start_date conversion_day))
  end.

Definition get_end_date `{Externals} (config : Config) (now : datetime)
  : result datetime :=
  match cfg_end_date config with
  | Some e => of_option ParserError (strptime_to_utc e)
  | None => Ok (replace_midnight now)
  end.

(** ** Date chunks *)

(** The generator [generate_report_dates], run for at most [fuel]
    iterations of its loop: the chunks yielded, in order, and how the run
    ended. The end of a chunk is computed before the chunk is yielded, the
    start of the next one when the generator is resumed; either addition
    raises [OverflowError] when it leaves the calendar. *)
Fixpoint generate_report_dates_from (fuel : nat)
    (range_start end_date : datetime) (request_range : Z)
  : list (Z * Z) * ending :=
  match fuel with
  | O => ([], Unfinished)
  | S fuel' =>
      if range_start <=? end_date then
        match (d <- timedelta (request_range - 1);;
               datetime_add range_start d) with
        | Raise e => ([], Raised e)
        | Ok range_end =>
            let chunk :=
              (date_of range_start, date_of (Z.min end_date range_end)) in
            match datetime_add range_end (timedelta_days 1) with
            | Raise e => ([chunk], Raised e)
            | Ok range_start =>
                let '(rest, how) :=
                  generate_report_dates_from fuel' range_start end_date
                    request_range in
                (chunk :: rest, how)
            end
        end
      else ([], Exhausted)
  end.

Definition generate_report_dates (fuel : nat)
    (start_date end_date : datetime) (request_range : Z)
  : list (Z * Z) * ending :=
  generate_report_dates_from fuel start_date end_date request_range.

(** ** Requests, quota and retries *)

(** The report of a stream, as built by [sync]. *)
Record Report : Type := {
  rep_property_id : pystr;
  rep_name : pystr;
  rep_id : pystr;
  rep_metrics : list (list Z);
  rep_dimensions : list (list Z)
}.

Record Row : Type := {
  dimension_values : list (list Z);
  metric_values : list (list Z)
}.

(** A [RunReportResponse]: the header names, the rows of the page and the
    total number of rows of the query. *)
Record Response : Type := {
  dimension_headers : list (list Z);
  metric_headers : list (list Z);
  rows : list Row;
  row_count : Z
}.

Record Request : Type := {
  req_property : pystr;
  req_dimensions : list (list Z);
  req_metrics : list (list Z);
  req_start_date : Z;
  req_end_date : Z;
  req_limit : Z;
  req_offset : Z
}.

(** The remote API: the answer to the [n]-th call of [run_report], an
    exception or a response. *)
Definition Api : Type := nat -> Request -> result Response.

(** What the engine does to the world besides its output: the clock that
    [utils.now()] reads, the arguments of the calls of [time.sleep] (in
    seconds, first call first) and the requests sent. A sleep advances the
    clock by its duration; nothing else takes time. *)
Record World : Type := {
  clock : datetime;
  sleeps : list Z;
  requests : list Request
}.

Definition time_sleep (seconds : Z) (w : World) : World :=
  {| clock := clock w + seconds * US_PER_SECOND;
     sleeps := sleeps w ++ [seconds];
     requests := requests w |}.

Definition run_report (api : Api) (request : Request) (w : World)
  : World * result Response :=
  ({| clock := clock w; sleeps := sleeps w;
      requests := requests w ++ [request] |},
   api (length (requests w)) request).

(** [(t + timedelta(hours=1)).replace(minute=0, second=10, microsecond=0)]
    is the start of the hour of [t + 1h] plus ten seconds. *)
Definition seconds_to_next_hour (current_utc_time : datetime) : Z :=
  let t1 := current_utc_time + timedelta_hours 1 in
  let next_hour := t1 - t1 mod US_PER_HOUR + 10 * US_PER_SECOND in
  timedelta_seconds (next_hour - current_utc_time).

Definition sleep_if_quota_reached (ex : exn) (w : World) : World * bool :=
  match ex with
  | ResourceExhausted => (time_sleep (seconds_to_next_hour (clock w)) w, false)
  | _ => (w, false)
  end.

(** [backoff.expo] with its defaults: the wait before retry number [n]
    (counted from 0) is [2 ^ n] seconds. *)
Definition expo (n : Z) : Z := 2 ^ n.

(** [backoff.on_exception(wait_gen, exception, max_tries, jitter=None,
    giveup)] of backoff 1.8.0, around [target]. [tries] counts the calls
    made so far; [remaining] is [max_tries - tries]. A call that raises one
    of the listed exceptions evaluates [giveup(e) or max_tries_exceeded],
    [giveup] first, and re-raises when it holds; otherwise it sleeps for
    the next value of the wait generator and calls again. The loop of the
    library ends by itself: call number [max_tries] returns or re-raises,
    so that the case [O] is not reached from [on_exception]. *)
Fixpoint retry_exception {A} (remaining : nat) (tries : Z) (max_tries : Z)
    (retryable : exn -> bool) (giveup : exn -> World -> World * bool)
    (target : World -> World * result A) (w : World) : World * result A :=
  match remaining with
  | O => (w, Raise OtherError)
  | S remaining' =>
      let tries := tries + 1 in
      match target w with
      | (w, Ok ret) => (w, Ok ret)
      | (w, Raise e) =>
          if retryable e then
            let max_tries_exceeded := tries =? max_tries in
            let '(w, gave_up) := giveup e w in
            if gave_up || max_tries_exceeded then (w, Raise e)
            else
              let w := time_sleep (expo (tries - 1)) w in
              retry_exception remaining' tries max_tries retryable giveup
                target w
          else (w, Raise e)
      end
  end.

Definition on_exception {A} (max_tries : nat) (retryable : exn -> bool)
    (giveup : exn -> World -> World * bool)
    (target : World -> World * result A) : World -> World * result A :=
  retry_exception max_tries 0 (Z.of_nat max_tries) retryable giveup target.

Definition make_request_retryable (e : exn) : bool :=
  match e with
  | ServerError | TooManyRequests | ResourceExhausted => true
  | _ => false
  end.

(** The [RunReportRequest] that [make_request] builds. *)
Definition run_report_request (report : Report)
    (range_start_date range_end_date offset : Z) : Request :=
  {| req_property := py "properties/" ++ rep_property_id report;
     req_dimensions := rep_dimensions report;
     req_metrics := rep_metrics report;
     req_start_date := range_start_date;
     req_end_date := range_end_date;
     req_limit := REPORT_LIMIT;
     req_offset := offset |}.

(** The body of [make_request]. *)
Definition make_request_body (api : Api) (report : Report)
    (range_start_date range_end_date offset : Z) (w : World)
  : World * result (Response * bool * Z) :=
  let request :=
    run_report_request report range_start_date range_end_date offset in
  match run_report api request w with
  | (w, Raise e) => (w, Raise e)
  | (w, Ok response) =>
      let has_more_rows := REPORT_LIMIT + offset <? row_count response in
      let offset := offset + REPORT_LIMIT in
      (w, Ok (response, has_more_rows, offset))
  end.

Definition make_request (api : Api) (report : Report)
    (range_start_date range_end_date offset : Z)
  : World -> World * result (Response * bool * Z) :=
  on_exception 5 make_request_retryable sleep_if_quota_reached
    (make_request_body api report range_start_date range_end_date offset).

(** ** Pages *)

(** The loop of the generator [get_report] from the state
    [(offset, has_more_rows)]: the pages yielded, in order. *)
Fixpoint get_report_from (fuel : nat) (api : Api) (report : Report)
    (range_start_date range_end_date : Z) (offset : Z) (has_more_rows : bool)
    (w : World) : World * list Response * ending :=
  if has_more_rows then
    match fuel with
    | O => (w, [], Unfinished)
    | S fuel' =>
        match make_request api report range_start_date range_end_date
                offset w with
        | (w, Raise e) => (w, [], Raised e)
        | (w, Ok (response, has_more_rows, offset)) =>
            let '(w, pages, how) :=
              get_report_from fuel' api report range_start_date
                range_end_date offset has_more_rows w in
            (w, response :: pages, how)
        end
    end
  else (w, [], Exhausted).

Definition get_report (fuel : nat) (api : Api) (report : Report)
    (range_start_date range_end_date : Z) (w : World)
  : World * list Response * ending :=
  get_report_from fuel api report range_start_date range_end_date 0 true w.

(** ** Records and their primary key *)

(** Python's [<] on pairs of strings: by name, then by value, a string
    comparing by code points. *)
Definition pair_lt : relation (list Z * list Z) := lexico.

(** [not (q < p)]: what a stable sort asks before it moves [q] in front
    of [p]. *)
Definition pair_le (p q : list Z * list Z) : Prop := ~ pair_lt q p.

#[global] Instance pair_le_dec : RelDecision pair_le.
Proof. intros p q. unfold pair_le, pair_lt. apply _. Defined.

(** [sorted(l)]: the stable sort of [l]. *)
Definition sorted (l : list (list Z * list Z)) : list (list Z * list Z) :=
  merge_sort pair_le l.

Definition pair_json (p : list Z * list Z) : json :=
  JArray [JString (fst p); JString (snd p)].

Definition generate_sdc_record_hash (record : gmap (list Z) (list Z))
    (dimension_pairs : list (list Z * list Z)) : result pystr :=
  property_id <- of_option KeyError (record !! py "property_id");;
  let sorted_dimension_pairs := sorted dimension_pairs in
  start_date <- of_option KeyError (record !! py "start_date");;
  end_date <- of_option KeyError (record !! py "end_date");;
  let hash_source_data :=
    JArray [JString property_id;
            JArray (pair_json <$> sorted_dimension_pairs);
            JString start_date;
            JString end_date] in
  hash_source_bytes <-
    of_option UnicodeEncodeError (encode_utf8 (json_dumps hash_source_data));;
  Ok (sha256_hexdigest hash_source_bytes).

(** [record.update(pairs)]. *)
Definition dict_update (record : gmap (list Z) (list Z))
    (pairs : list (list Z * list Z)) : gmap (list Z) (list Z) :=
  foldl (fun m kv => <[fst kv := snd kv]> m) record pairs.

(** [l.index(x)]: the first position of [x], [None] for [ValueError]. *)
Fixpoint list_index (x : pystr) (l : list (list Z)) : option nat :=
  match l with
  | [] => None
  | y :: l' => if decide (y = x) then Some O else S <$> list_index x l'
  end.

Definition row_to_record (report : Report) (row : Row)
    (dimension_headers metric_headers : list (list Z)) : result record :=
  let record : gmap (list Z) (list Z) := ∅ in
  let dimension_values := dimension_values row in
  let dimension_pairs := zip dimension_headers dimension_values in
  let record := dict_update record dimension_pairs in
  let record := dict_update record (zip metric_headers (metric_values row)) in
  i <- of_option ValueError (list_index (py "date") dimension_headers);;
  report_date <- of_option IndexError (dimension_values !! i);;
  let record := <[py "start_date" := report_date]> record in
  let record := <[py "end_date" := report_date]> record in
  let record := <[py "property_id" := rep_property_id report]> record in
  hash <- generate_sdc_record_hash record dimension_pairs;;
  Ok (<[py "_sdc_record_hash" := hash]> record).

Definition DATETIME_FORMATS : gmap (list Z) (list Z) :=
  list_to_map [(py "dateHour", py "%Y%m%d%H");
               (py "dateHourMinute", py "%Y%m%d%H%M");
               (py "date", py "%Y%m%d");
               (py "firstSessionDate", py "%Y%m%d")].

(** [parse_datetime(field_name, value)]: [DATETIME_FORMATS[field_name]]
    raises [KeyError] for another field, and the [ValueError] of
    [strptime] is caught. *)
Definition parse_datetime `{Externals} (field_name value : pystr)
  : result (pystr * bool) :=
  fmt <- of_option KeyError (DATETIME_FORMATS !! field_name);;
  match strptime_strftime fmt value with
  | Some parsed_datetime => Ok (parsed_datetime, true)
  | None => Ok (value, false)
  end.

(** A line of the log. *)
Inductive log_line : Type :=
| RowLimitWarning (report_name : pystr).

(** The loop of [transform_datetimes] over the items that are left. *)
Fixpoint transform_datetimes_loop `{Externals}
    (items : list (list Z * list Z)) (rec : gmap (list Z) (list Z))
    (row_limit_reached : bool) : result (gmap (list Z) (list Z) * bool) :=
  match items with
  | [] => Ok (rec, row_limit_reached)
  | (field_name, value) :: items' =>
      if truthy value && bool_decide (is_Some (DATETIME_FORMATS !! field_name))
      then
        rbind (parse_datetime field_name value)
          (fun '(parsed, is_valid_datetime) =>
             transform_datetimes_loop items' (<[field_name := parsed]> rec)
               (row_limit_reached
                || (negb is_valid_datetime
                    && bool_decide (value = py "(other)"))))
      else transform_datetimes_loop items' rec row_limit_reached
  end.

(** [transform_datetimes(report_name, rec)]: the record and the lines it
    logs. The loop visits the items of the record; the order of the visit
    is that of [map_to_list]. *)
Definition transform_datetimes `{Externals} (report_name : pystr)
    (rec : gmap (list Z) (list Z))
  : result (gmap (list Z) (list Z) * list log_line) :=
  rbind (transform_datetimes_loop (map_to_list rec) rec false)
    (fun '(rec, row_limit_reached) =>
       Ok (rec,
           if row_limit_reached then [RowLimitWarning report_name] else [])).

(** ** The sync of a report *)

(** What the tap writes to its output. *)
Inductive message `{Externals} : Type :=
| RECORD (stream : pystr) (rec : transformed)
| STATE (state : State).

(** The loop over the rows of a page. *)
Fixpoint sync_rows `{Externals} (report : Report) (rows : list Row)
    (dimension_headers metric_headers : list (list Z))
    (out : list message) (log : list log_line)
  : list message * list log_line * result unit :=
  match rows with
  | [] => (out, log, Ok tt)
  | row :: rows' =>
      match row_to_record report row dimension_headers metric_headers with
      | Raise e => (out, log, Raise e)
      | Ok rec =>
          match transform_datetimes (rep_name report) rec with
          | Raise e => (out, log, Raise e)
          | Ok (rec, lines) =>
              match singer_transform rec with
              | Raise e => (out, log ++ lines, Raise e)
              | Ok rec =>
                  sync_rows report rows' dimension_headers metric_headers
                    (out ++ [RECORD (rep_name report) rec]) (log ++ lines)
              end
          end
      end
  end.

(** Everything a sync changes. *)
Record Sync `{Externals} : Type := {
  world : World;
  output : list message;
  logged : list log_line;
  state : State
}.

(** The loop [for response in get_report(...)] of [sync_report], with the
    generator resumed once per iteration: the rows of a page are written,
    then the bookmark and the state, and only then is the next page
    requested. *)
Fixpoint sync_pages `{Externals} (fuel : nat) (api : Api) (report : Report)
    (range_start_date range_end_date : Z) (offset : Z) (has_more_rows : bool)
    (st : Sync) : Sync * ending :=
  if has_more_rows then
    match fuel with
    | O => (st, Unfinished)
    | S fuel' =>
        match make_request api report range_start_date range_end_date
                offset (world st) with
        | (w, Raise e) =>
            ({| world := w; output := output st; logged := logged st;
                state := state st |}, Raised e)
        | (w, Ok (response, has_more_rows, offset)) =>
            match sync_rows report (rows response)
                    (dimension_headers response) (metric_headers response)
                    (output st) (logged st) with
            | (out, log, Raise e) =>
                ({| world := w; output := out; logged := log;
                    state := state st |}, Raised e)
            | (out, log, Ok _) =>
                let state :=
                  write_bookmark (state st) (rep_id report)
                    (rep_property_id report)
                    {[ py "last_report_date" := strftime_ymd range_end_date ]} in
                sync_pages fuel' api report range_start_date range_end_date
                  offset has_more_rows
                  {| world := w; output := out ++ [STATE state];
                     logged := log; state := state |}
            end
        end
    end
  else (st, Exhausted).

(** The loop over the chunks. *)
Fixpoint sync_chunks `{Externals} (fuel : nat) (api : Api) (report : Report)
    (chunks : list (Z * Z)) (st : Sync) : Sync * ending :=
  match chunks with
  | [] => (st, Exhausted)
  | (range_start_date, range_end_date) :: chunks' =>
      match sync_pages fuel api report range_start_date range_end_date
              0 true st with
      | (st, Exhausted) => sync_chunks fuel api report chunks' st
      | (st, how) => (st, how)
      end
  end.

(** [sync_report]: [fuel] bounds the number of chunks and the number of
    pages of a chunk. The chunks that the generator yields are synced in
    order; when all of them went through, the run ends as the generator
    did. *)
Definition sync_report `{Externals} (fuel : nat) (api : Api)
    (report : Report) (start_date end_date : datetime) (request_range : Z)
    (st : Sync) : Sync * ending :=
  let '(chunks, generated) :=
    generate_report_dates fuel start_date end_date request_range in
  match sync_chunks fuel api report chunks st with
  | (st, Exhausted) => (st, generated)
  | (st, how) => (st, how)
  end.

(** ** Specification-side definitions *)

(** The day before which attribution no longer changes:
    [today(now) - 90 days]. *)
Definition conversion_day (now : datetime) : datetime :=
  replace_midnight now - timedelta_days CONVERSION_WINDOW.

(** 2023-06-15T12:00:00Z. *)
Definition example_now : datetime := 19523 * US_PER_DAY + 12 * US_PER_HOUR.

(** The text that [json.dumps] makes of the hash source
    [[property_id, pairs, start_date, end_date]]. *)
Definition pair_text (p : list Z * list Z) : pystr :=
  py "[" ++ encode_basestring_ascii (fst p) ++ py ", "
  ++ encode_basestring_ascii (snd p) ++ py "]".

Fixpoint pairs_text (pairs : list (list Z * list Z)) : pystr :=
  match pairs with
  | [] => []
  | p :: rest =>
      match rest with
      | [] => pair_text p
      | _ :: _ => pair_text p ++ py ", " ++ pairs_text rest
      end
  end.

Definition hash_source_text (property_id : pystr)
    (pairs : list (list Z * list Z)) (start_date end_date : pystr) : pystr :=
  py "[" ++ encode_basestring_ascii property_id ++ py ", "
  ++ py "[" ++ pairs_text pairs ++ py "]" ++ py ", "
  ++ encode_basestring_ascii start_date ++ py ", "
  ++ encode_basestring_ascii end_date ++ py "]".

(** The primary key in the words of the specification: the SHA-256 hex
    digest of the UTF-8 JSON encoding of
    [[property_id, sorted pairs, start_date, end_date]]. *)
Definition record_hash (property_id : pystr)
    (pairs : list (list Z * list Z)) (start_date end_date : pystr) : pystr :=
  sha256_hexdigest (hash_source_text property_id (sorted pairs) start_date end_date).

(** The record that [row_to_record] has built when it computes the hash. *)
Definition record_before_hash (report : Report) (row : Row)
    (dimension_headers metric_headers : list (list Z)) (report_date : pystr)
  : gmap (list Z) (list Z) :=
  <[py "property_id" := rep_property_id report]>
    (<[py "end_date" := report_date]>
       (<[py "start_date" := report_date]>
          (dict_update
             (dict_update ∅ (zip dimension_headers (dimension_values row)))
             (zip metric_headers (metric_values row))))).

(** What [transform_datetimes] makes of the value of a field: a non-empty
    value of a datetime field that parses in the format of the field is
    replaced by the normalized text, every other value is kept. *)
Definition transformed_value `{Externals} (field_name value : pystr) : pystr :=
  match DATETIME_FORMATS !! field_name with
  | Some fmt =>
      if truthy value then default value (strptime_strftime fmt value)
      else value
  | None => value
  end.

(** The item is a datetime field with the value ["(other)"] that does not
    parse. *)
Definition row_limit_item `{Externals} (item : list Z * list Z) : bool :=
  match DATETIME_FORMATS !! fst item with
  | Some fmt =>
      truthy (snd item)
      && negb (bool_decide (is_Some (strptime_strftime fmt (snd item))))
      && bool_decide (snd item = py "(other)")
  | None => false
  end.

(** The field [k] of the record that a call returned, if it returned one. *)
Definition field_of (k : pystr) (r : result (gmap (list Z) (list Z)))
  : option pystr :=
  match r with
  | Ok rec => rec !! k
  | Raise _ => None
  end.

Definition is_Ok {A} (r : result A) : bool :=
  match r with
  | Ok _ => true
  | Raise _ => false
  end.

Definition example_row : Row :=
  {| dimension_values := [py "20230115"; py "US"];
     metric_values := [py "5"] |}.

(** A row with fewer dimension values and fewer metric values than
    headers. *)
Definition short_row : Row :=
  {| dimension_values := [py "20230115"]; metric_values := [py "5"] |}.

(** A code point that is a character: not a surrogate. *)
Definition scalar (c : Z) : Prop :=
  0 <= c < 0x110000 /\ ~ (0xd800 <= c < 0xe000).

(** The state after the bookmark of a chunk that ends on
    [range_end_date] has been written into [st0]. *)
Definition bookmark_state `{Externals} (report : Report) (st0 : State)
    (range_end_date : Z) : State :=
  write_bookmark st0 (rep_id report) (rep_property_id report)
    {[ py "last_report_date" := strftime_ymd range_end_date ]}.

(** The record message of a row of a page, when the row makes one. *)
Definition row_message `{Externals} (report : Report) (page : Response)
    (row : Row) : option message :=
  match row_to_record report row (dimension_headers page)
          (metric_headers page) with
  | Ok rec =>
      match transform_datetimes (rep_name report) rec with
      | Ok (rec, _) =>
          match singer_transform rec with
          | Ok rec => Some (RECORD (rep_name report) rec)
          | Raise _ => None
          end
      | Raise _ => None
      end
  | Raise _ => None
  end.

(** The record messages of the rows of a page. *)
Definition page_records `{Externals} (report : Report) (page : Response)
  : list message :=
  omap (row_message report page) (rows page).

Definition makes_message `{Externals} (report : Report) (page : Response)
    (row : Row) : bool :=
  match row_message report page row with
  | Some _ => true
  | None => false
  end.

(** Every row of the pages makes a record message. *)
Definition rows_convert `{Externals} (report : Report)
    (chunk_pages : list ((Z * Z) * list Response)) : bool :=
  forallb (fun cp =>
    forallb (fun page => forallb (makes_message report page) (rows page))
      (snd cp)) chunk_pages.

(** The pages that [get_report] yields for each chunk in turn, [None] when
    one of the runs is not exhausted within [fuel] pages. *)
Fixpoint pages_of_chunks (fuel : nat) (api : Api) (report : Report)
    (chunks : list (Z * Z)) (w : World)
  : option (list ((Z * Z) * list Response)) :=
  match chunks with
  | [] => Some []
  | chunk :: chunks' =>
      match get_report fuel api report (fst chunk) (snd chunk) w with
      | (w, pages, Exhausted) =>
          rest ← pages_of_chunks fuel api report chunks' w;
          Some ((chunk, pages) :: rest)
      | _ => None
      end
  end.

(** The output in which the state follows every page: what [sync_report]
    writes. *)
Definition pagewise_output `{Externals} (report : Report) (st0 : State)
    (chunk_pages : list ((Z * Z) * list Response)) : list message :=
  flat_map (fun cp =>
    flat_map (fun page =>
      page_records report page
      ++ [STATE (bookmark_state report st0 (snd (fst cp)))]) (snd cp))
    chunk_pages.

Definition is_state `{Externals} (m : message) : bool :=
  match m with
  | STATE _ => true
  | RECORD _ _ => false
  end.

(** A record with the three fields that the hash reads. *)
Definition hash_inputs_record (property_id start_date end_date : pystr)
  : gmap (list Z) (list Z) :=
  <[py "property_id" := property_id]>
    (<[py "start_date" := start_date]>
       (<[py "end_date" := end_date]> ∅)).

Definition scalar_pair (p : list Z * list Z) : Prop :=
  Forall scalar (fst p) /\ Forall scalar (snd p).

Definition printable (c : Z) : Prop := 32 <= c <= 126.

(** The four shapes of the escape of a character: a short escape, the
    character itself, [\uXXXX], and a surrogate pair. *)
Inductive escape_shape (c : Z) : list Z -> Prop :=
| shape_short x :
    In (c, x) [(34, 34); (92, 92); (8, 98); (12, 102); (10, 110); (13, 114);
               (9, 116)] ->
    escape_shape c [92; x]
| shape_plain :
    printable c -> c <> 34 -> c <> 92 -> escape_shape c [c]
| shape_unicode :
    0 <= c < 65536 -> ~ (0xd800 <= c < 0xe000) ->
    escape_shape c (92 :: 117 :: hex4 c)
| shape_pair hi lo :
    0xd800 <= hi < 0xdc00 -> 0xdc00 <= lo < 0xe000 ->
    c = 65536 + (hi - 0xd800) * 1024 + (lo - 0xdc00) ->
    escape_shape c ((92 :: 117 :: hex4 hi) ++ (92 :: 117 :: hex4 lo)).

(** The hash source as a JSON value. *)
Definition hash_source_data (property_id : pystr)
    (sorted_dimension_pairs : list (list Z * list Z))
    (start_date end_date : pystr) : json :=
  JArray [JString property_id;
          JArray (pair_json <$> sorted_dimension_pairs);
          JString start_date;
          JString end_date].

(** The world after [request] has been sent. *)
Definition sent (request : Request) (w : World) : World :=
  {| clock := clock w; sleeps := sleeps w;
     requests := requests w ++ [request] |}.

(** The world after [k] calls in a row, the first one being call number
    [tries + 1] of the retry loop, have sent [request], met a
    quota-exhaustion error and been retried: each one sleeps until the
    quota is reset and then for the back-off wait. *)
Fixpoint quota_waits (k : nat) (tries : Z) (request : Request) (w : World)
  : World :=
  match k with
  | O => w
  | S k' =>
      let w := sent request w in
      let w := time_sleep (seconds_to_next_hour (clock w)) w in
      let w := time_sleep (expo tries) w in
      quota_waits k' (tries + 1) request w
  end.

Definition example_world : World :=
  {| clock := example_now; sleeps := []; requests := [] |}.

(** A page of one row of a query with 150000 rows. *)
Definition example_page : Response :=
  {| dimension_headers := [py "date"; py "country"];
     metric_headers := [py "sessions"];
     rows := [example_row];
     row_count := 150000 |}.

Definition example_sync : @Sync iso_externals :=
  {| world := example_world; output := []; logged := [];
     state := {| bookmarks := ∅; currently_syncing := Some (py "sessions") |} |}.

(** An API that answers every call. *)
Definition answering (serve : nat -> Request -> Response) : Api :=
  fun n request => Ok (serve n request).

Definition always_raising (e : exn) : Api := fun _ _ => Raise e.

Definition empty_response (n : Z) : Response :=
  {| dimension_headers := []; metric_headers := []; rows := [];
     row_count := n |}.

Definition example_report : Report :=
  {| rep_property_id := py "123"; rep_name := py "sessions";
     rep_id := py "sessions"; rep_metrics := [py "sessions"];
     rep_dimensions := [py "date"; py "country"] |}.

(** Inputs of the examples: a configuration starting on 2022-01-01 and a
    state whose bookmark for stream [sessions] of property [123] is
    2023-01-01. *)
Definition example_config : Config :=
  {| cfg_start_date := py "2022-01-01T00:00:00Z";
     cfg_end_date := None;
     cfg_property_id := py "123" |}.

Definition example_state (last_report_date : pystr) : State :=
  {| bookmarks :=
       {[ py "sessions" :=
            {[ py "123" := {[ py "last_report_date" := last_report_date ]} ]} ]};
     currently_syncing := None |}.

(** [chunking span e s chunks]: [chunks] cuts the days [s .. e] into runs
    of [span] days, the last one possibly shorter. *)
Inductive chunking (span e : Z) : Z -> list (Z * Z) -> Prop :=
| chunking_last s :
    s <= e -> e <= s + span - 1 -> chunking span e s [(s, e)]
| chunking_cons s rest :
    s + span - 1 < e -> chunking span e (s + span) rest ->
    chunking span e s ((s, s + span - 1) :: rest).

(** The days of an inclusive chunk. *)
Definition chunk_days (c : Z * Z) : list Z := seqZ (fst c) (snd c - fst c + 1).

(** ** The catalog *)

(** A value of the metadata of the catalog: JSON's [null], a boolean, a
    string, or a list of strings. *)
Inductive pyvalue : Type :=
| PyNone
| PyBool (b : bool)
| PyStr (s : list Z)
| PyList (l : list (list Z)).

#[global] Instance pyvalue_eq_dec : EqDecision pyvalue.
Proof. solve_decision. Defined.

(** [bool(v)]. *)
Definition truthy_value (v : pyvalue) : bool :=
  match v with
  | PyNone => false
  | PyBool b => b
  | PyStr s => truthy s
  | PyList l => match l with [] => false | _ :: _ => true end
  end.

(** [d.get(k)]: [None] without the key. *)
Definition dict_get (d : gmap (list Z) pyvalue) (k : pystr) : pyvalue :=
  default PyNone (d !! k).

(** Compiled metadata, [metadata.to_map(...)]: the breadcrumbs, each a
    tuple of strings, with the metadata of each, in the order of the
    dictionary. *)
Abbreviation Metadata :=
  (list (list (list Z) * gmap (list Z) pyvalue)) (only parsing).

(** The loop of [sync] over the metadata of a stream: the names of the
    metrics and of the dimensions to request. Unpacking a breadcrumb that
    is not a pair raises [ValueError]. *)
Fixpoint sync_fields (items : Metadata) (metrics dimensions : list (list Z))
  : result (list (list Z) * list (list Z)) :=
  match items with
  | [] => Ok (metrics, dimensions)
  | (field_path, field_mdata) :: items' =>
      if bool_decide (field_path = []) then
        sync_fields items' metrics dimensions
      else if bool_decide (dict_get field_mdata (py "inclusion")
                           = PyStr (py "unsupported")) then
        sync_fields items' metrics dimensions
      else
        match field_path with
        | [_; field_name] =>
            if bool_decide (dict_get field_mdata (py "inclusion")
                            = PyStr (py "automatic"))
               || truthy_value (dict_get field_mdata (py "selected"))
               || (truthy_value (dict_get field_mdata (py "selected-by-default"))
                   && bool_decide (dict_get field_mdata (py "selected") = PyNone))
            then
              if bool_decide (dict_get field_mdata (py "behavior")
                              = PyStr (py "METRIC")) then
                sync_fields items' (metrics ++ [field_name]) dimensions
              else if bool_decide (dict_get field_mdata (py "behavior")
                                   = PyStr (py "DIMENSION")) then
                sync_fields items' metrics (dimensions ++ [field_name])
              else sync_fields items' metrics dimensions
            else sync_fields items' metrics dimensions
        | _ => Raise ValueError
        end
  end.

(** The schema of a field, of the five that discovery writes:
    [{"type": "string"}], [{"type": ["integer", "null"]}],
    [{"type": ["number", "null"]}], [{"type": ["string", "null"]}], and
    [{"anyOf": [{"type": ["string", "null"], "format": "date-time"},
                {"type": ["string", "null"]}]}]. *)
Inductive field_schema : Type :=
| SchemaString
| SchemaIntegerOrNull
| SchemaNumberOrNull
| SchemaStringOrNull
| SchemaDateTimeOrString.

(** The schema of a stream, [{"type": "object", "properties": {...}}]: its
    properties. *)
Abbreviation Schema := (gmap (list Z) field_schema) (only parsing).

(** A stream of the catalog: [stream.stream], [stream.tap_stream_id],
    [stream.schema.to_dict()], [stream.key_properties] and the items of
    [metadata.to_map(stream.metadata)]. *)
Record CatalogEntry : Type := {
  cat_stream : list Z;
  cat_tap_stream_id : list Z;
  cat_schema : Schema;
  cat_key_properties : list (list Z);
  cat_metadata : Metadata
}.

(** [singer.set_currently_syncing(state, tap_stream_id)]. *)
Definition set_currently_syncing (state : State) (tap_stream_id : option (list Z))
  : State :=
  {| bookmarks := bookmarks state; currently_syncing := tap_stream_id |}.

(** What [sync] writes to its output: the schema of a stream, or a line of
    [sync_report]. *)
Inductive tap_message `{Externals} : Type :=
| SCHEMA (stream : list Z) (schema : Schema) (key_properties : list (list Z))
| WRITTEN (m : message).

(** Everything a run of the tap changes. *)
Record Tap `{Externals} : Type := {
  tap_world : World;
  tap_output : list tap_message;
  tap_logged : list log_line;
  tap_state : State
}.

(** The body of the loop of [sync] for one stream. [utils.now()] reads the
    clock of the world; [singer_transform] stands for the transformer with
    the schema of this stream. *)
Definition sync_stream `{Externals} (fuel : nat) (api : Api) (config : Config)
    (stream : CatalogEntry) (t : Tap) : Tap * ending :=
  let state' :=
    set_currently_syncing (tap_state t) (Some (cat_tap_stream_id stream)) in
  let out := tap_output t ++ [WRITTEN (STATE state')] in
  let stopped e :=
    ({| tap_world := tap_world t; tap_output := out;
        tap_logged := tap_logged t; tap_state := state' |}, Raised e) in
  match sync_fields (cat_metadata stream) [] [] with
  | Raise e => stopped e
  | Ok (metrics, dimensions) =>
      match get_end_date config (clock (tap_world t)) with
      | Raise e => stopped e
      | Ok end_date =>
          let schema := cat_schema stream in
          let out :=
            out ++ [SCHEMA (cat_stream stream) schema
                      (cat_key_properties stream)] in
          let report :=
            {| rep_property_id := cfg_property_id config;
               rep_name := cat_stream stream;
               rep_id := cat_tap_stream_id stream;
               rep_metrics := metrics;
               rep_dimensions := dimensions |} in
          match get_report_start_date config (rep_property_id report) state'
                  (rep_id report) (clock (tap_world t)) with
          | Raise e =>
              ({| tap_world := tap_world t; tap_output := out;
                  tap_logged := tap_logged t; tap_state := state' |}, Raised e)
          | Ok start_date =>
              let '(st, how) :=
                sync_report fuel api report start_date end_date 7
                  {| world := tap_world t; output := [];
                     logged := tap_logged t; state := state' |} in
              let out := out ++ (WRITTEN <$> output st) in
              match how with
              | Exhausted =>
                  ({| tap_world := world st;
                      tap_output := out ++ [WRITTEN (STATE (state st))];
                      tap_logged := logged st;
                      tap_state := state st |}, Exhausted)
              | _ =>
                  ({| tap_world := world st; tap_output := out;
                      tap_logged := logged st;
                      tap_state := state st |}, how)
              end
          end
      end
  end.

(** The loop of [sync] over the selected streams. *)
Fixpoint sync_streams `{Externals} (fuel : nat) (api : Api) (config : Config)
    (selected_streams : list CatalogEntry) (t : Tap) : Tap * ending :=
  match selected_streams with
  | [] => (t, Exhausted)
  | stream :: selected_streams' =>
      match sync_stream fuel api config stream t with
      | (t, Exhausted) => sync_streams fuel api config selected_streams' t
      | (t, how) => (t, how)
      end
  end.

(** [sync(client, config, catalog, state)], for the streams that
    [catalog.get_selected_streams(state)] yields. *)
Definition sync `{Externals} (fuel : nat) (api : Api) (config : Config)
    (selected_streams : list CatalogEntry) (t : Tap) : Tap * ending :=
  match sync_streams fuel api config selected_streams t with
  | (t, Exhausted) =>
      let state' := set_currently_syncing (tap_state t) None in
      ({| tap_world := tap_world t;
          tap_output := tap_output t ++ [WRITTEN (STATE state')];
          tap_logged := tap_logged t;
          tap_state := state' |}, Exhausted)
  | (t, how) => (t, how)
  end.

(** ** Discovery ([tap_ga4/discover.py]) *)

Definition DIMENSION_INTEGER_FIELD_OVERRIDES : gset (list Z) :=
  list_to_set
    [py "cohortNthDay"; py "cohortNthMonth"; py "cohortNthWeek"; py "day";
     py "dayOfWeek"; py "hour"; py "minute"; py "month"; py "nthDay";
     py "nthHour"; py "nthMinute"; py "nthMonth"; py "nthWeek"; py "nthYear";
     py "percentScrolled"; py "week"; py "year"].

Definition DIMENSION_DATETIME_FIELD_OVERRIDES : gset (list Z) :=
  list_to_set
    [py "date"; py "dateHour"; py "dateHourMinute"; py "firstSessionDate"].

Definition FLOAT_TYPES : gset (list Z) :=
  list_to_set
    [py "TYPE_FLOAT"; py "TYPE_SECONDS"; py "TYPE_MILLISECONDS";
     py "TYPE_MINUTES"; py "TYPE_HOURS"; py "TYPE_STANDARD";
     py "TYPE_CURRENCY"; py "TYPE_FEET"; py "TYPE_MILES"; py "TYPE_METERS";
     py "TYPE_KILOMETERS"].

Definition INCOMPATIBLE_CATEGORIES : gset (list Z) := {[ py "Cohort" ]}.

(** The metadata of a dimension and of a metric that the API reports:
    [api_name], [category], and for a metric [type_.name]. *)
Record DimensionMetadata : Type := {
  dim_api_name : list Z;
  dim_category : list Z
}.

Record MetricMetadata : Type := {
  met_api_name : list Z;
  met_type : list Z;
  met_category : list Z
}.

(** [add_metrics_to_schema]: the schema with the metrics; an unknown type
    raises [Exception]. *)
Fixpoint add_metrics_to_schema (schema : Schema) (metrics : list MetricMetadata)
  : result Schema :=
  match metrics with
  | [] => Ok schema
  | metric :: metrics' =>
      let metric_type := met_type metric in
      if bool_decide (metric_type = py "TYPE_INTEGER") then
        add_metrics_to_schema
          (<[met_api_name metric := SchemaIntegerOrNull]> schema) metrics'
      else if bool_decide (metric_type ∈ FLOAT_TYPES) then
        add_metrics_to_schema
          (<[met_api_name metric := SchemaNumberOrNull]> schema) metrics'
      else Raise OtherError
  end.

Definition add_dimensions_to_schema (schema : Schema)
    (dimensions : list DimensionMetadata) : Schema :=
  foldl (fun schema dimension =>
    if bool_decide (dim_api_name dimension ∈ DIMENSION_INTEGER_FIELD_OVERRIDES)
    then <[dim_api_name dimension := SchemaIntegerOrNull]> schema
    else if bool_decide (dim_api_name dimension
                         ∈ DIMENSION_DATETIME_FIELD_OVERRIDES)
    then <[dim_api_name dimension := SchemaDateTimeOrString]> schema
    else <[dim_api_name dimension := SchemaStringOrNull]> schema)
    schema dimensions.

Definition generate_base_schema : Schema :=
  {[ py "_sdc_record_hash" := SchemaString;
     py "property_id" := SchemaString;
     py "account_id" := SchemaString ]}.

(** [metadata.write(compiled_metadata, breadcrumb, k, val)] of singer, for
    a [val] that is not [None]: the metadata of an existing breadcrumb is
    updated in its place, a new breadcrumb comes last. *)
Fixpoint metadata_write (mdata : Metadata) (breadcrumb : list (list Z))
    (k : list Z) (val : pyvalue) : Metadata :=
  match mdata with
  | [] => [(breadcrumb, {[ k := val ]})]
  | (b, d) :: mdata' =>
      if bool_decide (b = breadcrumb) then (b, <[k := val]> d) :: mdata'
      else (b, d) :: metadata_write mdata' breadcrumb k val
  end.

(** [compiled_metadata.get(breadcrumb)]. *)
Fixpoint metadata_lookup (mdata : Metadata) (breadcrumb : list (list Z))
  : option (gmap (list Z) pyvalue) :=
  match mdata with
  | [] => None
  | (b, d) :: mdata' =>
      if bool_decide (b = breadcrumb) then Some d
      else metadata_lookup mdata' breadcrumb
  end.

(** [metadata.get(compiled_metadata, breadcrumb, k)] of singer. *)
Definition metadata_get (mdata : Metadata) (breadcrumb : list (list Z))
    (k : list Z) : pyvalue :=
  dict_get (default ∅ (metadata_lookup mdata breadcrumb)) k.

(** [field_exclusions[name]] of the [defaultdict(list)]. *)
Definition exclusions_of (field_exclusions : gmap (list Z) (list (list Z)))
    (name : list Z) : list (list Z) :=
  default [] (field_exclusions !! name).

(** [generate_metadata]. [standard] is what singer's
    [metadata.get_standard_metadata] makes of the schema, compiled with
    [metadata.to_map]. *)
Definition generate_metadata (standard : Metadata)
    (dimensions : list DimensionMetadata) (metrics : list MetricMetadata)
    (field_exclusions : gmap (list Z) (list (list Z))) : Metadata :=
  let mdata := standard in
  let mdata :=
    foldl (fun mdata field_name =>
      metadata_write mdata [py "properties"; field_name] (py "inclusion")
        (PyStr (py "automatic")))
      mdata
      [py "_sdc_record_hash"; py "property_id"; py "account_id"; py "date"] in
  let mdata :=
    foldl (fun mdata field_name =>
      metadata_write mdata [py "properties"; field_name] (py "tap_ga4.group")
        (PyStr (py "Report Field")))
      mdata [py "_sdc_record_hash"; py "property_id"; py "account_id"] in
  let mdata :=
    foldl (fun mdata dimension =>
      let breadcrumb := [py "properties"; dim_api_name dimension] in
      let mdata :=
        metadata_write mdata breadcrumb (py "tap_ga4.group")
          (PyStr (dim_category dimension)) in
      let mdata :=
        metadata_write mdata breadcrumb (py "behavior")
          (PyStr (py "DIMENSION")) in
      metadata_write mdata breadcrumb (py "fieldExclusions")
        (PyList (exclusions_of field_exclusions (dim_api_name dimension))))
      mdata dimensions in
  foldl (fun mdata metric =>
    let breadcrumb := [py "properties"; met_api_name metric] in
    let mdata :=
      metadata_write mdata breadcrumb (py "tap_ga4.group")
        (PyStr (met_category metric)) in
    let mdata :=
      metadata_write mdata breadcrumb (py "behavior") (PyStr (py "METRIC")) in
    metadata_write mdata breadcrumb (py "fieldExclusions")
      (PyList (exclusions_of field_exclusions (met_api_name metric))))
    mdata metrics.

(** [generate_schema_and_metadata]. [get_standard_metadata schema] stands
    for [metadata.to_map(metadata.get_standard_metadata(schema=schema,
    key_properties=["_sdc_record_hash"], valid_replication_keys=["date"],
    replication_method=["INCREMENTAL"]))]. *)
Definition generate_schema_and_metadata
    (get_standard_metadata : Schema -> Metadata)
    (dimensions : list DimensionMetadata) (metrics : list MetricMetadata)
    (field_exclusions : gmap (list Z) (list (list Z)))
  : result (Schema * Metadata) :=
  let schema := generate_base_schema in
  let schema := add_dimensions_to_schema schema dimensions in
  schema <- add_metrics_to_schema schema metrics;;
  let mdata :=
    generate_metadata (get_standard_metadata schema) dimensions metrics
      field_exclusions in
  Ok (schema, mdata).

(** A report of the tap: its name and its id. *)
Record ReportDefinition : Type := {
  def_name : list Z;
  def_id : list Z
}.

(** [generate_catalog]: the entries of the catalog. *)
Definition generate_catalog (get_standard_metadata : Schema -> Metadata)
    (reports : list ReportDefinition)
    (dimensions : list DimensionMetadata) (metrics : list MetricMetadata)
    (field_exclusions : gmap (list Z) (list (list Z)))
  : result (list CatalogEntry) :=
  rbind (generate_schema_and_metadata get_standard_metadata dimensions metrics
           field_exclusions)
    (fun '(schema, mdata) =>
       Ok ((fun report =>
              {| cat_stream := def_name report;
                 cat_tap_stream_id := def_id report;
                 cat_schema := schema;
                 cat_key_properties := [py "_sdc_record_hash"];
                 cat_metadata := mdata |}) <$> reports)).

(** A call of a method of the client of [tap_ga4/client.py]. *)
Inductive client_call : Type :=
| GetDimensionsAndMetrics (property_id : list Z)
| CheckDimensionCompatibility (property_id : list Z) (dimension : list Z)
| CheckMetricCompatibility (property_id : list Z) (metric : list Z).

(** What the client returns: for the metadata of a property its
    dimensions and metrics, for a compatibility check the [api_name]s of
    the incompatible dimensions and metrics. *)
Record MetadataResponse : Type := {
  response_dimensions : list DimensionMetadata;
  response_metrics : list MetricMetadata
}.

Record CompatibilityResponse : Type := {
  dimension_compatibilities : list (list Z);
  metric_compatibilities : list (list Z)
}.

(** The client: the outcome of its [n]-th call. *)
Record Client : Type := {
  client_get_dimensions_and_metrics :
    nat -> list Z -> result MetadataResponse;
  client_check_dimension_compatibility :
    nat -> list Z -> DimensionMetadata -> result CompatibilityResponse;
  client_check_metric_compatibility :
    nat -> list Z -> MetricMetadata -> result CompatibilityResponse
}.

(** [for field in fields: field_exclusions[name].append(field)]. *)
Definition append_exclusions (field_exclusions : gmap (list Z) (list (list Z)))
    (name : list Z) (fields : list (list Z))
  : gmap (list Z) (list (list Z)) :=
  foldl (fun field_exclusions field =>
    <[name := exclusions_of field_exclusions name ++ [field]]> field_exclusions)
    field_exclusions fields.

(** A loop of [get_field_exclusions], the one over the dimensions or the
    one over the metrics, from the exclusions and the calls made so far:
    [api_name] reads the name of a field, [check] is the method of the
    client that the loop calls and [call] the call that it makes. *)
Fixpoint exclusions_loop {A} (api_name : A -> list Z)
    (check : nat -> list Z -> A -> result CompatibilityResponse)
    (call : list Z -> list Z -> client_call) (property_id : list Z)
    (fields : list A) (field_exclusions : gmap (list Z) (list (list Z)))
    (calls : list client_call)
  : list client_call * result (gmap (list Z) (list (list Z))) :=
  match fields with
  | [] => (calls, Ok field_exclusions)
  | field :: fields' =>
      if bool_decide (is_Some (field_exclusions !! api_name field)) then
        exclusions_loop api_name check call property_id fields'
          field_exclusions calls
      else
        let calls' := calls ++ [call property_id (api_name field)] in
        match check (length calls) property_id field with
        | Raise e => (calls', Raise e)
        | Ok res =>
            let field_exclusions :=
              append_exclusions field_exclusions (api_name field)
                (dimension_compatibilities res) in
            let field_exclusions :=
              append_exclusions field_exclusions (api_name field)
                (metric_compatibilities res) in
            exclusions_loop api_name check call property_id fields'
              field_exclusions calls'
        end
  end.

(** [get_field_exclusions]. [listed] is the content of the file
    [field_exclusions.json], a dictionary of lists of names. *)
Definition get_field_exclusions (listed : gmap (list Z) (list (list Z)))
    (client : Client) (property_id : list Z)
    (dimensions : list DimensionMetadata) (metrics : list MetricMetadata)
    (calls : list client_call)
  : list client_call * result (gmap (list Z) (list (list Z))) :=
  let field_exclusions := listed in
  match exclusions_loop dim_api_name
          (client_check_dimension_compatibility client)
          CheckDimensionCompatibility property_id dimensions field_exclusions
          calls with
  | (calls, Raise e) => (calls, Raise e)
  | (calls, Ok field_exclusions) =>
      exclusions_loop met_api_name (client_check_metric_compatibility client)
        CheckMetricCompatibility property_id metrics field_exclusions calls
  end.

(** [get_dimensions_and_metrics] of [discover.py]. *)
Definition get_dimensions_and_metrics (client : Client) (property_id : list Z)
    (calls : list client_call)
  : list client_call
    * result (list DimensionMetadata * list MetricMetadata) :=
  let call := GetDimensionsAndMetrics property_id in
  match client_get_dimensions_and_metrics client (length calls) property_id with
  | Raise e => (calls ++ [call], Raise e)
  | Ok response =>
      let dimensions :=
        filter (fun dimension => dim_category dimension ∉ INCOMPATIBLE_CATEGORIES)
          (response_dimensions response) in
      let metrics :=
        filter (fun metric => met_category metric ∉ INCOMPATIBLE_CATEGORIES)
          (response_metrics response) in
      (calls ++ [call], Ok (dimensions, metrics))
  end.

(** [discover]: the calls of the client and the catalog that is written. *)
Definition discover (get_standard_metadata : Schema -> Metadata)
    (listed : gmap (list Z) (list (list Z))) (client : Client)
    (reports : list ReportDefinition) (property_id : list Z)
  : list client_call * result (list CatalogEntry) :=
  match get_dimensions_and_metrics client property_id [] with
  | (calls, Raise e) => (calls, Raise e)
  | (calls, Ok (dimensions, metrics)) =>
      match get_field_exclusions listed client property_id dimensions metrics
              calls with
      | (calls, Raise e) => (calls, Raise e)
      | (calls, Ok field_exclusions) =>
          (calls,
           generate_catalog get_standard_metadata reports dimensions metrics
             field_exclusions)
      end
  end.

(** ** The client ([tap_ga4/client.py]) *)

(** A request to the API, of one of the three types that
    [Client._make_request] tells apart, and what the API answers. *)
Inductive api_request : Type :=
| RunReportRequest (request : Request)
| GetMetadataRequest (name : list Z)
| CheckCompatibilityRequest (property : list Z)
    (dimensions metrics : list (list Z)) (compatibility_filter : list Z).

Inductive api_response : Type :=
| RunReportResponse (response : Response)
| GetMetadataResponse (response : MetadataResponse)
| CheckCompatibilityResponse (response : CompatibilityResponse).

(** The API behind the client: the answer to the [n]-th call, through the
    method that the type of the request selects. *)
Definition DataApi : Type := nat -> api_request -> result api_response.

(** What a method of the client raises: an exception of the API, or the
    [NameError] of a name that the module does not define. *)
Inductive client_exn : Type :=
| ApiError (e : exn)
| NameError.

(** What a call of the client changes: the arguments of the calls of
    [time.sleep] and the requests sent. *)
Record ClientWorld : Type := {
  client_sleeps : list Z;
  client_requests : list api_request
}.

(** [sleep_if_quota_reached] of the class body. [seconds_to_next_hour] is
    a name of the class body too, which the body of a function does not
    see, and not a name of the module: the call raises [NameError]. *)
Definition Client_sleep_if_quota_reached (ex : exn) : client_exn + bool :=
  match ex with
  | ResourceExhausted => inl NameError
  | _ => inr false
  end.

(** [Client._make_request] under its decorator, [backoff.on_exception]
    as for [make_request]: an exception that [giveup] raises leaves the
    retry loop. *)
Fixpoint Client_retry (remaining : nat) (tries : Z) (api : DataApi)
    (request : api_request) (w : ClientWorld)
  : ClientWorld * (client_exn + api_response) :=
  match remaining with
  | O => (w, inl (ApiError OtherError))
  | S remaining' =>
      let tries := tries + 1 in
      let answer := api (length (client_requests w)) request in
      let w := {| client_sleeps := client_sleeps w;
                  client_requests := client_requests w ++ [request] |} in
      match answer with
      | Ok ret => (w, inr ret)
      | Raise e =>
          if make_request_retryable e then
            let max_tries_exceeded := tries =? 5 in
            match Client_sleep_if_quota_reached e with
            | inl raised => (w, inl raised)
            | inr gave_up =>
                if gave_up || max_tries_exceeded then (w, inl (ApiError e))
                else
                  let w := {| client_sleeps := client_sleeps w ++ [expo (tries - 1)];
                              client_requests := client_requests w |} in
                  Client_retry remaining' tries api request w
            end
          else (w, inl (ApiError e))
      end
  end.

Definition Client_make_request (api : DataApi) (request : api_request)
    (w : ClientWorld) : ClientWorld * (client_exn + api_response) :=
  Client_retry 5 0 api request w.

(** [Client.get_dimensions_and_metrics], [Client.check_metric_compatibility]
    and [Client.check_dimension_compatibility]. *)
Definition Client_get_dimensions_and_metrics (api : DataApi)
    (property_id : list Z) :=
  Client_make_request api
    (GetMetadataRequest (py "properties/" ++ property_id ++ py "/metadata")).

Definition Client_check_metric_compatibility (api : DataApi)
    (property_id : list Z) (metric : MetricMetadata) :=
  Client_make_request api
    (CheckCompatibilityRequest (py "properties/" ++ property_id) []
       [met_api_name metric] (py "INCOMPATIBLE")).

Definition Client_check_dimension_compatibility (api : DataApi)
    (property_id : list Z) (dimension : DimensionMetadata) :=
  Client_make_request api
    (CheckCompatibilityRequest (py "properties/" ++ property_id)
       [dim_api_name dimension] [] (py "INCOMPATIBLE")).

(** ** Further specification-side definitions *)

(** The number of chunks that a run of [generate_report_dates] yields. *)
Definition chunk_count (start_date end_date : datetime) (request_range : Z) : Z :=
  if start_date <=? end_date
  then (end_date - start_date) / timedelta_days request_range + 1
  else 0.

(** The chunk with number [i], counted from 0. *)
Definition nth_chunk (start_date end_date : datetime) (request_range i : Z)
  : Z * Z :=
  (date_of start_date + i * request_range,
   Z.min (date_of end_date)
     (date_of start_date + i * request_range + request_range - 1)).

(** The whole days between [t] and the end of the calendar: [t] plus [k]
    days is a datetime exactly when [k <= days_left t]. *)
Definition days_left (t : datetime) : Z := (DATETIME_MAX - t) / US_PER_DAY.

(** The start of the chunk after the last one, which the generator computes
    before it finds the loop finished. *)
Definition last_range_start (start_date end_date : datetime)
    (request_range : Z) : Z :=
  start_date
  + timedelta_days (chunk_count start_date end_date request_range * request_range).

(** The world after [k] calls in a row, the first one being call number
    [tries + 1] of the retry loop, have sent [request], met an error that
    is retried and is no quota exhaustion, and been retried: each one
    sleeps for the back-off wait. *)
Fixpoint backoff_waits (k : nat) (tries : Z) (request : Request) (w : World)
  : World :=
  match k with
  | O => w
  | S k' =>
      backoff_waits k' (tries + 1) request
        (time_sleep (expo tries) (sent request w))
  end.

(** What [make_request] returns for the answer of the API to its last
    call. *)
Definition make_request_result (offset : Z) (answer : result Response)
  : result (Response * bool * Z) :=
  match answer with
  | Ok response =>
      Ok (response, REPORT_LIMIT + offset <? row_count response,
          offset + REPORT_LIMIT)
  | Raise ex => Raise ex
  end.

(** The state that the last [STATE] message of [msgs] holds, [s0] when
    there is none. *)
Definition last_state `{Externals} (s0 : State) (msgs : list message) : State :=
  foldl (fun s m => match m with STATE s' => s' | RECORD _ _ => s end) s0 msgs.

(** A request of the report for the days [s .. e]: a page of 100000 rows at
    an offset that is a multiple of 100000. *)
Definition page_request (report : Report) (s e : Z) (request : Request) : Prop :=
  exists offset,
    request = run_report_request report s e offset
    /\ 0 <= offset /\ offset mod REPORT_LIMIT = 0.

(** An API that answers its first call with [page] and raises [ex] on
    every later call. *)
Definition failing_after_first (page : Response) (ex : exn) : Api :=
  fun n _ => match n with O => Ok page | S _ => Raise ex end.

(** A digit or a letter from a to f. *)
Definition lower_hex (c : Z) : Prop := 48 <= c <= 57 \/ 97 <= c <= 102.

(** The keys that [row_to_record] sets itself. *)
Definition reserved_fields : list (list Z) :=
  [py "_sdc_record_hash"; py "property_id"; py "start_date"; py "end_date"].

(** The condition under which [sync] requests a field: its metadata does
    not say [unsupported], and says [automatic], or holds a true
    [selected], or holds a true [selected-by-default] and no [selected]. *)
Definition field_requested (field_mdata : gmap (list Z) pyvalue) : bool :=
  negb (bool_decide (dict_get field_mdata (py "inclusion")
                     = PyStr (py "unsupported")))
  && (bool_decide (dict_get field_mdata (py "inclusion")
                   = PyStr (py "automatic"))
      || truthy_value (dict_get field_mdata (py "selected"))
      || (truthy_value (dict_get field_mdata (py "selected-by-default"))
          && bool_decide (dict_get field_mdata (py "selected") = PyNone))).

(** The name of the field of an item when it is requested with the given
    behavior. *)
Definition requested_as (behavior : list Z)
    (item : list (list Z) * gmap (list Z) pyvalue) : option (list Z) :=
  match item with
  | ([_; field_name], field_mdata) =>
      if field_requested field_mdata
         && bool_decide (dict_get field_mdata (py "behavior") = PyStr behavior)
      then Some field_name
      else None
  | _ => None
  end.

(** A breadcrumb that [sync] can read: the empty one of the stream, or a
    pair. *)
Definition breadcrumb_ok (item : list (list Z) * gmap (list Z) pyvalue) : Prop :=
  fst item = [] \/ length (fst item) = 2%nat.

(** The state that the last [STATE] message of [msgs] holds, [s0] when
    there is none. *)
Definition tap_last_state `{Externals} (s0 : State) (msgs : list tap_message)
  : State :=
  foldl (fun s m => match m with WRITTEN (STATE s') => s' | _ => s end) s0 msgs.

(** A state message with the bookmark of the report at a day from
    [start_date] to [end_date], or a record. *)
Definition state_within `{Externals} (report : Report) (st0 : State)
    (start_date end_date : datetime) (m : message) : Prop :=
  is_state m = false
  \/ exists e,
       date_of start_date <= e <= date_of end_date
       /\ m = STATE (bookmark_state report st0 e).

(** A request of a page of the report for at most [request_range] days
    from [start_date] to [end_date]. *)
Definition request_within (report : Report) (start_date end_date : datetime)
    (request_range : Z) (r : Request) : Prop :=
  req_property r = py "properties/" ++ rep_property_id report
  /\ req_dimensions r = rep_dimensions report
  /\ req_metrics r = rep_metrics report
  /\ req_limit r = 100000
  /\ 0 <= req_offset r /\ req_offset r mod 100000 = 0
  /\ date_of start_date <= req_start_date r
  /\ req_start_date r <= req_end_date r
  /\ req_end_date r <= date_of end_date
  /\ req_end_date r - req_start_date r < request_range.

(** A request that [sync] sends for a stream: a page of the fields that
    the metadata of the stream selects, for at most 7 days that end no
    later than the configured end date. *)
Definition stream_request `{Externals} (config : Config)
    (stream : CatalogEntry) (r : Request) : Prop :=
  req_property r = py "properties/" ++ cfg_property_id config
  /\ sync_fields (cat_metadata stream) [] [] = Ok (req_metrics r, req_dimensions r)
  /\ req_limit r = 100000
  /\ 0 <= req_offset r /\ req_offset r mod 100000 = 0
  /\ 0 <= req_end_date r - req_start_date r < 7
  /\ (forall e E,
        cfg_end_date config = Some e -> strptime_to_utc e = Some E ->
        req_end_date r <= date_of E).

(** The schema that discovery gives a dimension of the given name. *)
Definition dimension_schema (api_name : list Z) : field_schema :=
  if bool_decide (api_name ∈ DIMENSION_INTEGER_FIELD_OVERRIDES)
  then SchemaIntegerOrNull
  else if bool_decide (api_name ∈ DIMENSION_DATETIME_FIELD_OVERRIDES)
  then SchemaDateTimeOrString
  else SchemaStringOrNull.

(** The schema that discovery gives a metric of a known type. *)
Definition metric_schema (metric : MetricMetadata) : field_schema :=
  if bool_decide (met_type metric = py "TYPE_INTEGER")
  then SchemaIntegerOrNull
  else SchemaNumberOrNull.

(** The type of the metric is one that discovery knows. *)
Definition known_type (metric : MetricMetadata) : Prop :=
  met_type metric = py "TYPE_INTEGER" \/ met_type metric ∈ FLOAT_TYPES.

(** The three fields of the base schema. *)
Definition base_fields : list (list Z) :=
  [py "_sdc_record_hash"; py "property_id"; py "account_id"].

(** The breadcrumb of a field of the stream. *)
Definition field_breadcrumb (field_name : list Z) : list (list Z) :=
  [py "properties"; field_name].

(** The fields that discovery always includes. *)
Definition automatic_fields : list (list Z) :=
  [py "_sdc_record_hash"; py "property_id"; py "account_id"; py "date"].

(** Metadata that was edited without a change of its breadcrumbs and of
    what it says of [inclusion] and [behavior]. *)
Definition same_fields (original edited : Metadata) : Prop :=
  Forall2 (fun o e =>
    fst e = fst o
    /\ dict_get (snd e) (py "inclusion") = dict_get (snd o) (py "inclusion")
    /\ dict_get (snd e) (py "behavior") = dict_get (snd o) (py "behavior"))
    original edited.

(** The three writes of [generate_metadata] for a dimension or a metric. *)
Definition field_writes (mdata : Metadata) (api_name category behavior : list Z)
    (field_exclusions : gmap (list Z) (list (list Z))) : Metadata :=
  metadata_write
    (metadata_write
       (metadata_write mdata (field_breadcrumb api_name) (py "tap_ga4.group")
          (PyStr category))
       (field_breadcrumb api_name) (py "behavior") (PyStr behavior))
    (field_breadcrumb api_name) (py "fieldExclusions")
    (PyList (exclusions_of field_exclusions api_name)).

(** The world after [k] calls in a row, the first one being call number
    [tries + 1], have sent [request], met an error and been retried after
    the back-off wait. *)
Fixpoint client_waits (k : nat) (tries : Z) (request : api_request)
    (w : ClientWorld) : ClientWorld :=
  match k with
  | O => w
  | S k' =>
      client_waits k' (tries + 1) request
        {| client_sleeps := client_sleeps w ++ [expo tries];
           client_requests := client_requests w ++ [request] |}
  end.

(* ===================================================================== *)
(** * Part II: properties *)
(* ===================================================================== *)

(** ** Dates *)

Lemma is_date_spec t : is_date t -> t = date_of t * US_PER_DAY.
Proof.
  unfold is_date, date_of, US_PER_DAY, US_PER_HOUR, US_PER_SECOND.
  intros Hm. pose proof (Z.div_mod t (24 * (3600 * 1000000))). lia.
Qed.

Lemma date_of_mul d : date_of (d * US_PER_DAY) = d.
Proof. unfold date_of. apply Z.div_mul. discriminate. Qed.

Lemma is_date_mul d : is_date (d * US_PER_DAY).
Proof. unfold is_date. apply Z.mod_mul. discriminate. Qed.

Lemma US_PER_DAY_pos : 0 < US_PER_DAY.
Proof. reflexivity. Qed.

Lemma date_of_add_days t k : date_of (t + timedelta_days k) = date_of t + k.
Proof. unfold date_of, timedelta_days. by rewrite Z.div_add. Qed.

Lemma date_of_min a b : date_of (Z.min a b) = Z.min (date_of a) (date_of b).
Proof.
  unfold date_of. pose proof US_PER_DAY_pos.
  destruct (Z.min_spec a b) as [[Hlt ->]|[Hle ->]].
  - rewrite Z.min_l; [done|]. apply Z.div_le_mono; lia.
  - rewrite Z.min_r; [done|]. apply Z.div_le_mono; lia.
Qed.

(** ** The limits of the calendar *)

Lemma days_left_spec t k :
  t + timedelta_days k <= DATETIME_MAX <-> k <= days_left t.
Proof.
  unfold days_left, timedelta_days. pose proof US_PER_DAY_pos as HD. split.
  - intros Hle. apply Z.div_le_lower_bound; lia.
  - intros Hle.
    pose proof (Z.mul_div_le (DATETIME_MAX - t) US_PER_DAY HD). nia.
Qed.

Lemma days_left_add t k : days_left (t + timedelta_days k) = days_left t - k.
Proof.
  unfold days_left, timedelta_days.
  replace (DATETIME_MAX - (t + k * US_PER_DAY))
    with (DATETIME_MAX - t + (- k) * US_PER_DAY) by lia.
  rewrite Z.div_add by discriminate. lia.
Qed.

Lemma days_left_nonneg t : t <= DATETIME_MAX -> 0 <= days_left t.
Proof. intros Ht. apply Z.div_pos; [lia|reflexivity]. Qed.

Lemma days_left_bound t : DATETIME_MIN <= t -> days_left t <= 3652058.
Proof.
  intros Ht. unfold days_left.
  enough ((DATETIME_MAX - t) / US_PER_DAY < 3652059) by lia.
  apply Z.div_lt_upper_bound; [reflexivity|].
  revert Ht. unfold DATETIME_MIN, DATETIME_MAX, US_PER_DAY, US_PER_HOUR,
    US_PER_SECOND. lia.
Qed.

(** Adding a non-negative number of days to a datetime. *)
Lemma datetime_add_days t k :
  DATETIME_MIN <= t -> 0 <= k ->
  datetime_add t (timedelta_days k)
  = if bool_decide (k <= days_left t) then Ok (t + timedelta_days k)
    else Raise OverflowError.
Proof.
  intros Ht Hk. unfold datetime_add. pose proof US_PER_DAY_pos.
  pose proof (days_left_spec t k) as Hspec.
  assert (0 <= timedelta_days k) by (unfold timedelta_days; nia).
  repeat case_bool_decide; try done; exfalso; intuition lia.
Qed.

(** [range_start + timedelta(days=k)] with the timedelta built first. *)
Lemma timedelta_add_days t k :
  DATETIME_MIN <= t -> 0 <= k ->
  (d <- timedelta k;; datetime_add t d)
  = if bool_decide (k <= days_left t) then Ok (t + timedelta_days k)
    else Raise OverflowError.
Proof.
  intros Ht Hk. unfold timedelta. pose proof (days_left_bound t Ht).
  case_bool_decide as Hmag; cbn [rbind].
  - by apply datetime_add_days.
  - rewrite bool_decide_eq_false_2; [done|lia].
Qed.

Lemma datetime_add_Ok t d r : datetime_add t d = Ok r -> r = t + d.
Proof. unfold datetime_add. case_bool_decide; by intros [= <-]. Qed.

Lemma timedelta_add_Ok t k r :
  (d <- timedelta k;; datetime_add t d) = Ok r -> r = t + timedelta_days k.
Proof.
  unfold timedelta. case_bool_decide; cbn [rbind]; [|done].
  apply datetime_add_Ok.
Qed.

Lemma datetime_add_Raise t d e : datetime_add t d = Raise e -> e = OverflowError.
Proof. unfold datetime_add. case_bool_decide; by intros [= <-]. Qed.

Lemma timedelta_add_Raise t k e :
  (d <- timedelta k;; datetime_add t d) = Raise e -> e = OverflowError.
Proof.
  unfold timedelta. case_bool_decide; cbn [rbind]; [|by intros [= <-]].
  apply datetime_add_Raise.
Qed.

(** ** Date chunks *)

(** One iteration of the loop of [generate_report_dates]. *)
Lemma generate_report_dates_from_cases fuel s e span :
  s <= e ->
  let range_end := s + timedelta_days (span - 1) in
  let chunk := (date_of s, date_of (Z.min e range_end)) in
  generate_report_dates_from (S fuel) s e span = ([], Raised OverflowError)
  \/ generate_report_dates_from (S fuel) s e span
     = ([chunk], Raised OverflowError)
  \/ exists rest how,
       generate_report_dates_from fuel (range_end + timedelta_days 1) e span
       = (rest, how)
       /\ generate_report_dates_from (S fuel) s e span = (chunk :: rest, how).
Proof.
  intros Hse range_end chunk. cbn [generate_report_dates_from].
  destruct (Z.leb_spec s e); [|lia].
  destruct (d <- timedelta (span - 1);; datetime_add s d)
    as [r|ex] eqn:Hend.
  2:{ left. by rewrite (timedelta_add_Raise _ _ _ Hend). }
  apply timedelta_add_Ok in Hend as ->. fold range_end. fold chunk.
  destruct (datetime_add range_end (timedelta_days 1)) as [r|ex] eqn:Hnext.
  2:{ right. left. by rewrite (datetime_add_Raise _ _ _ Hnext). }
  apply datetime_add_Ok in Hnext as ->. right. right.
  destruct (generate_report_dates_from fuel
              (range_end + timedelta_days 1) e span) as [rest how].
  by exists rest, how.
Qed.

Lemma generate_report_dates_from_done fuel s e span :
  e < s -> generate_report_dates_from (S fuel) s e span = ([], Exhausted).
Proof.
  intros Hlt. cbn [generate_report_dates_from].
  by destruct (Z.leb_spec s e); [lia|].
Qed.

Lemma chunk_count_next s e span :
  0 < span -> s <= e ->
  chunk_count (s + timedelta_days (span - 1) + timedelta_days 1) e span
  = chunk_count s e span - 1.
Proof.
  intros Hspan Hse. unfold chunk_count.
  pose proof US_PER_DAY_pos as HD.
  assert (HD' : 0 < timedelta_days span) by (unfold timedelta_days; nia).
  replace (s + timedelta_days (span - 1) + timedelta_days 1)
    with (s + timedelta_days span) by (unfold timedelta_days; lia).
  destruct (Z.leb_spec s e); [|lia].
  destruct (Z.leb_spec (s + timedelta_days span) e).
  - replace (e - (s + timedelta_days span))
      with (e - s + (-1) * timedelta_days span) by lia.
    rewrite Z.div_add by lia. lia.
  - rewrite Z.div_small by lia. lia.
Qed.

Lemma chunk_count_nonneg s e span : 0 < span -> 0 <= chunk_count s e span.
Proof.
  intros Hspan. unfold chunk_count. destruct (Z.leb_spec s e); [|lia].
  pose proof US_PER_DAY_pos.
  assert (0 < timedelta_days span) by (unfold timedelta_days; nia).
  assert (0 <= (e - s) / timedelta_days span) by (apply Z.div_pos; lia).
  lia.
Qed.

Lemma nth_chunk_next s e span i :
  nth_chunk (s + timedelta_days (span - 1) + timedelta_days 1) e span i
  = nth_chunk s e span (1 + i).
Proof. unfold nth_chunk. rewrite !date_of_add_days. f_equal; lia. Qed.

Lemma nth_chunk_first s e span :
  (date_of s, date_of (Z.min e (s + timedelta_days (span - 1))))
  = nth_chunk s e span 0.
Proof. unfold nth_chunk. rewrite date_of_min, date_of_add_days. f_equal; lia. Qed.

Lemma nth_chunks_cons s e span k :
  0 < k ->
  nth_chunk s e span <$> seqZ 0 k
  = nth_chunk s e span 0
    :: (nth_chunk (s + timedelta_days (span - 1) + timedelta_days 1) e span
          <$> seqZ 0 (k - 1)).
Proof.
  intros Hk. rewrite (seqZ_cons 0 k) by lia. rewrite fmap_cons. f_equal.
  replace (Z.pred k) with (k - 1) by lia.
  rewrite <- (fmap_add_seqZ 1 0), <- list_fmap_compose.
  apply list_fmap_ext. intros _ i _. unfold compose.
  by rewrite nth_chunk_next.
Qed.

(** The run of the generator in closed form: all [c] chunks when the start
    after the last one is still a datetime, and otherwise the chunks whose
    end is one, followed by the [OverflowError]. *)
Lemma generate_report_dates_from_closed_form e span (c : nat) :
  0 < span ->
  forall s, DATETIME_MIN <= s <= DATETIME_MAX ->
  chunk_count s e span = Z.of_nat c ->
  forall fuel, (c < fuel)%nat ->
    generate_report_dates_from fuel s e span
    = if bool_decide (Z.of_nat c * span <= days_left s)
      then (nth_chunk s e span <$> seqZ 0 (Z.of_nat c), Exhausted)
      else (nth_chunk s e span <$> seqZ 0 ((days_left s + 1) / span),
            Raised OverflowError).
Proof.
  intros Hspan. induction c as [|c IH]; intros s Hs Hcount [|fuel] Hfuel;
    try lia.
  - pose proof (days_left_nonneg s ltac:(lia)).
    rewrite bool_decide_eq_true_2 by lia.
    apply generate_report_dates_from_done.
    unfold chunk_count in Hcount. destruct (Z.leb_spec s e); [|done].
    pose proof US_PER_DAY_pos.
    assert (0 < timedelta_days span) by (unfold timedelta_days; nia).
    assert (0 <= (e - s) / timedelta_days span) by (apply Z.div_pos; lia).
    lia.
  - assert (Hse : s <= e).
    { unfold chunk_count in Hcount. destruct (Z.leb_spec s e); lia. }
    pose proof (days_left_nonneg s ltac:(lia)) as Hleft.
    cbn [generate_report_dates_from]. destruct (Z.leb_spec s e); [|lia].
    rewrite timedelta_add_days by lia.
    case_bool_decide as Hend; cbn [rbind].
    2:{ rewrite bool_decide_eq_false_2 by nia.
        rewrite Z.div_small by lia. done. }
    rewrite datetime_add_days by (pose proof US_PER_DAY_pos;
                                  unfold timedelta_days; nia).
    rewrite days_left_add.
    case_bool_decide as Hnext.
    2:{ rewrite bool_decide_eq_false_2 by nia.
        replace (days_left s + 1) with (1 * span) by lia.
        rewrite Z.div_mul by lia. cbn. by rewrite nth_chunk_first. }
    set (next := s + timedelta_days (span - 1) + timedelta_days 1).
    assert (Hnext' : next = s + timedelta_days span)
      by (subst next; unfold timedelta_days; lia).
    assert (Hvalid : DATETIME_MIN <= next <= DATETIME_MAX).
    { rewrite Hnext'. split.
      - pose proof US_PER_DAY_pos. unfold timedelta_days. nia.
      - apply days_left_spec. lia. }
    rewrite (IH next Hvalid);
      [|subst next; rewrite chunk_count_next by done; lia|lia].
    assert (Hleft' : days_left next = days_left s - span)
      by (rewrite Hnext'; apply days_left_add).
    rewrite Hleft'.
    case_bool_decide as Hall.
    + rewrite bool_decide_eq_true_2 by lia.
      rewrite (nth_chunks_cons s e span (Z.of_nat (S c))) by lia.
      rewrite nth_chunk_first.
      by replace (Z.of_nat (S c) - 1) with (Z.of_nat c) by lia.
    + rewrite bool_decide_eq_false_2 by lia.
      assert (Hdiv : (days_left s - span + 1) / span
                     = (days_left s + 1) / span - 1).
      { replace (days_left s - span + 1)
          with (days_left s + 1 + (-1) * span) by lia.
        rewrite Z.div_add by lia. lia. }
      rewrite Hdiv.
      assert (1 <= (days_left s + 1) / span).
      { apply Z.div_le_lower_bound; lia. }
      rewrite (nth_chunks_cons s e span ((days_left s + 1) / span)) by lia.
      by rewrite nth_chunk_first.
Qed.

(** The start after the last chunk is a datetime when [end_date] plus the
    range is one. *)
Lemma last_range_start_spec s e span :
  0 < span ->
  (last_range_start s e span <= DATETIME_MAX
   <-> chunk_count s e span * span <= days_left s)
  /\ (s <= e -> last_range_start s e span <= e + timedelta_days span).
Proof.
  intros Hspan. unfold last_range_start. split; [apply days_left_spec|].
  intros Hse. unfold chunk_count. destruct (Z.leb_spec s e); [|lia].
  pose proof US_PER_DAY_pos.
  assert (HD : 0 < timedelta_days span) by (unfold timedelta_days; nia).
  pose proof (Z.mul_div_le (e - s) (timedelta_days span) HD).
  unfold timedelta_days in *. nia.
Qed.

Lemma generate_report_dates_from_within e span fuel :
  0 < span ->
  forall s,
    Forall (fun c => date_of s <= fst c /\ fst c <= snd c
                     /\ snd c <= date_of e /\ snd c - fst c < span)
      (fst (generate_report_dates_from fuel s e span)).
Proof.
  intros Hspan. induction fuel as [|fuel IH]; intros s; [constructor|].
  destruct (Z_le_gt_dec s e) as [Hse|Hse].
  2:{ rewrite generate_report_dates_from_done by lia. constructor. }
  assert (Hfirst : date_of s <= date_of s
                   /\ date_of s
                      <= date_of (Z.min e (s + timedelta_days (span - 1)))
                   /\ date_of (Z.min e (s + timedelta_days (span - 1)))
                      <= date_of e
                   /\ date_of (Z.min e (s + timedelta_days (span - 1)))
                      - date_of s < span).
  { rewrite date_of_min, date_of_add_days.
    assert (date_of s <= date_of e).
    { unfold date_of. apply Z.div_le_mono; [apply US_PER_DAY_pos|done]. }
    lia. }
  destruct (generate_report_dates_from_cases fuel s e span Hse)
    as [->|[->|(rest & how & Hrest & ->)]]; cbn [fst].
  - constructor.
  - apply List.Forall_cons; [exact Hfirst|constructor].
  - apply List.Forall_cons; [exact Hfirst|].
    specialize (IH (s + timedelta_days (span - 1) + timedelta_days 1)).
    rewrite Hrest in IH. cbn [fst] in IH.
    eapply list.Forall_impl; [exact IH|].
    intros c. rewrite !date_of_add_days. lia.
Qed.

Lemma generate_report_dates_from_last_end e span fuel :
  0 < span -> is_date e ->
  forall s chunks,
    is_date s -> s <= e ->
    generate_report_dates_from fuel s e span = (chunks, Exhausted) ->
    snd <$> list.last chunks = Some (date_of e).
Proof.
  intros Hspan He. induction fuel as [|fuel IH]; intros s chunks Hs Hse Hrun;
    [done|].
  set (next := s + timedelta_days (span - 1) + timedelta_days 1) in *.
  assert (Hnext : next = (date_of s + span) * US_PER_DAY).
  { subst next. rewrite (is_date_spec s Hs) at 1. unfold timedelta_days. lia. }
  destruct (generate_report_dates_from_cases fuel s e span Hse)
    as [Hrun'|[Hrun'|(rest & how & Hrest & Hrun')]];
    rewrite Hrun' in Hrun; [done|done|].
  injection Hrun as <- ->. fold next in Hrest.
  destruct (Z_le_gt_dec next e) as [Hmore|Hlast].
  - assert (Hlast : snd <$> list.last rest = Some (date_of e)).
    { apply (IH next); [rewrite Hnext; apply is_date_mul|done|done]. }
    destruct rest as [|c rest]; [done|]. by rewrite last_cons_cons.
  - destruct fuel as [|fuel]; [done|].
    rewrite generate_report_dates_from_done in Hrest by lia.
    injection Hrest as <-.
    cbn [list.last fmap option_fmap option_map snd]. do 2 f_equal.
    apply Z.min_l. pose proof US_PER_DAY_pos.
    pose proof (is_date_spec e He) as Hde.
    assert (date_of e < date_of s + span) by nia.
    unfold timedelta_days. rewrite (is_date_spec s Hs) at 1. nia.
Qed.

Lemma generate_report_dates_from_days (span e : Z) (n : nat) :
  0 < span ->
  forall s, s <= e -> e - s < Z.of_nat n * span ->
  DATETIME_MIN <= s * US_PER_DAY ->
  (s + ((e - s) / span + 1) * span) * US_PER_DAY <= DATETIME_MAX ->
  exists chunks,
    chunking span e s chunks /\
    forall fuel, (n < fuel)%nat ->
      generate_report_dates_from fuel (s * US_PER_DAY) (e * US_PER_DAY) span
      = (chunks, Exhausted).
Proof.
  intros Hspan. induction n as [|n IH]; intros s Hse Hn Hmin Hmax; [lia|].
  pose proof US_PER_DAY_pos as HD.
  assert (Hq : 0 <= (e - s) / span) by (apply Z.div_pos; lia).
  assert (Hroom : (s + span) * US_PER_DAY <= DATETIME_MAX) by nia.
  assert (Hend : (d <- timedelta (span - 1);;
                  datetime_add (s * US_PER_DAY) d)
                 = Ok ((s + span - 1) * US_PER_DAY)).
  { rewrite timedelta_add_days by lia.
    rewrite bool_decide_eq_true_2
      by (apply days_left_spec; unfold timedelta_days; nia).
    f_equal. unfold timedelta_days. lia. }
  assert (Hnext : datetime_add ((s + span - 1) * US_PER_DAY) (timedelta_days 1)
                  = Ok ((s + span) * US_PER_DAY)).
  { rewrite datetime_add_days by nia.
    rewrite bool_decide_eq_true_2
      by (apply days_left_spec; unfold timedelta_days; nia).
    f_equal. unfold timedelta_days. lia. }
  destruct (Z_le_gt_dec e (s + span - 1)) as [Hlast|Hmore].
  - exists [(s, e)]. split; [by constructor|].
    intros [|[|fuel]] Hf; try lia. cbn [generate_report_dates_from].
    rewrite Hend, Hnext.
    destruct (Z.leb_spec (s * US_PER_DAY) (e * US_PER_DAY)); [|nia].
    destruct (Z.leb_spec ((s + span) * US_PER_DAY) (e * US_PER_DAY));
      [nia|].
    rewrite Z.min_l by nia. by rewrite !date_of_mul.
  - destruct (IH (s + span)) as (rest & Hc & Hgen); [lia|lia|nia| |].
    { replace (e - (s + span)) with (e - s + (-1) * span) by lia.
      rewrite Z.div_add by lia.
      replace (s + span + ((e - s) / span + -1 + 1) * span)
        with (s + ((e - s) / span + 1) * span) by lia.
      done. }
    exists ((s, s + span - 1) :: rest). split; [constructor; [lia|done]|].
    intros [|fuel] Hf; [lia|]. cbn [generate_report_dates_from].
    rewrite Hend, Hnext.
    destruct (Z.leb_spec (s * US_PER_DAY) (e * US_PER_DAY)); [|nia].
    rewrite Hgen by lia.
    rewrite Z.min_r by nia. by rewrite !date_of_mul.
Qed.

(** For dates, the start after the last chunk in days. *)
Lemma last_range_start_days s e span :
  0 < span -> s <= e ->
  last_range_start (s * US_PER_DAY) (e * US_PER_DAY) span
  = (s + ((e - s) / span + 1) * span) * US_PER_DAY.
Proof.
  intros Hspan Hse. unfold last_range_start, chunk_count, timedelta_days.
  pose proof US_PER_DAY_pos.
  destruct (Z.leb_spec (s * US_PER_DAY) (e * US_PER_DAY)); [|nia].
  replace (e * US_PER_DAY - s * US_PER_DAY) with ((e - s) * US_PER_DAY) by lia.
  rewrite Z.div_mul_cancel_r by lia. lia.
Qed.

Lemma chunking_head span e s (chunks : list (Z * Z)) :
  chunking span e s chunks -> fst <$> head chunks = Some s.
Proof. by destruct 1. Qed.

Lemma chunking_last_end span e s (chunks : list (Z * Z)) :
  chunking span e s chunks -> snd <$> list.last chunks = Some e.
Proof.
  induction 1 as [|s rest Hlt Hc IH]; [done|].
  destruct rest; [inversion Hc|]. exact IH.
Qed.

Lemma chunking_consecutive span e s (chunks : list (Z * Z)) :
  chunking span e s chunks ->
  forall i c1 c2, chunks !! i = Some c1 -> chunks !! S i = Some c2 ->
    fst c2 = snd c1 + 1.
Proof.
  induction 1 as [|s rest Hlt Hc IH]; intros i c1 c2 H1 H2.
  - destruct i; simplify_eq/=.
  - destruct i as [|i]; simpl in *.
    + simplify_eq. apply chunking_head in Hc.
      destruct rest; simplify_eq/=. lia.
    + eauto.
Qed.

Lemma chunking_spans span e s (chunks : list (Z * Z)) :
  0 < span -> chunking span e s chunks ->
  forall i c, chunks !! i = Some c ->
    1 <= snd c - fst c + 1 <= span /\
    ((S i < length chunks)%nat -> snd c - fst c + 1 = span).
Proof.
  intros Hspan. induction 1 as [|s rest Hlt Hc IH]; intros i c Hi.
  - destruct i; simplify_eq/=. split; lia.
  - destruct i as [|i]; simpl in *.
    + simplify_eq. simpl. split; lia.
    + destruct (IH i c Hi) as [? Hfull]. split; [done|]. intros. apply Hfull. lia.
Qed.

Lemma chunking_cover span e s (chunks : list (Z * Z)) :
  0 < span -> chunking span e s chunks ->
  concat (chunk_days <$> chunks) = seqZ s (e - s + 1).
Proof.
  intros Hspan. induction 1 as [|s rest Hlt Hc IH].
  - simpl. by rewrite app_nil_r.
  - rewrite fmap_cons, concat_cons, IH. unfold chunk_days. simpl.
    replace (s + span - 1 - s + 1) with span by lia.
    replace (e - s + 1) with (span + (e - (s + span) + 1)) by lia.
    by rewrite (seqZ_app s span (e - (s + span) + 1)) by lia.
Qed.

Example iso_strptime_to_utc_epoch :
  iso_strptime_to_utc (py "1970-01-01") = Some 0
  /\ iso_strptime_to_utc (py "2000-03-01T00:00:00Z") = Some (11017 * US_PER_DAY)
  /\ iso_strptime_to_utc (py "2023-01-01") = Some (19358 * US_PER_DAY)
  /\ iso_strptime_to_utc (py "2023-02-29") = None
  /\ iso_strptime_to_utc (py "2024-02-29T23:59:59Z")
     = Some (19782 * US_PER_DAY + 86399 * US_PER_SECOND).
Proof. vm_compute. done. Qed.

Example iso_strptime_strftime_examples :
  iso_strptime_strftime (py "%Y%m%d") (py "20230115")
    = Some (py "2023-01-15T00:00:00.000000Z")
  /\ iso_strptime_strftime (py "%Y%m%d") (py "(other)") = None
  /\ iso_strptime_strftime (py "%Y%m%d") (py "notadate") = None
  /\ iso_strptime_strftime (py "%Y%m%d") (py "2023115")
    = Some (py "2023-11-05T00:00:00.000000Z")
  /\ iso_strptime_strftime (py "%Y%m%d") (py "202301151") = None
  /\ iso_strptime_strftime (py "%Y%m%d%H") (py "2023011507")
    = Some (py "2023-01-15T07:00:00.000000Z")
  /\ iso_strptime_strftime (py "%Y%m%d%H%M") (py "202301150742")
    = Some (py "2023-01-15T07:42:00.000000Z")
  /\ iso_strptime_strftime (py "%Y%m%d") (py "20230230") = None.
Proof. vm_compute. done. Qed.

(** C2, amended. For dates [start_date <= end_date] and a positive
    [span_days] such that the start of the chunk after the last one,
    [start_date] plus [n * span_days] days for the [n] chunks, is still a
    datetime (not after 9999-12-31; it is when [end_date] plus [span_days]
    days is one), [generate_report_dates] is exhausted after finitely many
    iterations and has yielded inclusive chunks of which the first starts
    at [start_date], each next one starts the day after the end of the one
    before, every one but the last spans exactly [span_days] days (the last
    between 1 and [span_days]), the last ends at [end_date], and the days
    of the chunks in order are exactly the days from [start_date] to
    [end_date], each once. When that start is after 9999-12-31 the
    generator raises [OverflowError] instead of ending. For
    [start_date > end_date] nothing is yielded and nothing is raised. *)
Theorem generate_report_dates_chunks (start_date end_date span_days : Z) :
  is_date start_date -> is_date end_date -> 0 < span_days ->
  DATETIME_MIN <= start_date <= DATETIME_MAX ->
  (end_date < start_date ->
     forall fuel,
       generate_report_dates (S fuel) start_date end_date span_days
       = ([], Exhausted))
  /\ (start_date <= end_date ->
      last_range_start start_date end_date span_days <= DATETIME_MAX ->
      exists chunks : list (Z * Z),
        (exists n, forall fuel, (n < fuel)%nat ->
           generate_report_dates fuel start_date end_date span_days
           = (chunks, Exhausted))
        /\ fst <$> head chunks = Some (date_of start_date)
        /\ snd <$> list.last chunks = Some (date_of end_date)
        /\ (forall i c1 c2,
              chunks !! i = Some c1 -> chunks !! S i = Some c2 ->
              fst c2 = snd c1 + 1)
        /\ (forall i c, chunks !! i = Some c ->
              1 <= snd c - fst c + 1 <= span_days
              /\ ((S i < length chunks)%nat -> snd c - fst c + 1 = span_days))
        /\ concat (chunk_days <$> chunks)
           = seqZ (date_of start_date)
               (date_of end_date - date_of start_date + 1))
  /\ (start_date <= end_date ->
      DATETIME_MAX < last_range_start start_date end_date span_days ->
      exists n, forall fuel, (n < fuel)%nat ->
        snd (generate_report_dates fuel start_date end_date span_days)
        = Raised OverflowError)
  /\ (start_date <= end_date ->
      end_date + timedelta_days span_days <= DATETIME_MAX ->
      last_range_start start_date end_date span_days <= DATETIME_MAX).
Proof.
  intros Hs He Hspan Hvalid. split; [|split; [|split]].
  - intros Hlt fuel. unfold generate_report_dates.
    by apply generate_report_dates_from_done.
  - intros Hle Hlast.
    rewrite (is_date_spec _ Hs) in Hvalid.
    rewrite (is_date_spec _ Hs), (is_date_spec _ He) in Hle, Hlast |- *.
    rewrite !date_of_mul in *.
    set (s := date_of start_date) in *. set (e := date_of end_date) in *.
    pose proof US_PER_DAY_pos.
    assert (Hse : s <= e) by nia.
    rewrite last_range_start_days in Hlast by done.
    destruct (generate_report_dates_from_days span_days e
                (Z.to_nat (e - s + 1)) Hspan s Hse) as (chunks & Hc & Hgen);
      [nia|lia|done|].
    exists chunks. split; [by eexists|].
    eauto 10 using chunking_head, chunking_last_end, chunking_consecutive,
      chunking_spans, chunking_cover.
  - intros Hle Hlast.
    pose proof (chunk_count_nonneg start_date end_date span_days Hspan) as Hn.
    exists (Z.to_nat (chunk_count start_date end_date span_days)).
    intros fuel Hfuel. unfold generate_report_dates.
    rewrite (generate_report_dates_from_closed_form end_date span_days
               (Z.to_nat (chunk_count start_date end_date span_days)) Hspan
               start_date Hvalid) by (rewrite ?Z2Nat.id; done).
    rewrite Z2Nat.id by done.
    rewrite bool_decide_eq_false_2; [done|].
    intros Hroom.
    apply (last_range_start_spec start_date end_date span_days Hspan) in Hroom.
    lia.
  - intros Hle Hend.
    pose proof (last_range_start_spec start_date end_date span_days Hspan)
      as [_ Hbound].
    specialize (Hbound Hle). lia.
Qed.

Lemma generate_report_dates_chunks_witness :
  exists chunks : list (Z * Z),
    (exists n, forall fuel, (n < fuel)%nat ->
       generate_report_dates fuel (19358 * US_PER_DAY) (19367 * US_PER_DAY) 7
       = (chunks, Exhausted))
    /\ concat (chunk_days <$> chunks) = seqZ 19358 10.
Proof.
  destruct (generate_report_dates_chunks
              (19358 * US_PER_DAY) (19367 * US_PER_DAY) 7) as (_ & Hc & _);
    [reflexivity | reflexivity | lia | vm_compute; split; discriminate |].
  destruct Hc as (chunks & Hgen & _ & _ & _ & _ & Hcover);
    [vm_compute; discriminate..|].
  exists chunks. split; [exact Hgen|]. exact Hcover.
Defined.

(** The chunks from 2023-01-01 to 2023-01-10 with a span of 3000000 days:
    the end of the first chunk would be in the year 10236, and the
    generator raises before it has yielded anything. *)
Lemma generate_report_dates_overflow_counterexample :
  19358 * US_PER_DAY <= 19367 * US_PER_DAY /\ 0 < 3000000
  /\ forall fuel chunks,
       generate_report_dates fuel (19358 * US_PER_DAY) (19367 * US_PER_DAY)
         3000000 <> (chunks, Exhausted)
       /\ generate_report_dates (S fuel) (19358 * US_PER_DAY)
            (19367 * US_PER_DAY) 3000000
          = ([], Raised OverflowError).
Proof.
  split; [vm_compute; discriminate|]. split; [lia|].
  intros fuel chunks. split; [|reflexivity].
  destruct fuel; [discriminate|]. discriminate.
Qed.

Example generate_report_dates_ten_days :
  generate_report_dates 3 (19358 * US_PER_DAY) (19367 * US_PER_DAY) 7
  = ([(19358, 19364); (19365, 19367)], Exhausted).
Proof. reflexivity. Qed.

(** With a time of day in the start date that is later than that of the
    end date, the last day is not in a chunk. *)
Example generate_report_dates_time_of_day :
  generate_report_dates 3 (19358 * US_PER_DAY + 12 * US_PER_HOUR)
    (19365 * US_PER_DAY) 7
  = ([(19358, 19364)], Exhausted).
Proof. reflexivity. Qed.

(** From 9999-12-28 to 9999-12-31 with a span of 7 days, the end of the
    first chunk would be 10000-01-03; with a span of 4 days the chunk is
    yielded and the start of the next one, 10000-01-01, raises. *)
Example generate_report_dates_end_of_calendar :
  generate_report_dates 3 (2932893 * US_PER_DAY) (2932896 * US_PER_DAY) 7
  = ([], Raised OverflowError)
  /\ generate_report_dates 3 (2932893 * US_PER_DAY) (2932896 * US_PER_DAY) 4
     = ([(2932893, 2932896)], Raised OverflowError)
  /\ generate_report_dates 3 (2932892 * US_PER_DAY) (2932895 * US_PER_DAY) 4
     = ([(2932892, 2932895)], Exhausted).
Proof. repeat split; reflexivity. Qed.

(** ** The start date of a report *)

(** C5, amended. Without a stored [last_report_date] (or with an empty
    one) [get_report_start_date] returns the configured start date;
    otherwise it returns [min(bookmark, max(start_date, conversion_day))],
    so that a bookmark older than the conversion day yields the bookmark
    itself, and a bookmark within the window and after the configured
    start yields [max(start_date, conversion_day)]. *)
Theorem get_report_start_date_cases `{Externals} (config : Config)
    (property_id tap_stream_id : pystr) (state : State) (now start : Z) :
  strptime_to_utc (cfg_start_date config) = Some start ->
  let stored :=
    get_bookmark state tap_stream_id property_id !! py "last_report_date" in
  let returned :=
    get_report_start_date config property_id state tap_stream_id now in
  ((stored = None \/ stored = Some []) -> returned = Ok start)
  /\ (forall b bk,
        stored = Some b -> truthy b = true -> strptime_to_utc b = Some bk ->
        returned = Ok (Z.min bk (Z.max start (conversion_day now)))
        /\ (bk < conversion_day now -> returned = Ok bk)
        /\ (conversion_day now <= bk -> start < bk ->
            returned = Ok (Z.max start (conversion_day now)))).
Proof.
  intros Hstart stored returned. subst returned.
  unfold get_report_start_date. fold stored. rewrite Hstart. simpl.
  split.
  - by intros [-> | ->].
  - intros b bk -> Hb Hbk. rewrite Hb, Hbk. simpl. fold (conversion_day now).
    split; [done|]. split; intros; f_equal; lia.
Qed.

Example get_report_start_date_old_bookmark :
  conversion_day example_now = 19433 * US_PER_DAY
  /\ iso_strptime_to_utc (py "2023-01-01") = Some (19358 * US_PER_DAY)
  /\ iso_strptime_to_utc (py "2022-01-01T00:00:00Z") = Some (18993 * US_PER_DAY)
  /\ @get_report_start_date iso_externals example_config (py "123")
       (example_state (py "2023-01-01")) (py "sessions") example_now
     = Ok (19358 * US_PER_DAY).
Proof. vm_compute. done. Qed.

Example get_report_start_date_recent_bookmark :
  iso_strptime_to_utc (py "2023-06-01") = Some (19509 * US_PER_DAY)
  /\ @get_report_start_date iso_externals example_config (py "123")
       (example_state (py "2023-06-01")) (py "sessions") example_now
     = Ok (19433 * US_PER_DAY).
Proof. vm_compute. done. Qed.

(** The specification has a bookmark older than the conversion day yield
    [max(start_date, conversion_day)]. This fails: the bookmark 2023-01-01
    read on 2023-06-15 is returned as it is. *)
Lemma get_report_start_date_old_bookmark_counterexample :
  ~ (forall (E : Externals) (config : Config) (property_id tap_stream_id : pystr)
            (state : State) (now start : Z) (b : pystr) (bk : Z),
       strptime_to_utc (cfg_start_date config) = Some start ->
       get_bookmark state tap_stream_id property_id !! py "last_report_date"
       = Some b ->
       strptime_to_utc b = Some bk ->
       bk < conversion_day now ->
       get_report_start_date config property_id state tap_stream_id now
       = Ok (Z.max start (conversion_day now))).
Proof.
  intros Hclaim.
  specialize (Hclaim iso_externals example_config (py "123") (py "sessions")
                (example_state (py "2023-01-01")) example_now
                (18993 * US_PER_DAY) (py "2023-01-01") (19358 * US_PER_DAY)).
  vm_compute in Hclaim.
  specialize (Hclaim eq_refl eq_refl eq_refl eq_refl). discriminate.
Qed.

Lemma get_report_start_date_cases_witness :
  @get_report_start_date iso_externals example_config (py "123")
    (example_state (py "2023-01-01")) (py "sessions") example_now
  = Ok (19358 * US_PER_DAY).
Proof.
  destruct (@get_report_start_date_cases iso_externals example_config
              (py "123") (py "sessions") (example_state (py "2023-01-01"))
              example_now (18993 * US_PER_DAY)) as [_ Hpresent];
    [vm_compute; reflexivity|].
  destruct (Hpresent (py "2023-01-01") (19358 * US_PER_DAY))
    as (_ & Hold & _); [vm_compute; reflexivity..|].
  apply Hold. vm_compute. reflexivity.
Defined.

(** ** Quota exhaustion and the retry cap *)

Lemma seconds_to_next_hour_spec (t : Z) :
  let top := (t / US_PER_HOUR + 1) * US_PER_HOUR in
  let q := seconds_to_next_hour t in
  10 <= q <= 3610
  /\ t + q * US_PER_SECOND <= top + 10 * US_PER_SECOND
     < t + (q + 1) * US_PER_SECOND.
Proof.
  unfold seconds_to_next_hour, timedelta_seconds, timedelta_hours,
    US_PER_DAY, US_PER_HOUR, US_PER_SECOND.
  cbv zeta. Z.div_mod_to_equations. lia.
Qed.

Lemma run_report_sent api request w :
  run_report api request w = (sent request w, api (length (requests w)) request).
Proof. done. Qed.

Section retries.
Context (api : Api) (report : Report) (range_start_date range_end_date : Z).
Context (offset : Z).

Let request := run_report_request report range_start_date range_end_date offset.
Let body := make_request_body api report range_start_date range_end_date offset.
Let retry (remaining : nat) (tries : Z) :=
  retry_exception remaining tries 5 make_request_retryable
    sleep_if_quota_reached body.

Lemma requests_quota_waits k : forall tries w,
  requests (quota_waits k tries request w)
  = requests w ++ replicate k request.
Proof.
  induction k as [|k IH]; intros tries w; simpl.
  - by rewrite app_nil_r.
  - rewrite IH. simpl. by rewrite <- app_assoc.
Qed.

Lemma retry_ok remaining tries w response :
  api (length (requests w)) request = Ok response ->
  retry (S remaining) tries w
  = (sent request w,
     Ok (response, REPORT_LIMIT + offset <? row_count response,
         offset + REPORT_LIMIT)).
Proof.
  intros Hok. unfold retry, body. simpl. unfold make_request_body.
  fold request. rewrite run_report_sent, Hok. done.
Qed.

Lemma retry_quota_last tries w :
  api (length (requests w)) request = Raise ResourceExhausted ->
  tries + 1 = 5 ->
  forall remaining,
    retry (S remaining) tries w
    = (time_sleep (seconds_to_next_hour (clock w)) (sent request w),
       Raise ResourceExhausted).
Proof.
  intros Hq Htries remaining. unfold retry, body. simpl.
  unfold make_request_body. fold request. rewrite run_report_sent, Hq. simpl.
  rewrite Htries. done.
Qed.

Lemma retry_quota_waits k : forall remaining tries w,
  (forall i, (i < k)%nat ->
     api (length (requests w) + i)%nat request = Raise ResourceExhausted) ->
  tries + Z.of_nat k < 5 ->
  retry (k + remaining) tries w
  = retry remaining (tries + Z.of_nat k) (quota_waits k tries request w).
Proof.
  induction k as [|k IH]; intros remaining tries w Hq Htries.
  - simpl. by rewrite Z.add_0_r.
  - change (S k + remaining)%nat with (S (k + remaining)).
    unfold retry at 1. simpl. fold body. unfold body at 1.
    unfold make_request_body. fold request.
    rewrite run_report_sent.
    rewrite <- (Nat.add_0_r (length (requests w))), Hq by lia. simpl.
    destruct (Z.eqb_spec (tries + 1) 5) as [|_]; [lia|].
    replace (tries + 1 - 1) with tries by lia.
    fold (retry (k + remaining) (tries + 1)).
    rewrite IH.
    + f_equal. lia.
    + intros i Hi. simpl. rewrite length_app. simpl.
      rewrite <- Hq with (i := S i) by lia. f_equal. lia.
    + lia.
Qed.

End retries.

(** Five quota-exhaustion errors in a row, from 12:00:00: every one is
    slept out, the first four are followed by the back-off wait, and the
    fifth is raised. *)
Example make_request_five_quota_errors :
  let '(w, r) := make_request (always_raising ResourceExhausted)
                   example_report 19358 19364 0 example_world in
  r = Raise ResourceExhausted
  /\ sleeps w = [3610; 1; 3599; 2; 3598; 4; 3596; 8; 3592]
  /\ length (requests w) = 5%nat.
Proof. vm_compute. done. Qed.

(** The specification has quota-exhaustion errors alone never surface an
    error. This fails on an API whose quota stays exhausted. *)
Lemma make_request_quota_counterexample :
  ~ (forall (api : Api) (report : Report) (s e offset : Z) (w : World),
       (forall n request ex, api n request = Raise ex -> ex = ResourceExhausted) ->
       forall w' ex, make_request api report s e offset w <> (w', Raise ex)).
Proof.
  intros Hclaim.
  eapply (Hclaim (always_raising ResourceExhausted) example_report
            19358 19364 0 example_world).
  - intros n request ex [= <-]. reflexivity.
  - vm_compute. reflexivity.
Qed.

(** C3, amended. On a quota-exhaustion error [make_request] sleeps for
    [seconds_to_next_hour()] seconds, the whole seconds left until ten
    seconds past the top of the next UTC hour, then for the back-off wait,
    and calls again; the error counts toward the cap of five calls like any
    other: after up to four quota-exhaustion errors in a row a successful
    call returns its response, and the fifth quota-exhaustion error in a
    row is slept out and then raised to the caller. *)
Theorem make_request_quota_exhaustion (api : Api) (report : Report)
    (range_start_date range_end_date offset : Z) (w : World) (k : nat) :
  let request :=
    run_report_request report range_start_date range_end_date offset in
  (forall i, (i < k)%nat ->
     api (length (requests w) + i)%nat request = Raise ResourceExhausted) ->
  (forall t,
     10 <= seconds_to_next_hour t <= 3610
     /\ t + seconds_to_next_hour t * US_PER_SECOND
        <= (t / US_PER_HOUR + 1) * US_PER_HOUR + 10 * US_PER_SECOND
        < t + (seconds_to_next_hour t + 1) * US_PER_SECOND)
  /\ (forall response,
        (k <= 4)%nat ->
        api (length (requests w) + k)%nat request = Ok response ->
        make_request api report range_start_date range_end_date offset w
        = (sent request (quota_waits k 0 request w),
           Ok (response, REPORT_LIMIT + offset <? row_count response,
               offset + REPORT_LIMIT)))
  /\ (k = 5%nat ->
      let w4 := quota_waits 4 0 request w in
      make_request api report range_start_date range_end_date offset w
      = (time_sleep (seconds_to_next_hour (clock w4)) (sent request w4),
         Raise ResourceExhausted)).
Proof.
  intros request Hq. subst request.
  split; [exact seconds_to_next_hour_spec|]. split.
  - intros response Hk Hok.
    unfold make_request, on_exception.
    replace 5%nat with (k + S (4 - k))%nat by lia.
    replace (Z.of_nat (k + S (4 - k))) with 5 by lia.
    rewrite retry_quota_waits by (auto || lia).
    apply retry_ok.
    by rewrite requests_quota_waits, length_app, length_replicate.
  - intros -> w4. subst w4. unfold make_request, on_exception.
    change 5%nat with (4 + 1)%nat at 1. change (Z.of_nat 5) with 5.
    rewrite retry_quota_waits by (auto || lia).
    apply retry_quota_last; [|done].
    rewrite requests_quota_waits, length_app, length_replicate.
    apply Hq. lia.
Qed.

Lemma make_request_quota_exhaustion_witness :
  exists w,
    make_request (always_raising ResourceExhausted) example_report
      19358 19364 0 example_world
    = (w, Raise ResourceExhausted).
Proof.
  destruct (make_request_quota_exhaustion
              (always_raising ResourceExhausted) example_report
              19358 19364 0 example_world 5) as (_ & _ & Hfive);
    [reflexivity|].
  eexists. apply Hfive. reflexivity.
Defined.

(** ** Pages *)

Section pages.
Context (serve : nat -> Request -> Response) (report : Report).
Context (range_start_date range_end_date : Z).

Let request_at := run_report_request report range_start_date range_end_date.
Let pages_from (fuel : nat) :=
  get_report_from fuel (answering serve) report range_start_date range_end_date.

Lemma get_report_from_step fuel offset w :
  pages_from (S fuel) offset true w
  = let response := serve (length (requests w)) (request_at offset) in
    let '(w', pages, how) :=
      pages_from fuel (offset + REPORT_LIMIT)
        (REPORT_LIMIT + offset <? row_count response)
        (sent (request_at offset) w) in
    (w', response :: pages, how).
Proof. reflexivity. Qed.

Lemma get_report_from_done fuel offset w :
  pages_from fuel offset false w = (w, [], Exhausted).
Proof. by destruct fuel. Qed.

Lemma get_report_from_exhausted fuel : forall offset w w' pages,
  pages_from fuel offset true w = (w', pages, Exhausted) ->
  exists reqs : list Request,
    requests w' = requests w ++ reqs
    /\ length reqs = length pages
    /\ pages <> []
    /\ (forall (i : nat) request, reqs !! i = Some request ->
          request = request_at (offset + Z.of_nat i * REPORT_LIMIT)
          /\ pages !! i = Some (serve (length (requests w) + i)%nat request))
    /\ (forall (i : nat) page, pages !! i = Some page ->
          is_Some (pages !! S i)
          <-> offset + Z.of_nat i * REPORT_LIMIT + REPORT_LIMIT
              < row_count page).
Proof.
  induction fuel as [|fuel IH]; intros offset w w' pages Hrun; [done|].
  rewrite get_report_from_step in Hrun. cbv zeta in Hrun.
  set (response := serve (length (requests w)) (request_at offset)) in *.
  destruct (Z.ltb_spec (REPORT_LIMIT + offset) (row_count response)) as [Hmore|Hlast].
  - destruct (pages_from fuel (offset + REPORT_LIMIT) true
                (sent (request_at offset) w)) as [[w1 rest] how] eqn:Hrest.
    injection Hrun as <- <- ->.
    destruct (IH _ _ _ _ Hrest) as (reqs & Hreqs & Hlen & Hne & Hat & Hnext).
    exists (request_at offset :: reqs). simpl in Hreqs.
    split; [by rewrite Hreqs, <- app_assoc|].
    split; [simpl; by rewrite Hlen|]. split; [done|]. split.
    + intros [|i] request Hi; simpl in *.
      * injection Hi as <-. split; [f_equal; lia|].
        by rewrite Nat.add_0_r.
      * destruct (Hat i request Hi) as [-> Hpage]. split; [f_equal; lia|].
        rewrite Hpage. do 2 f_equal. rewrite length_app. simpl. lia.
    + intros [|i] page Hi; simpl in *.
      * injection Hi as <-. split; [lia|]. intros _.
        destruct rest; [done|]. by eexists.
      * rewrite (Hnext i page Hi). lia.
  - rewrite get_report_from_done in Hrun. injection Hrun as <- <-.
    exists [request_at offset]. split; [done|]. split; [done|].
    split; [done|]. split.
    + intros [|i] request Hi; simplify_eq/=. split; [f_equal; lia|].
      by rewrite Nat.add_0_r.
    + intros [|i] page Hi; simplify_eq/=. split; [by intros [? ?]|lia].
Qed.

Lemma get_report_from_terminates bound :
  (forall n request, row_count (serve n request) <= bound) ->
  forall fuel offset w,
    (1 <= fuel)%nat -> bound - offset < Z.of_nat fuel * REPORT_LIMIT ->
    exists w' pages, pages_from fuel offset true w = (w', pages, Exhausted).
Proof.
  intros Hbound. induction fuel as [|fuel IH]; intros offset w Hfuel Hlt; [lia|].
  rewrite get_report_from_step. cbv zeta.
  set (response := serve (length (requests w)) (request_at offset)).
  pose proof (Hbound (length (requests w)) (request_at offset)) as Hrc.
  fold response in Hrc.
  destruct (Z.ltb_spec (REPORT_LIMIT + offset) (row_count response)) as [Hmore|Hlast].
  - destruct (IH (offset + REPORT_LIMIT) (sent (request_at offset) w))
      as (w' & pages & ->); [unfold REPORT_LIMIT in *; lia..|].
    by eexists _, _.
  - rewrite get_report_from_done. by eexists _, _.
Qed.

End pages.

(** C6. With an API that answers every call, [get_report] sends its
    requests at the offsets 0, 100000, 200000, ... with limit 100000 and
    yields the response to each; after the page fetched at [offset] it
    yields a further page exactly when the [row_count] of that page exceeds
    [offset + 100000], and the run ends when the reported row counts are
    bounded. A query that reports 250000 rows yields exactly three pages, at
    the offsets 0, 100000 and 200000, and a first page that reports at most
    100000 rows is the only page. *)
Theorem get_report_pages (serve : nat -> Request -> Response)
    (report : Report) (range_start_date range_end_date : Z) (w : World) :
  let api := answering serve in
  let request_at := run_report_request report range_start_date range_end_date in
  (forall fuel w' pages,
     get_report fuel api report range_start_date range_end_date w
     = (w', pages, Exhausted) ->
     exists reqs : list Request,
       requests w' = requests w ++ reqs
       /\ length reqs = length pages
       /\ pages <> []
       /\ (forall (i : nat) request, reqs !! i = Some request ->
             request = request_at (Z.of_nat i * REPORT_LIMIT)
             /\ req_limit request = 100000
             /\ pages !! i = Some (serve (length (requests w) + i)%nat request))
       /\ (forall (i : nat) page, pages !! i = Some page ->
             is_Some (pages !! S i)
             <-> Z.of_nat i * REPORT_LIMIT + 100000 < row_count page))
  /\ (forall bound,
        (forall n request, row_count (serve n request) <= bound) ->
        forall fuel, (Z.to_nat (bound / REPORT_LIMIT) < fuel)%nat ->
        exists w' pages,
          get_report fuel api report range_start_date range_end_date w
          = (w', pages, Exhausted))
  /\ ((forall n request, row_count (serve n request) = 250000) ->
      forall fuel, (3 <= fuel)%nat ->
      exists w' pages,
        get_report fuel api report range_start_date range_end_date w
        = (w', pages, Exhausted)
        /\ length pages = 3%nat
        /\ requests w' = requests w ++ (request_at <$> [0; 100000; 200000]))
  /\ (row_count (serve (length (requests w)) (request_at 0)) <= 100000 ->
      forall fuel,
        get_report (S fuel) api report range_start_date range_end_date w
        = (sent (request_at 0) w,
           [serve (length (requests w)) (request_at 0)], Exhausted)).
Proof.
  intros api request_at. subst api request_at. unfold get_report.
  split; [|split; [|split]].
  - intros fuel w' pages Hrun.
    destruct (get_report_from_exhausted _ _ _ _ _ _ _ _ _ Hrun)
      as (reqs & Hreqs & Hlen & Hne & Hat & Hnext).
    exists reqs. do 3 (split; [done|]). split.
    + intros i request Hi. destruct (Hat i request Hi) as [-> Hpage].
      rewrite Z.add_0_l in *. done.
    + intros i page Hi. rewrite (Hnext i page Hi).
      unfold REPORT_LIMIT. lia.
  - intros bound Hbound fuel Hfuel.
    eapply get_report_from_terminates; [done|lia|].
    unfold REPORT_LIMIT in *.
    assert (bound / 100000 < Z.of_nat fuel) by lia.
    Z.div_mod_to_equations. lia.
  - intros Hrc [|[|[|fuel]]] Hfuel; try lia.
    rewrite get_report_from_step. cbv zeta. rewrite Hrc.
    change (REPORT_LIMIT + 0 <? 250000) with true.
    rewrite get_report_from_step. cbv zeta. rewrite Hrc.
    change (REPORT_LIMIT + (0 + REPORT_LIMIT) <? 250000) with true.
    rewrite get_report_from_step. cbv zeta. rewrite Hrc.
    change (REPORT_LIMIT + (0 + REPORT_LIMIT + REPORT_LIMIT) <? 250000)
      with false.
    rewrite get_report_from_done. eexists _, _. split; [done|].
    split; [done|]. simpl. by rewrite <- !app_assoc.
  - intros Hrc fuel. rewrite get_report_from_step. cbv zeta.
    destruct (Z.ltb_spec (REPORT_LIMIT + 0)
                (row_count (serve (length (requests w))
                   (run_report_request report range_start_date
                      range_end_date 0)))) as [Hmore|_].
    + unfold REPORT_LIMIT in Hmore. lia.
    + by rewrite get_report_from_done.
Qed.

Lemma get_report_pages_witness :
  exists w' pages,
    get_report 3 (answering (fun _ _ => empty_response 250000))
      example_report 19358 19364 example_world
    = (w', pages, Exhausted)
    /\ length pages = 3%nat
    /\ req_offset <$> requests w' = [0; 100000; 200000].
Proof.
  destruct (get_report_pages (fun _ _ => empty_response 250000)
              example_report 19358 19364 example_world)
    as (_ & _ & H250 & _).
  destruct (H250 (fun _ _ => eq_refl) 3%nat (le_n 3))
    as (w' & pages & Hrun & Hlen & Hreqs).
  exists w', pages. split; [exact Hrun|]. split; [exact Hlen|].
  rewrite Hreqs. reflexivity.
Defined.

Example get_report_250000 :
  let '(w', pages, how) :=
    get_report 10 (answering (fun _ _ => empty_response 250000))
      example_report 19358 19364 example_world in
  how = Exhausted /\ length pages = 3%nat
  /\ req_offset <$> requests w' = [0; 100000; 200000].
Proof. vm_compute. done. Qed.

(** ** SHA-256 and JSON on known values *)

Example sha256_constants :
  nth 0 K256 0 = 0x428a2f98 /\ nth 63 K256 0 = 0xc67178f2
  /\ length K256 = 64%nat /\ fst H256 = (0x6a09e667, 0xbb67ae85, 0x3c6ef372,
                                        0xa54ff53a, 0x510e527f, 0x9b05688c,
                                        0x1f83d9ab).
Proof. vm_compute. repeat split. Qed.

Example sha256_abc :
  sha256_hexdigest (py "abc")
  = py "ba7816bf8f01cfea414140de5dae2223b00361a396177a9cb410ff61f20015ad".
Proof. vm_compute. reflexivity. Qed.

Example sha256_empty :
  sha256_hexdigest []
  = py "e3b0c44298fc1c149afbf4c8996fb92427ae41e4649b934ca495991b7852b855".
Proof. vm_compute. reflexivity. Qed.

Example sha256_two_blocks :
  sha256_hexdigest
    (py "abcdbcdecdefdefgefghfghighijhijkijkljklmklmnlmnomnopnopq")
  = py "248d6a61d20638b8e5c026930c3e6039a33ce45964ff2167f6ecedd419db06c1".
Proof. vm_compute. reflexivity. Qed.

(** ** The JSON text of the hash source *)

Lemma hex_digit_printable d : 0 <= d < 16 -> printable (hex_digit d).
Proof. unfold printable, hex_digit. intros. case_match; lia. Qed.

Lemma hex4_printable n : Forall printable (hex4 n).
Proof.
  unfold hex4. repeat constructor; apply hex_digit_printable;
    apply Z.mod_pos_bound; lia.
Qed.

Lemma escape_char_printable c : Forall printable (escape_char c).
Proof.
  unfold escape_char.
  repeat case_match;
    repeat first [ apply hex4_printable | apply Forall_app_2
                 | apply Forall_cons_2 | apply Forall_nil_2 ];
    unfold printable; lia.
Qed.

Lemma encode_basestring_ascii_printable s :
  Forall printable (encode_basestring_ascii s).
Proof.
  unfold encode_basestring_ascii. constructor; [unfold printable; lia|].
  apply Forall_app_2; [|repeat constructor; unfold printable; lia].
  apply Forall_concat, Forall_fmap, Forall_true. intros c.
  apply escape_char_printable.
Qed.

Lemma py_printable (l : string) :
  forallb (fun c => (32 <=? c) && (c <=? 126)) (py l) = true ->
  Forall printable (py l).
Proof.
  intros Hall. apply Forall_forall. intros c Hc.
  rewrite forallb_forall in Hall.
  specialize (Hall c Hc).
  unfold printable. lia.
Qed.

Lemma pair_text_printable p : Forall printable (pair_text p).
Proof.
  unfold pair_text.
  repeat first [ apply encode_basestring_ascii_printable
               | apply py_printable; reflexivity | apply Forall_app_2 ].
Qed.

Lemma pairs_text_cons p q rest :
  pairs_text (p :: q :: rest) = pair_text p ++ py ", " ++ pairs_text (q :: rest).
Proof. reflexivity. Qed.

Lemma pairs_text_printable pairs : Forall printable (pairs_text pairs).
Proof.
  induction pairs as [|p [|q rest] IH]; [constructor|apply pair_text_printable|].
  rewrite pairs_text_cons.
  repeat first [ exact IH | apply pair_text_printable
               | apply py_printable; reflexivity | apply Forall_app_2 ].
Qed.

Lemma hash_source_text_printable p pairs s e :
  Forall printable (hash_source_text p pairs s e).
Proof.
  unfold hash_source_text.
  repeat first [ apply encode_basestring_ascii_printable
               | apply pairs_text_printable
               | apply py_printable; reflexivity | apply Forall_app_2 ].
Qed.

Lemma json_dumps_pair p : json_dumps (pair_json p) = pair_text p.
Proof. unfold pair_text. cbn [json_dumps pair_json]. by rewrite <- !app_assoc. Qed.

Lemma json_dumps_pairs pairs :
  (fix items_text (l : list json) : pystr :=
     match l with
     | [] => []
     | x :: rest =>
         match rest with
         | [] => json_dumps x
         | _ :: _ => json_dumps x ++ py ", " ++ items_text rest
         end
     end) (pair_json <$> pairs)
  = pairs_text pairs.
Proof.
  induction pairs as [|p [|q rest] IH]; [done|apply json_dumps_pair|].
  rewrite pairs_text_cons, <- IH, <- json_dumps_pair. reflexivity.
Qed.

Lemma json_dumps_hash_source p pairs s e :
  json_dumps (JArray [JString p; JArray (pair_json <$> pairs);
                      JString s; JString e])
  = hash_source_text p pairs s e.
Proof.
  unfold hash_source_text. cbn [json_dumps].
  rewrite json_dumps_pairs. by rewrite <- !app_assoc.
Qed.

Lemma encode_utf8_printable s : Forall printable s -> encode_utf8 s = Some s.
Proof.
  unfold encode_utf8. induction 1 as [|c s Hc Hs IH]; [done|].
  cbn [mapM].
  assert (utf8_char c = Some [c]) as ->.
  { unfold utf8_char, printable in *. repeat case_match; try done; lia. }
  destruct (mapM utf8_char s); simplify_eq/=. done.
Qed.

Lemma generate_sdc_record_hash_eq (record : gmap (list Z) (list Z))
    pairs p s e :
  record !! py "property_id" = Some p ->
  record !! py "start_date" = Some s ->
  record !! py "end_date" = Some e ->
  generate_sdc_record_hash record pairs = Ok (record_hash p pairs s e).
Proof.
  intros Hp Hs He. unfold generate_sdc_record_hash. rewrite Hp, Hs, He.
  cbn [rbind of_option].
  rewrite json_dumps_hash_source,
    (encode_utf8_printable _ (hash_source_text_printable _ _ _ _)).
  done.
Qed.

(** ** Rows and records *)

Ltac py_neq :=
  let H := fresh in intros H; vm_compute in H; discriminate H.

Ltac in_list :=
  repeat first [ apply list_elem_of_here | apply list_elem_of_further ].

Lemma dict_update_lookup_Some (rec : gmap (list Z) (list Z)) pairs k v :
  dict_update rec pairs !! k = Some v -> (k, v) ∈ pairs \/ rec !! k = Some v.
Proof.
  revert rec. induction pairs as [|[k' v'] pairs IH]; intros rec; [by right|].
  simpl. intros Hk. apply IH in Hk as [Hin|Hk]; [left; by right|].
  destruct (decide (k' = k)) as [->|Hne].
  - rewrite lookup_insert_eq in Hk. injection Hk as ->. left. by left.
  - rewrite lookup_insert_ne in Hk by done. by right.
Qed.

Lemma elem_of_zip_lookup (l1 l2 : list (list Z)) k v :
  (k, v) ∈ zip l1 l2 -> exists j, l1 !! j = Some k /\ l2 !! j = Some v.
Proof.
  intros Hin. apply list_elem_of_lookup in Hin as [j Hj]. exists j.
  apply lookup_zip_with_Some in Hj as (x & y & [= -> ->] & ? & ?). done.
Qed.

Lemma list_index_None x l : list_index x l = None <-> x ∉ l.
Proof.
  induction l as [|y l IH]; simpl.
  - split; [intros _; apply not_elem_of_nil|done].
  - case_decide as Hy.
    + subst. split; [done|]. intros Hnot. destruct Hnot. by left.
    + rewrite fmap_None, IH, not_elem_of_cons. split; [by intros; split|by intros [_ ?]].
Qed.

Lemma list_index_Some x l i :
  list_index x l = Some i -> l !! i = Some x.
Proof.
  revert i. induction l as [|y l IH]; intros i; simpl; [done|].
  case_decide as Hy; [by intros [= <-]; subst|].
  destruct (list_index x l); intros [= <-]. by apply IH.
Qed.

Lemma record_before_hash_lookups report row dh mh d :
  let rec := record_before_hash report row dh mh d in
  rec !! py "property_id" = Some (rep_property_id report)
  /\ rec !! py "start_date" = Some d
  /\ rec !! py "end_date" = Some d.
Proof.
  unfold record_before_hash. cbv zeta. split; [|split].
  - by rewrite lookup_insert_eq.
  - rewrite !lookup_insert_ne by py_neq. by rewrite lookup_insert_eq.
  - rewrite lookup_insert_ne by py_neq. by rewrite lookup_insert_eq.
Qed.

(** [row_to_record] without its intermediate steps. *)
Lemma row_to_record_eq report row dh mh :
  row_to_record report row dh mh
  = match list_index (py "date") dh with
    | None => Raise ValueError
    | Some i =>
        match dimension_values row !! i with
        | None => Raise IndexError
        | Some d =>
            Ok (<[py "_sdc_record_hash" :=
                    record_hash (rep_property_id report)
                      (zip dh (dimension_values row)) d d]>
                  (record_before_hash report row dh mh d))
        end
    end.
Proof.
  unfold row_to_record. cbv zeta.
  destruct (list_index (py "date") dh) as [i|]; [|done]. cbn [rbind of_option].
  destruct (dimension_values row !! i) as [d|]; [|done]. cbn [rbind of_option].
  destruct (record_before_hash_lookups report row dh mh d) as (Hp & Hs & He).
  fold (record_before_hash report row dh mh d).
  by rewrite (generate_sdc_record_hash_eq _ _ _ _ _ Hp Hs He).
Qed.

Lemma record_before_hash_fields report row dh mh d k v :
  record_before_hash report row dh mh d !! k = Some v ->
  k ∈ [py "property_id"; py "start_date"; py "end_date"]
  \/ exists j,
       (dh !! j = Some k /\ dimension_values row !! j = Some v)
       \/ (mh !! j = Some k /\ metric_values row !! j = Some v).
Proof.
  unfold record_before_hash. intros Hk.
  destruct (decide (k = py "property_id")) as [->|?]; [left; in_list|].
  destruct (decide (k = py "end_date")) as [->|?]; [left; in_list|].
  destruct (decide (k = py "start_date")) as [->|?]; [left; in_list|].
  rewrite !lookup_insert_ne in Hk by done. right.
  apply dict_update_lookup_Some in Hk as [Hin|Hk].
  - apply elem_of_zip_lookup in Hin as (j & ? & ?). eauto.
  - apply dict_update_lookup_Some in Hk as [Hin|Hk]; [|done].
    apply elem_of_zip_lookup in Hin as (j & ? & ?). eauto.
Qed.

(** C9. [row_to_record] returns a record only when ['date'] is among the
    dimension headers: without it the call raises ([ValueError]) and returns
    nothing. With it, and with a value of the row at the position of the
    first ['date'] header, the call returns a record, and the fields
    [start_date] and [end_date] of a record that it returns both hold that
    value; a row too short to have a value there raises [IndexError]. *)
Theorem row_to_record_date (report : Report) (row : Row)
    (dimension_headers metric_headers : list (list Z)) :
  (py "date" ∉ dimension_headers ->
   row_to_record report row dimension_headers metric_headers
   = Raise ValueError)
  /\ (forall rec,
        row_to_record report row dimension_headers metric_headers = Ok rec ->
        py "date" ∈ dimension_headers
        /\ exists i d,
             list_index (py "date") dimension_headers = Some i
             /\ dimension_headers !! i = Some (py "date")
             /\ dimension_values row !! i = Some d
             /\ rec !! py "start_date" = Some d
             /\ rec !! py "end_date" = Some d)
  /\ (py "date" ∈ dimension_headers ->
      exists i,
        list_index (py "date") dimension_headers = Some i
        /\ dimension_headers !! i = Some (py "date")
        /\ (forall d,
              dimension_values row !! i = Some d ->
              exists rec,
                row_to_record report row dimension_headers metric_headers
                = Ok rec
                /\ rec !! py "start_date" = Some d
                /\ rec !! py "end_date" = Some d)
        /\ (dimension_values row !! i = None ->
            row_to_record report row dimension_headers metric_headers
            = Raise IndexError)).
Proof.
  rewrite row_to_record_eq. split; [|split].
  - intros Hnot. apply list_index_None in Hnot. by rewrite Hnot.
  - intros rec Hrec.
    destruct (list_index (py "date") dimension_headers) as [i|] eqn:Hi; [|done].
    destruct (dimension_values row !! i) as [d|] eqn:Hd; [|done].
    injection Hrec as <-.
    pose proof (list_index_Some _ _ _ Hi) as Hat.
    split; [by eapply list_elem_of_lookup_2|].
    exists i, d.
    destruct (record_before_hash_lookups report row dimension_headers
                metric_headers d) as (_ & Hs & He).
    rewrite !lookup_insert_ne by py_neq. done.
  - intros Hin.
    destruct (list_index (py "date") dimension_headers) as [i|] eqn:Hi.
    2:{ by apply list_index_None in Hi. }
    exists i. split; [done|]. split; [by apply list_index_Some|]. split.
    + intros d ->. eexists. split; [reflexivity|].
      destruct (record_before_hash_lookups report row dimension_headers
                  metric_headers d) as (_ & Hs & He).
      rewrite !lookup_insert_ne by py_neq. done.
    + by intros ->.
Qed.

Lemma row_to_record_date_witness :
  exists rec,
    row_to_record example_report example_row [py "date"; py "country"]
      [py "sessions"] = Ok rec
    /\ rec !! py "start_date" = Some (py "20230115")
    /\ rec !! py "end_date" = Some (py "20230115").
Proof.
  destruct (row_to_record_date example_report example_row
              [py "date"; py "country"] [py "sessions"])
    as (_ & _ & Hpresent).
  destruct Hpresent as (i & Hi & _ & Hvalue & _).
  { apply (bool_decide_unpack _). vm_compute. exact I. }
  vm_compute in Hi. injection Hi as <-.
  exact (Hvalue (py "20230115") eq_refl).
Defined.

Example row_to_record_example :
  let r := row_to_record example_report example_row
             [py "date"; py "country"] [py "sessions"] in
  field_of (py "date") r = Some (py "20230115")
  /\ field_of (py "country") r = Some (py "US")
  /\ field_of (py "sessions") r = Some (py "5")
  /\ field_of (py "start_date") r = Some (py "20230115")
  /\ field_of (py "end_date") r = Some (py "20230115")
  /\ field_of (py "property_id") r = Some (py "123")
  /\ field_of (py "_sdc_record_hash") r
     = Some (py "08ba7f39a6542adc1a0764fe1e5c3b0540d4f1d1ca6ee88493e57e024e096ded").
Proof. vm_compute. repeat split. Qed.

(** Fewer values than headers: the headers without a value get no field. *)
Example row_to_record_short_row :
  let r := row_to_record example_report short_row
             [py "date"; py "country"] [py "sessions"; py "totalUsers"] in
  is_Ok r = true
  /\ field_of (py "date") r = Some (py "20230115")
  /\ field_of (py "country") r = None
  /\ field_of (py "sessions") r = Some (py "5")
  /\ field_of (py "totalUsers") r = None.
Proof. vm_compute. repeat split. Qed.

(** The specification has a row with fewer values than headers make
    [row_to_record] fail. It does not: [zip] stops at the shorter list. *)
Lemma row_to_record_mismatch_counterexample :
  ~ (forall (report : Report) (row : Row)
            (dimension_headers metric_headers : list (list Z)),
       length (dimension_values row) <> length dimension_headers
       \/ length (metric_values row) <> length metric_headers ->
       exists e,
         row_to_record report row dimension_headers metric_headers = Raise e).
Proof.
  intros Hclaim.
  destruct (Hclaim example_report short_row [py "date"; py "country"]
              [py "sessions"; py "totalUsers"]) as [e He].
  - left. vm_compute. discriminate.
  - assert (Hok : is_Ok (row_to_record example_report short_row
                           [py "date"; py "country"]
                           [py "sessions"; py "totalUsers"]) = true)
      by (vm_compute; reflexivity).
    rewrite He in Hok. discriminate Hok.
Qed.

(** C8, amended. [row_to_record] does not compare the number of values of
    the row with the number of headers. It returns a record exactly when
    ['date'] is among the dimension headers and the row has a dimension
    value at the position of the first ['date'] header; it raises
    [ValueError] without the header and [IndexError] without the value.
    When the lengths differ otherwise, a record is built from the positions
    that have both a header and a value: every field of the record other
    than [property_id], [start_date], [end_date] and [_sdc_record_hash]
    pairs a header with the value at the same position. *)
Theorem row_to_record_lengths (report : Report) (row : Row)
    (dimension_headers metric_headers : list (list Z)) :
  ((exists rec,
      row_to_record report row dimension_headers metric_headers = Ok rec)
   <-> exists i d,
         list_index (py "date") dimension_headers = Some i
         /\ dimension_values row !! i = Some d)
  /\ (py "date" ∉ dimension_headers ->
      row_to_record report row dimension_headers metric_headers
      = Raise ValueError)
  /\ (forall i,
        list_index (py "date") dimension_headers = Some i ->
        (length (dimension_values row) <= i)%nat ->
        row_to_record report row dimension_headers metric_headers
        = Raise IndexError)
  /\ (forall rec k v,
        row_to_record report row dimension_headers metric_headers = Ok rec ->
        rec !! k = Some v ->
        k ∈ [py "_sdc_record_hash"; py "property_id"; py "start_date";
             py "end_date"]
        \/ exists j,
             (dimension_headers !! j = Some k
              /\ dimension_values row !! j = Some v)
             \/ (metric_headers !! j = Some k
                 /\ metric_values row !! j = Some v)).
Proof.
  rewrite row_to_record_eq. split; [|split; [|split]].
  - split.
    + intros [rec Hrec].
      destruct (list_index (py "date") dimension_headers) as [i|]; [|done].
      destruct (dimension_values row !! i) as [d|] eqn:Hd; [|done].
      by exists i, d.
    + intros (i & d & -> & ->). eexists. reflexivity.
  - intros Hnot. apply list_index_None in Hnot. by rewrite Hnot.
  - intros i -> Hlen. by rewrite (lookup_ge_None_2 _ _ Hlen).
  - intros rec k v Hrec Hk.
    destruct (list_index (py "date") dimension_headers) as [i|]; [|done].
    destruct (dimension_values row !! i) as [d|]; [|done].
    injection Hrec as <-.
    destruct (decide (k = py "_sdc_record_hash")) as [->|?]; [left; in_list|].
    rewrite lookup_insert_ne in Hk by done.
    apply record_before_hash_fields in Hk as [Hk|Hk]; [|by right].
    left. by apply list_elem_of_further.
Qed.

Lemma row_to_record_lengths_witness :
  row_to_record example_report short_row [py "country"; py "date"]
    [py "sessions"] = Raise IndexError.
Proof.
  destruct (row_to_record_lengths example_report short_row
              [py "country"; py "date"] [py "sessions"]) as (_ & _ & Hidx & _).
  apply (Hidx 1%nat); [reflexivity|]. vm_compute. lia.
Defined.

(** ** Datetime fields *)

Section transform.
Context `{Externals}.

Lemma parse_datetime_eq field_name value fmt :
  DATETIME_FORMATS !! field_name = Some fmt ->
  parse_datetime field_name value
  = Ok (default value (strptime_strftime fmt value),
        bool_decide (is_Some (strptime_strftime fmt value))).
Proof.
  intros Hfmt. unfold parse_datetime. rewrite Hfmt. cbn [of_option rbind].
  destruct (strptime_strftime fmt value) as [parsed|];
    cbn [default from_option id].
  - by rewrite bool_decide_eq_true_2 by by eexists.
  - by rewrite bool_decide_eq_false_2 by by intros [? ?].
Qed.

Lemma transform_datetimes_loop_eq (items : list (list Z * list Z)) :
  forall (rec : gmap (list Z) (list Z)) flag,
    NoDup items.*1 ->
    (forall k v, (k, v) ∈ items -> rec !! k = Some v) ->
    exists rec' : gmap (list Z) (list Z),
      transform_datetimes_loop items rec flag
      = Ok (rec', flag || existsb row_limit_item items)
      /\ (forall k v, (k, v) ∈ items ->
            rec' !! k = Some (transformed_value k v))
      /\ (forall k, k ∉ items.*1 -> rec' !! k = rec !! k).
Proof.
  induction items as [|[k0 v0] items IH]; intros rec flag Hnodup Hrec.
  - exists rec. cbn [transform_datetimes_loop existsb]. rewrite orb_false_r.
    split; [done|]. split; [|done].
    intros k v Hin. by apply elem_of_nil in Hin.
  - rewrite fmap_cons in Hnodup. apply list.NoDup_cons in Hnodup as [Hk0 Hnodup].
    assert (Hstep : exists flag0,
      transform_datetimes_loop ((k0, v0) :: items) rec flag
      = transform_datetimes_loop items (<[k0 := transformed_value k0 v0]> rec)
          (flag || flag0)
      /\ flag0 = row_limit_item (k0, v0)).
    { cbn [transform_datetimes_loop].
      unfold transformed_value, row_limit_item. cbn [fst snd].
      destruct (DATETIME_FORMATS !! k0) as [fmt|] eqn:Hfmt.
      - destruct (truthy v0) eqn:Hv.
        + rewrite (bool_decide_eq_true_2 (is_Some (Some fmt))) by by eexists.
          cbn [andb]. rewrite (parse_datetime_eq _ _ _ Hfmt). cbn [rbind].
          by eexists.
        + cbn [andb]. exists false.
          by rewrite insert_id, orb_false_r by (apply Hrec; by left).
      - rewrite (bool_decide_eq_false_2 (is_Some None)) by by intros [? ?].
        rewrite andb_false_r. exists false.
        by rewrite insert_id, orb_false_r by (apply Hrec; by left). }
    destruct Hstep as (flag0 & -> & ->).
    destruct (IH (<[k0 := transformed_value k0 v0]> rec)
                (flag || row_limit_item (k0, v0)) Hnodup)
      as (rec' & Hloop & Hin & Hout).
    { intros k v Hkv. rewrite lookup_insert_ne; [apply Hrec; by right|].
      intros ->. apply Hk0. apply list_elem_of_fmap. by exists (k, v). }
    exists rec'. split; [|split].
    + rewrite Hloop. cbn [existsb]. by rewrite orb_assoc.
    + intros k v Hkv. apply elem_of_cons in Hkv as [[= -> ->]|Hkv]; [|by apply Hin].
      by rewrite Hout, lookup_insert_eq.
    + intros k Hk. rewrite fmap_cons in Hk. apply not_elem_of_cons in Hk as [Hne Hk].
      rewrite Hout by done. by rewrite lookup_insert_ne.
Qed.

Lemma transform_datetimes_eq (report_name : list Z)
    (rec : gmap (list Z) (list Z)) :
  exists rec' : gmap (list Z) (list Z),
    transform_datetimes report_name rec
    = Ok (rec',
          if existsb row_limit_item (map_to_list rec)
          then [RowLimitWarning report_name] else [])
    /\ forall k, rec' !! k = transformed_value k <$> rec !! k.
Proof.
  destruct (transform_datetimes_loop_eq (map_to_list rec) rec false)
    as (rec' & Hloop & Hin & Hout).
  { apply NoDup_fst_map_to_list. }
  { intros k v. apply elem_of_map_to_list. }
  exists rec'. unfold transform_datetimes. rewrite Hloop. split; [done|].
  intros k. destruct (rec !! k) as [v|] eqn:Hk.
  - apply Hin. by apply elem_of_map_to_list.
  - rewrite Hout; [done|]. intros Hin'.
    apply list_elem_of_fmap in Hin' as ([k' v] & -> & Hkv).
    apply elem_of_map_to_list in Hkv. simpl in Hk. congruence.
Qed.

End transform.

Lemma DATETIME_FORMATS_lookup k fmt :
  DATETIME_FORMATS !! k = Some fmt <->
  (k = py "date" /\ fmt = py "%Y%m%d")
  \/ (k = py "dateHour" /\ fmt = py "%Y%m%d%H")
  \/ (k = py "dateHourMinute" /\ fmt = py "%Y%m%d%H%M")
  \/ (k = py "firstSessionDate" /\ fmt = py "%Y%m%d").
Proof.
  unfold DATETIME_FORMATS. cbn [list_to_map foldr fst snd curry uncurry].
  destruct (decide (k = py "dateHour")) as [->|?].
  { rewrite lookup_insert_eq. split.
    - intros [= <-]. tauto.
    - intros [[Hk _]|[[_ ->]|[[Hk _]|[Hk _]]]]; first [done | by vm_compute in Hk]. }
  rewrite lookup_insert_ne by done.
  destruct (decide (k = py "dateHourMinute")) as [->|?].
  { rewrite lookup_insert_eq. split.
    - intros [= <-]. tauto.
    - intros [[Hk _]|[[Hk _]|[[_ ->]|[Hk _]]]]; first [done | by vm_compute in Hk]. }
  rewrite lookup_insert_ne by done.
  destruct (decide (k = py "date")) as [->|?].
  { rewrite lookup_insert_eq. split.
    - intros [= <-]. tauto.
    - intros [[_ ->]|[[Hk _]|[[Hk _]|[Hk _]]]]; first [done | by vm_compute in Hk]. }
  rewrite lookup_insert_ne by done.
  destruct (decide (k = py "firstSessionDate")) as [->|?].
  { rewrite lookup_insert_eq. split.
    - intros [= <-]. tauto.
    - intros [[Hk _]|[[Hk _]|[[Hk _]|[_ ->]]]]; first [done | by vm_compute in Hk]. }
  rewrite lookup_insert_ne by done. rewrite lookup_empty.
  split; [done|]. intros [[? _]|[[? _]|[[? _]|[? _]]]]; done.
Qed.

Lemma existsb_row_limit_item `{Externals} (rec : gmap (list Z) (list Z)) :
  existsb row_limit_item (map_to_list rec) = true
  <-> exists field fmt,
        rec !! field = Some (py "(other)")
        /\ DATETIME_FORMATS !! field = Some fmt
        /\ strptime_strftime fmt (py "(other)") = None.
Proof.
  rewrite existsb_exists. split.
  - intros ([k v] & Hin & Hitem).
    apply list_elem_of_In, elem_of_map_to_list in Hin.
    unfold row_limit_item in Hitem. cbn [fst snd] in Hitem.
    destruct (DATETIME_FORMATS !! k) as [fmt|] eqn:Hfmt; [|done].
    apply andb_prop in Hitem as [Hitem Hother].
    apply andb_prop in Hitem as [_ Hparse].
    apply bool_decide_eq_true_1 in Hother as ->.
    exists k, fmt. split; [done|]. split; [done|].
    destruct (strptime_strftime fmt (py "(other)")); [|done].
    rewrite bool_decide_eq_true_2 in Hparse by by eexists. done.
  - intros (k & fmt & Hk & Hfmt & Hparse). exists (k, py "(other)"). split.
    + by apply list_elem_of_In, elem_of_map_to_list.
    + unfold row_limit_item. cbn [fst snd]. rewrite Hfmt, Hparse.
      rewrite (bool_decide_eq_false_2 (is_Some None)) by by intros [? ?].
      reflexivity.
Qed.

(** C7. [transform_datetimes] raises nothing. It looks at the fields
    named [date], [dateHour], [dateHourMinute] and [firstSessionDate] that
    hold a non-empty value: a value that parses in the format of its field
    ([%Y%m%d], [%Y%m%d%H], [%Y%m%d%H%M], [%Y%m%d]) is replaced by the
    normalized text, a value that does not parse is kept; every other field
    is left as it is; and the row-limit warning is logged exactly when a
    value that does not parse is ["(other)"]. *)
Theorem transform_datetimes_fields `{Externals} (report_name : list Z)
    (rec : gmap (list Z) (list Z)) :
  exists (rec' : gmap (list Z) (list Z)) (log : list log_line),
    transform_datetimes report_name rec = Ok (rec', log)
    /\ (forall field value fmt,
          rec !! field = Some value ->
          DATETIME_FORMATS !! field = Some fmt ->
          truthy value = true ->
          (forall parsed,
             strptime_strftime fmt value = Some parsed ->
             rec' !! field = Some parsed)
          /\ (strptime_strftime fmt value = None ->
              rec' !! field = Some value))
    /\ (forall field,
          DATETIME_FORMATS !! field = None
          \/ rec !! field = Some [] \/ rec !! field = None ->
          rec' !! field = rec !! field)
    /\ (forall field fmt,
          DATETIME_FORMATS !! field = Some fmt <->
          (field = py "date" /\ fmt = py "%Y%m%d")
          \/ (field = py "dateHour" /\ fmt = py "%Y%m%d%H")
          \/ (field = py "dateHourMinute" /\ fmt = py "%Y%m%d%H%M")
          \/ (field = py "firstSessionDate" /\ fmt = py "%Y%m%d"))
    /\ (log = [RowLimitWarning report_name] \/ log = [])
    /\ (log = [RowLimitWarning report_name] <->
        exists field fmt,
          rec !! field = Some (py "(other)")
          /\ DATETIME_FORMATS !! field = Some fmt
          /\ strptime_strftime fmt (py "(other)") = None).
Proof.
  destruct (transform_datetimes_eq report_name rec) as (rec' & -> & Hrec').
  eexists rec', _. split; [reflexivity|].
  split; [|split; [|split; [|split]]].
  - intros field value fmt Hfield Hfmt Hvalue.
    rewrite Hrec', Hfield. cbn [fmap option_fmap option_map].
    unfold transformed_value. rewrite Hfmt, Hvalue.
    split; [intros parsed ->|intros ->]; done.
  - intros field Hfield. rewrite Hrec'. unfold transformed_value.
    destruct Hfield as [->|[->| ->]]; [by destruct (rec !! field)| |done].
    cbn [fmap option_fmap option_map truthy].
    by destruct (DATETIME_FORMATS !! field).
  - apply DATETIME_FORMATS_lookup.
  - destruct (existsb row_limit_item (map_to_list rec)); auto.
  - rewrite <- existsb_row_limit_item.
    destruct (existsb row_limit_item (map_to_list rec)); split; done.
Qed.

Example transform_datetimes_date :
  let run value :=
    @transform_datetimes iso_externals (py "sessions")
      {[ py "date" := value; py "sessions" := py "5" ]} in
  let field_after k value := field_of k (rmap fst (run value)) in
  let log_after value := rmap snd (run value) in
  field_after (py "date") (py "20230115")
  = Some (py "2023-01-15T00:00:00.000000Z")
  /\ log_after (py "20230115") = Ok []
  /\ field_after (py "date") (py "(other)") = Some (py "(other)")
  /\ log_after (py "(other)") = Ok [RowLimitWarning (py "sessions")]
  /\ field_after (py "date") (py "notadate") = Some (py "notadate")
  /\ log_after (py "notadate") = Ok []
  /\ field_after (py "sessions") (py "20230115") = Some (py "5").
Proof. vm_compute. repeat split. Qed.

Lemma transform_datetimes_fields_witness :
  exists (rec' : gmap (list Z) (list Z)) (log : list log_line),
    @transform_datetimes iso_externals (py "sessions")
      {[ py "date" := py "20230115" ]} = Ok (rec', log)
    /\ rec' !! py "date" = Some (py "2023-01-15T00:00:00.000000Z").
Proof.
  destruct (@transform_datetimes_fields iso_externals (py "sessions")
              {[ py "date" := py "20230115" ]})
    as (rec' & log & Hrun & Hfields & _).
  exists rec', log. split; [exact Hrun|].
  destruct (Hfields (py "date") (py "20230115") (py "%Y%m%d"))
    as [Hparsed _]; [vm_compute; reflexivity..|].
  apply Hparsed. vm_compute. reflexivity.
Defined.


Example record_hash_example :
  let r := row_to_record example_report example_row
             [py "date"; py "country"] [py "sessions"] in
  let emitted :=
    rec <- r;;
    rmap fst (@transform_datetimes iso_externals (py "sessions") rec) in
  field_of (py "date") emitted = Some (py "2023-01-15T00:00:00.000000Z")
  /\ field_of (py "start_date") emitted = Some (py "20230115")
  /\ field_of (py "_sdc_record_hash") emitted
     = Some (record_hash (py "123")
               [(py "date", py "20230115"); (py "country", py "US")]
               (py "20230115") (py "20230115"))
  /\ record_hash (py "123")
       [(py "date", py "20230115"); (py "country", py "US")]
       (py "20230115") (py "20230115")
     <> record_hash (py "123")
          [(py "date", py "2023-01-15T00:00:00.000000Z"); (py "country", py "US")]
          (py "2023-01-15T00:00:00.000000Z") (py "2023-01-15T00:00:00.000000Z").
Proof. vm_compute. repeat split. discriminate. Qed.


(** ** Sorting the dimension pairs *)

#[local] Instance pair_le_total : Total pair_le.
Proof.
  intros p q. unfold pair_le, pair_lt.
  destruct (trichotomy lexico p q) as [Hlt|[->|Hlt]].
  - left. intros Hgt. by apply (irreflexivity lexico p); trans q.
  - left. apply (irreflexivity lexico q).
  - right. intros Hgt. by apply (irreflexivity lexico p); trans q.
Qed.

#[local] Instance pair_le_trans : Transitive pair_le.
Proof.
  intros p q r Hpq Hqr Hrp. unfold pair_le, pair_lt in *.
  destruct (trichotomy lexico p q) as [Hlt|[->|Hlt]]; [|done..].
  apply Hqr. by trans p.
Qed.

#[local] Instance pair_le_antisymm : AntiSymm (=) pair_le.
Proof.
  intros p q Hpq Hqp. unfold pair_le, pair_lt in *.
  by destruct (trichotomy lexico p q) as [Hlt|[->|Hlt]].
Qed.

Lemma sorted_Sorted pairs : Sorted pair_le (sorted pairs).
Proof. apply (Sorted_merge_sort pair_le). Qed.

Lemma sorted_Permutation pairs : sorted pairs ≡ₚ pairs.
Proof. apply (merge_sort_Permutation pair_le). Qed.

Lemma sorted_perm pairs1 pairs2 :
  pairs1 ≡ₚ pairs2 -> sorted pairs1 = sorted pairs2.
Proof.
  intros Hperm. apply (Sorted_unique pair_le); [apply sorted_Sorted..|].
  by rewrite !sorted_Permutation.
Qed.

Lemma sorted_eq_perm pairs1 pairs2 :
  sorted pairs1 = sorted pairs2 -> pairs1 ≡ₚ pairs2.
Proof.
  intros Heq. by rewrite <- (sorted_Permutation pairs1), Heq, sorted_Permutation.
Qed.

(** By name, then by value. *)
Lemma pair_lt_spec (n1 v1 n2 v2 : list Z) :
  pair_lt (n1, v1) (n2, v2) <-> lexico n1 n2 \/ (n1 = n2 /\ lexico v1 v2).
Proof. reflexivity. Qed.

(** ** The JSON text determines the hash source *)

Lemma hex_digit_inj d1 d2 :
  0 <= d1 < 16 -> 0 <= d2 < 16 -> hex_digit d1 = hex_digit d2 -> d1 = d2.
Proof. unfold hex_digit. intros. repeat case_match; lia. Qed.

Lemma hex4_inj n m :
  0 <= n < 65536 -> 0 <= m < 65536 -> hex4 n = hex4 m -> n = m.
Proof.
  intros Hn Hm [= H3 H2 H1 H0].
  apply hex_digit_inj in H3, H2, H1, H0;
    try (apply Z.mod_pos_bound; lia).
  Z.div_mod_to_equations. lia.
Qed.

Lemma lor_surrogate base y :
  base = 0xd800 \/ base = 0xdc00 -> 0 <= y < 1024 -> Z.lor base y = base + y.
Proof.
  intros Hbase Hy.
  assert (Hall : forallb (fun y => (Z.lor 0xd800 y =? 0xd800 + y)
                                   && (Z.lor 0xdc00 y =? 0xdc00 + y))
                   (seqZ 0 1024) = true) by (vm_compute; reflexivity).
  rewrite forallb_forall in Hall.
  specialize (Hall y). rewrite <- list_elem_of_In, elem_of_seqZ in Hall.
  specialize (Hall ltac:(lia)). destruct Hbase as [-> | ->]; lia.
Qed.

Lemma escape_char_shape c : scalar c -> escape_shape c (escape_char c).
Proof.
  intros [Hrange Hsur]. unfold escape_char.
  destruct (Z.eqb_spec c 34) as [->|?]; [constructor; simpl; tauto|].
  destruct (Z.eqb_spec c 92) as [->|?]; [constructor; simpl; tauto|].
  destruct (Z.eqb_spec c 8) as [->|?]; [constructor; simpl; tauto|].
  destruct (Z.eqb_spec c 12) as [->|?]; [constructor; simpl; tauto|].
  destruct (Z.eqb_spec c 10) as [->|?]; [constructor; simpl; tauto|].
  destruct (Z.eqb_spec c 13) as [->|?]; [constructor; simpl; tauto|].
  destruct (Z.eqb_spec c 9) as [->|?]; [constructor; simpl; tauto|].
  destruct ((32 <=? c) && (c <=? 126)) eqn:Hplain.
  { apply shape_plain; unfold printable; lia. }
  destruct (Z.ltb_spec c 65536) as [Hbmp|Hastral].
  { apply shape_unicode; lia. }
  cbv zeta.
  change 1023 with (Z.ones 10).
  rewrite !Z.land_ones, Z.shiftr_div_pow2 by lia.
  change (2 ^ 10) with 1024.
  assert (Hn : 0 <= c - 65536 < 1048576) by lia.
  rewrite (Z.mod_small ((c - 65536) / 1024) 1024)
    by (Z.div_mod_to_equations; lia).
  rewrite !lor_surrogate; try tauto; try (Z.div_mod_to_equations; lia).
  apply shape_pair; Z.div_mod_to_equations; lia.
Qed.

Lemma hex4_prefix n m r1 r2 :
  0 <= n < 65536 -> 0 <= m < 65536 ->
  hex4 n ++ r1 = hex4 m ++ r2 -> n = m /\ r1 = r2.
Proof.
  intros Hn Hm Heq. apply app_inj_1 in Heq as [Heq ->]; [|done].
  split; [by apply hex4_inj|done].
Qed.

Lemma cons_eq_inv {A} (x y : A) (l k : list A) :
  x :: l = y :: k -> x = y /\ l = k.
Proof. by intros [= -> ->]. Qed.

#[local] Opaque hex4.

Ltac uncons Heq H := apply cons_eq_inv in Heq as [H Heq].

Lemma escape_shape_prefix c1 c2 t1 t2 r1 r2 :
  escape_shape c1 t1 -> escape_shape c2 t2 ->
  t1 ++ r1 = t2 ++ r2 -> c1 = c2 /\ r1 = r2.
Proof.
  intros H1 H2 Heq.
  destruct H1 as [x1 Hx1|Hp1 Hq1 Hb1|Hr1 Hs1|hi1 lo1 Hhi1 Hlo1 Hc1];
    destruct H2 as [x2 Hx2|Hp2 Hq2 Hb2|Hr2 Hs2|hi2 lo2 Hhi2 Hlo2 Hc2];
    rewrite <- ?app_assoc in Heq; cbn [app] in Heq;
    uncons Heq Hh.
  - uncons Heq Hx. subst. split; [|done].
    simpl in Hx1, Hx2. intuition congruence.
  - congruence.
  - uncons Heq Hx. subst. simpl in Hx1. intuition congruence.
  - uncons Heq Hx. subst. simpl in Hx1. intuition congruence.
  - congruence.
  - by subst.
  - congruence.
  - congruence.
  - uncons Heq Hx. subst. simpl in Hx2. intuition congruence.
  - congruence.
  - uncons Heq Hx. by apply hex4_prefix in Heq.
  - uncons Heq Hx. apply hex4_prefix in Heq as [-> _]; lia.
  - uncons Heq Hx. subst. simpl in Hx2. intuition congruence.
  - congruence.
  - uncons Heq Hx. apply hex4_prefix in Heq as [<- _]; lia.
  - uncons Heq Hx. apply hex4_prefix in Heq as [-> Heq]; [|lia..].
    uncons Heq Hy. uncons Heq Hz.
    apply hex4_prefix in Heq as [-> ->]; [|lia..].
    split; [lia|done].
Qed.

#[local] Transparent hex4.

Lemma escape_shape_head c t :
  escape_shape c t -> exists h rest, t = h :: rest /\ h <> 34.
Proof.
  destruct 1 as [x Hx|Hp Hq Hb|Hr Hs|hi lo Hhi Hlo Hc];
    eexists _, _; (split; [reflexivity|]); done.
Qed.

Lemma escaped_prefix (a : list Z) : forall b r1 r2,
  Forall scalar a -> Forall scalar b ->
  concat (escape_char <$> a) ++ 34 :: r1
  = concat (escape_char <$> b) ++ 34 :: r2 ->
  a = b /\ r1 = r2.
Proof.
  induction a as [|c a IH]; intros [|c' b] r1 r2 Ha Hb Heq.
  - cbn [fmap list_fmap concat app] in Heq. uncons Heq Hh. by subst.
  - exfalso. apply Forall_cons_1 in Hb as [Hc' _].
    destruct (escape_shape_head _ _ (escape_char_shape c' Hc'))
      as (h & rest & Hshape & Hh).
    rewrite fmap_cons, concat_cons, Hshape in Heq.
    cbn [fmap list_fmap concat app] in Heq. uncons Heq Hx. congruence.
  - exfalso. apply Forall_cons_1 in Ha as [Hc _].
    destruct (escape_shape_head _ _ (escape_char_shape c Hc))
      as (h & rest & Hshape & Hh).
    rewrite fmap_cons, concat_cons, Hshape in Heq.
    cbn [fmap list_fmap concat app] in Heq. uncons Heq Hx. congruence.
  - apply Forall_cons_1 in Ha as [Hc Ha]. apply Forall_cons_1 in Hb as [Hc' Hb].
    rewrite !fmap_cons, !concat_cons, <- !app_assoc in Heq.
    apply (escape_shape_prefix c c') in Heq as [-> Heq];
      [|by apply escape_char_shape..].
    apply IH in Heq as [-> ->]; done.
Qed.

Lemma encode_basestring_ascii_prefix a b r1 r2 :
  Forall scalar a -> Forall scalar b ->
  encode_basestring_ascii a ++ r1 = encode_basestring_ascii b ++ r2 ->
  a = b /\ r1 = r2.
Proof.
  intros Ha Hb Heq. unfold encode_basestring_ascii in Heq.
  cbn [app] in Heq. uncons Heq Hq.
  rewrite <- !app_assoc in Heq. cbn [app] in Heq.
  by apply escaped_prefix in Heq.
Qed.

Lemma pair_text_prefix p q r1 r2 :
  scalar_pair p -> scalar_pair q ->
  pair_text p ++ r1 = pair_text q ++ r2 -> p = q /\ r1 = r2.
Proof.
  intros [Hp1 Hp2] [Hq1 Hq2] Heq. unfold pair_text in Heq.
  rewrite <- !app_assoc in Heq.
  change (py "[" ++ ?l) with (91 :: l) in Heq. uncons Heq H0.
  apply encode_basestring_ascii_prefix in Heq as [Hfst Heq]; [|done..].
  change (py ", " ++ ?l) with (44 :: 32 :: l) in Heq.
  uncons Heq H1. uncons Heq H2.
  apply encode_basestring_ascii_prefix in Heq as [Hsnd Heq]; [|done..].
  change (py "]" ++ ?l) with (93 :: l) in Heq. uncons Heq H3.
  split; [|done]. destruct p, q; simpl in *; congruence.
Qed.

Lemma pairs_text_head q qs : exists rest, pairs_text (q :: qs) = 91 :: rest.
Proof. destruct qs; eexists; reflexivity. Qed.

Lemma pairs_text_close p ps r :
  pairs_text (p :: ps) ++ 93 :: r
  = pair_text p
    ++ match ps with
       | [] => 93 :: r
       | _ :: _ => 44 :: 32 :: pairs_text ps ++ 93 :: r
       end.
Proof.
  destruct ps; [reflexivity|].
  rewrite pairs_text_cons, <- !app_assoc. reflexivity.
Qed.

Lemma pairs_text_prefix (ps : list (list Z * list Z)) : forall qs r1 r2,
  Forall scalar_pair ps -> Forall scalar_pair qs ->
  pairs_text ps ++ 93 :: r1 = pairs_text qs ++ 93 :: r2 ->
  ps = qs /\ r1 = r2.
Proof.
  induction ps as [|p ps IH]; intros [|q qs] r1 r2 Hps Hqs Heq.
  - cbn [pairs_text app] in Heq. uncons Heq Hh. by subst.
  - destruct (pairs_text_head q qs) as [rest Hrest]. rewrite Hrest in Heq.
    cbn [pairs_text app] in Heq. uncons Heq Hh. discriminate Hh.
  - destruct (pairs_text_head p ps) as [rest Hrest]. rewrite Hrest in Heq.
    cbn [pairs_text app] in Heq. uncons Heq Hh. discriminate Hh.
  - apply Forall_cons_1 in Hps as [Hp Hps].
    apply Forall_cons_1 in Hqs as [Hq Hqs].
    rewrite !pairs_text_close in Heq.
    apply pair_text_prefix in Heq as [-> Heq]; [|done..].
    destruct ps as [|p' ps], qs as [|q' qs].
    + uncons Heq Hh. by subst.
    + uncons Heq Hh. discriminate Hh.
    + uncons Heq Hh. discriminate Hh.
    + uncons Heq H1. uncons Heq H2.
      apply IH in Heq as [-> ->]; done.
Qed.

Lemma hash_source_text_inj p1 p2 pairs1 pairs2 s1 s2 e1 e2 :
  Forall scalar p1 -> Forall scalar p2 ->
  Forall scalar_pair pairs1 -> Forall scalar_pair pairs2 ->
  Forall scalar s1 -> Forall scalar s2 ->
  Forall scalar e1 -> Forall scalar e2 ->
  hash_source_text p1 pairs1 s1 e1 = hash_source_text p2 pairs2 s2 e2 ->
  p1 = p2 /\ pairs1 = pairs2 /\ s1 = s2 /\ e1 = e2.
Proof.
  intros Hp1 Hp2 Hps1 Hps2 Hs1 Hs2 He1 He2 Heq. unfold hash_source_text in Heq.
  change (py "[" ++ ?l) with (91 :: l) in Heq. uncons Heq H0.
  apply encode_basestring_ascii_prefix in Heq as [-> Heq]; [|done..].
  change (py ", " ++ ?l) with (44 :: 32 :: l) in Heq.
  uncons Heq H1. uncons Heq H2.
  change (py "[" ++ ?l) with (91 :: l) in Heq. uncons Heq H3.
  change (py "]" ++ ?l) with (93 :: l) in Heq.
  apply pairs_text_prefix in Heq as [-> Heq]; [|done..].
  change (py ", " ++ ?l) with (44 :: 32 :: l) in Heq.
  uncons Heq H4. uncons Heq H5.
  apply encode_basestring_ascii_prefix in Heq as [-> Heq]; [|done..].
  change (py ", " ++ ?l) with (44 :: 32 :: l) in Heq.
  uncons Heq H6. uncons Heq H7.
  apply encode_basestring_ascii_prefix in Heq as [-> Heq]; [|done..].
  done.
Qed.

(** ** The primary key *)

Lemma hash_inputs_record_hash p s e pairs :
  generate_sdc_record_hash (hash_inputs_record p s e) pairs
  = Ok (record_hash p pairs s e).
Proof.
  apply generate_sdc_record_hash_eq; unfold hash_inputs_record.
  - by rewrite lookup_insert_eq.
  - rewrite lookup_insert_ne by py_neq. by rewrite lookup_insert_eq.
  - rewrite !lookup_insert_ne by py_neq. by rewrite lookup_insert_eq.
Qed.

(** Two strings that differ only in how a character outside the basic
    plane is held, as one code point or as a pair of surrogates, have the
    same JSON text and so the same primary key. *)
Example generate_sdc_record_hash_surrogates :
  generate_sdc_record_hash
    (hash_inputs_record [0x1f600] (py "20230115") (py "20230115")) []
  = generate_sdc_record_hash
      (hash_inputs_record [0xd83d; 0xde00] (py "20230115") (py "20230115")) [].
Proof. vm_compute. reflexivity. Qed.

Lemma Forall_scalar_pair_sorted pairs :
  Forall scalar_pair pairs -> Forall scalar_pair (sorted pairs).
Proof. intros Hall. by rewrite sorted_Permutation. Qed.



Example generate_sdc_record_hash_example :
  generate_sdc_record_hash
    (hash_inputs_record (py "123") (py "20230115") (py "20230115"))
    [(py "date", py "20230115"); (py "country", py "US")]
  = Ok (py "08ba7f39a6542adc1a0764fe1e5c3b0540d4f1d1ca6ee88493e57e024e096ded")
  /\ json_dumps
       (hash_source_data (py "123")
          (sorted [(py "date", py "20230115"); (py "country", py "US")])
          (py "20230115") (py "20230115"))
     = [91; 34] ++ py "123" ++ [34] ++ py ", [[" ++ [34] ++ py "country"
       ++ [34] ++ py ", " ++ [34] ++ py "US" ++ [34] ++ py "], [" ++ [34]
       ++ py "date" ++ [34] ++ py ", " ++ [34] ++ py "20230115" ++ [34]
       ++ py "]], " ++ [34] ++ py "20230115" ++ [34] ++ py ", " ++ [34]
       ++ py "20230115" ++ [34] ++ py "]".
Proof. vm_compute. split; reflexivity. Qed.

(** ** Bookmarks *)

Lemma write_bookmark_overwrite st sid k v1 v2 :
  write_bookmark (write_bookmark st sid k v1) sid k v2
  = write_bookmark st sid k v2.
Proof.
  unfold write_bookmark. cbn [bookmarks currently_syncing]. f_equal.
  rewrite lookup_insert_eq. cbn [default from_option id].
  by rewrite !insert_insert_eq.
Qed.

Lemma get_bookmark_write_bookmark st sid k v :
  get_bookmark (write_bookmark st sid k v) sid k = v.
Proof.
  unfold get_bookmark, write_bookmark. cbn [bookmarks].
  by rewrite lookup_insert_eq; cbn [default from_option id];
    rewrite lookup_insert_eq.
Qed.

Section sync.
Context `{Externals} (api : Api) (report : Report).

Lemma sync_rows_convert (page : Response) (rows : list Row) :
  forall out log,
    forallb (makes_message report page) rows = true ->
    exists log',
      sync_rows report rows (dimension_headers page) (metric_headers page)
        out log
      = (out ++ omap (row_message report page) rows, log', Ok tt).
Proof.
  induction rows as [|row rows IH]; intros out log Hall.
  - exists log. cbn [sync_rows omap]. by rewrite app_nil_r.
  - cbn [forallb] in Hall. apply andb_prop in Hall as [Hrow Hall].
    cbn [sync_rows].
    change (omap (row_message report page) (row :: rows))
      with (match row_message report page row with
            | Some y => y :: omap (row_message report page) rows
            | None => omap (row_message report page) rows
            end).
    unfold makes_message in Hrow. unfold row_message in Hrow |- *.
    destruct (row_to_record report row (dimension_headers page)
                (metric_headers page)) as [rec|e]; [|done].
    destruct (transform_datetimes (rep_name report) rec)
      as [[rec' lines]|e]; [|done].
    destruct (singer_transform rec') as [typed|e]; [|done].
    destruct (IH (out ++ [RECORD (rep_name report) typed]) (log ++ lines) Hall)
      as [log' ->].
    exists log'. rewrite <- app_assoc. reflexivity.
Qed.

(** The loop of [sync_report] over the pages makes the requests of
    [get_report] and writes, for every page, its records and then the state
    with the bookmark of the chunk. *)
Lemma sync_pages_pagewise (st0 : State) (s e : Z) (fuel : nat) :
  forall offset has_more_rows st w' pages,
    get_report_from fuel api report s e offset has_more_rows (world st)
    = (w', pages, Exhausted) ->
    forallb (fun page => forallb (makes_message report page) (rows page))
      pages = true ->
    (forall v, write_bookmark (state st) (rep_id report)
                 (rep_property_id report) v
               = write_bookmark st0 (rep_id report) (rep_property_id report) v) ->
    exists log',
      sync_pages fuel api report s e offset has_more_rows st
      = ({| world := w';
            output := output st
                      ++ flat_map (fun page =>
                           page_records report page
                           ++ [STATE (bookmark_state report st0 e)]) pages;
            logged := log';
            state := match pages with
                     | [] => state st
                     | _ :: _ => bookmark_state report st0 e
                     end |}, Exhausted).
Proof.
  induction fuel as [|fuel IH]; intros offset has_more_rows st w' pages
    Hrun Hrows Hstate.
  - destruct has_more_rows; [done|]. cbn [get_report_from] in Hrun.
    injection Hrun as <- <-. exists (logged st). cbn [sync_pages flat_map].
    rewrite app_nil_r. by destruct st.
  - destruct has_more_rows.
    2:{ cbn [get_report_from] in Hrun. injection Hrun as <- <-.
        exists (logged st). cbn [sync_pages flat_map].
        rewrite app_nil_r. by destruct st. }
    cbn [get_report_from sync_pages] in Hrun |- *.
    destruct (make_request api report s e offset (world st))
      as [w [[[response more] offset']|ex]]; [|done].
    destruct (get_report_from fuel api report s e offset' more w)
      as [[w1 rest] how] eqn:Hrest.
    injection Hrun as <- <- ->.
    cbn [forallb] in Hrows. apply andb_prop in Hrows as [Hpage Hrows].
    destruct (sync_rows_convert response (rows response) (output st)
                (logged st) Hpage) as [log1 ->].
    fold (page_records report response).
    rewrite Hstate. fold (bookmark_state report st0 e).
    destruct (IH offset' more
                {| world := w;
                   output := (output st ++ page_records report response)
                             ++ [STATE (bookmark_state report st0 e)];
                   logged := log1;
                   state := bookmark_state report st0 e |} w1 rest)
      as [log' ->]; [done|done| |].
    + intros v. cbn [state]. unfold bookmark_state.
      apply write_bookmark_overwrite.
    + exists log'. cbn [world output logged state flat_map].
      rewrite <- !app_assoc. by destruct rest.
Qed.

Lemma sync_chunks_pagewise (st0 : State) (fuel : nat) (chunks : list (Z * Z)) :
  forall st cps,
    pages_of_chunks fuel api report chunks (world st) = Some cps ->
    rows_convert report cps = true ->
    (forall v, write_bookmark (state st) (rep_id report)
                 (rep_property_id report) v
               = write_bookmark st0 (rep_id report) (rep_property_id report) v) ->
    exists st',
      sync_chunks fuel api report chunks st = (st', Exhausted)
      /\ output st' = output st ++ pagewise_output report st0 cps
      /\ cps.*1 = chunks
      /\ Forall (fun cp => snd cp <> []) cps
      /\ state st' = match list.last chunks with
                     | None => state st
                     | Some chunk => bookmark_state report st0 (snd chunk)
                     end.
Proof.
  induction chunks as [|[s e] chunks IH]; intros st cps Hpages Hrows Hstate.
  - injection Hpages as <-. exists st. cbn [sync_chunks pagewise_output flat_map].
    by rewrite app_nil_r.
  - cbn [pages_of_chunks fst snd] in Hpages. unfold get_report in Hpages.
    destruct (get_report_from fuel api report s e 0 true (world st))
      as [[w pages] how] eqn:Hrun.
    destruct how; [|done..].
    destruct (pages_of_chunks fuel api report chunks w) as [rest|] eqn:Hrest;
      [|done].
    injection Hpages as <-.
    cbn [rows_convert forallb snd] in Hrows.
    apply andb_prop in Hrows as [Hpage Hrows].
    destruct (sync_pages_pagewise st0 s e fuel 0 true st w pages Hrun Hpage
                Hstate) as [log' Hsync].
    cbn [sync_chunks]. rewrite Hsync.
    assert (Hne : pages <> []).
    { destruct fuel; [done|]. cbn [get_report_from] in Hrun.
      destruct (make_request api report s e 0 (world st))
        as [w0 [[[response more] offset']|ex]]; [|done].
      destruct (get_report_from fuel api report s e offset' more w0)
        as [[w1 rest'] how']. by injection Hrun as <- <- ->. }
    destruct pages as [|page pages]; [done|].
    destruct (IH {| world := w;
                    output := output st
                              ++ flat_map (fun page0 =>
                                   page_records report page0
                                   ++ [STATE (bookmark_state report st0 e)])
                                   (page :: pages);
                    logged := log';
                    state := bookmark_state report st0 e |} rest)
      as (st' & -> & Hout & Hfst & Hall & Hlast); [done|done| |].
    + intros v. cbn [state]. unfold bookmark_state.
      apply write_bookmark_overwrite.
    + exists st'. split; [done|]. split.
      { rewrite Hout. cbn [output pagewise_output flat_map fst snd].
        by rewrite <- app_assoc. }
      split; [by rewrite fmap_cons, Hfst|]. split; [by constructor|].
      rewrite Hlast. cbn [state]. rewrite last_cons.
      by destruct (list.last chunks).
Qed.

End sync.

(** The output of a run in which the generator of the chunks is exhausted,
    the API answers and every row makes a record: chunk after chunk and
    page after page, the records of the page followed by the state with the
    bookmark of the chunk of that page. Every chunk has at least one page,
    and after the run the bookmark is the end date of the last chunk. *)
Lemma sync_report_bookmarks `{Externals} (fuel : nat) (api : Api)
    (report : Report) (start_date end_date request_range : Z) (st : Sync)
    (chunks : list (Z * Z)) (cps : list ((Z * Z) * list Response)) :
  generate_report_dates fuel start_date end_date request_range
  = (chunks, Exhausted) ->
  pages_of_chunks fuel api report chunks (world st) = Some cps ->
  rows_convert report cps = true ->
  exists st',
    sync_report fuel api report start_date end_date request_range st
    = (st', Exhausted)
    /\ output st' = output st ++ pagewise_output report (state st) cps
    /\ cps.*1 = chunks
    /\ Forall (fun cp => snd cp <> []) cps
    /\ (forall chunk,
          list.last chunks = Some chunk ->
          state st' = bookmark_state report (state st) (snd chunk))
    /\ (forall e,
          get_bookmark (bookmark_state report (state st) e) (rep_id report)
            (rep_property_id report)
          = {[ py "last_report_date" := strftime_ymd e ]}).
Proof.
  intros Hchunks Hpages Hrows. unfold sync_report. rewrite Hchunks.
  destruct (sync_chunks_pagewise api report (state st) fuel chunks st cps
              Hpages Hrows) as (st' & Hsync & Hout & Hfst & Hall & Hlast);
    [done|].
  rewrite Hsync.
  exists st'. do 4 (split; [done|]). split.
  - intros chunk Hchunk. by rewrite Hlast, Hchunk.
  - intros e. apply get_bookmark_write_bookmark.
Qed.

(** A chunk of one day whose query has 150000 rows, one row on each of
    its two pages: the state is written between the two records. *)
Example sync_report_two_pages :
  let r := @sync_report iso_externals 3 (answering (fun _ _ => example_page))
             example_report (19358 * US_PER_DAY) (19358 * US_PER_DAY) 7
             example_sync in
  snd r = Exhausted
  /\ is_state <$> output (fst r) = [false; true; false; true]
  /\ req_offset <$> requests (world (fst r)) = [0; 100000]
  /\ get_bookmark (state (fst r)) (py "sessions") (py "123")
       !! py "last_report_date"
     = Some (py "2023-01-01").
Proof. vm_compute. repeat split. Qed.

(** C4. The chunk from 2023-01-01 to 2023-01-07 of a query with 150000
    rows, against an API that answers the first request and fails every
    later one with [ServerError]: the bookmark of the end of the chunk,
    2023-01-07, is written and the state persisted after the first page,
    before the second page is requested; the run then ends by the
    exception of the fifth attempt for the second page, with the rows of
    that page unread. A run started on 2023-06-15 from the persisted state
    begins at 2023-01-07, after the days whose rows were not read. *)
Example sync_report_bookmark_mid_chunk :
  let r := @sync_report iso_externals 3
             (failing_after_first example_page ServerError)
             example_report (19358 * US_PER_DAY) (19364 * US_PER_DAY) 7
             example_sync in
  snd r = Raised ServerError
  /\ is_state <$> output (fst r) = [false; true]
  /\ req_offset <$> requests (world (fst r))
     = [0; 100000; 100000; 100000; 100000; 100000]
  /\ get_bookmark (state (fst r)) (py "sessions") (py "123")
       !! py "last_report_date"
     = Some (py "2023-01-07")
  /\ @get_report_start_date iso_externals example_config (py "123")
       (state (fst r)) (py "sessions") example_now
     = Ok (19364 * US_PER_DAY).
Proof. vm_compute. repeat split. Qed.

(** ** Further properties of the engine, of discovery and of the client *)

(** X1. For a positive [request_range] and any two datetimes, times of day
    included, chunk number [i] of [generate_report_dates] starts on the
    day of [start_date] plus [i * request_range] days and ends
    [request_range - 1] days later, or on the day of [end_date] when that
    is earlier. With [n = (end_date - start_date) div (request_range days)
    + 1] (0 when [end_date < start_date]), the generator yields [n] chunks
    and is exhausted when [start_date] plus [n * request_range] days is
    not after 9999-12-31; otherwise it yields the chunks whose end before
    truncation is not after 9999-12-31 and raises [OverflowError]. *)
Theorem generate_report_dates_closed_form (start_date end_date request_range : Z) :
  0 < request_range ->
  DATETIME_MIN <= start_date <= DATETIME_MAX ->
  let n := chunk_count start_date end_date request_range in
  (start_date <= end_date ->
   n = (end_date - start_date) / (request_range * US_PER_DAY) + 1)
  /\ (end_date < start_date -> n = 0)
  /\ forall fuel, (Z.to_nat n < fuel)%nat ->
       generate_report_dates fuel start_date end_date request_range
       = if bool_decide
              (start_date + timedelta_days (n * request_range) <= DATETIME_MAX)
         then (nth_chunk start_date end_date request_range <$> seqZ 0 n,
               Exhausted)
         else (nth_chunk start_date end_date request_range
                 <$> seqZ 0 ((days_left start_date + 1) / request_range),
               Raised OverflowError).
Proof.
  intros Hspan Hvalid n. subst n. split; [|split].
  - intros Hle. unfold chunk_count, timedelta_days.
    by destruct (Z.leb_spec start_date end_date); [|lia].
  - intros Hlt. unfold chunk_count.
    by destruct (Z.leb_spec start_date end_date); [lia|].
  - intros fuel Hfuel. unfold generate_report_dates.
    pose proof (chunk_count_nonneg start_date end_date request_range Hspan)
      as Hn.
    rewrite (generate_report_dates_from_closed_form end_date request_range
               (Z.to_nat (chunk_count start_date end_date request_range))
               Hspan start_date Hvalid) by (rewrite ?Z2Nat.id; done).
    rewrite Z2Nat.id by done.
    apply (f_equal (fun b : bool => if b then _ else _)).
    apply bool_decide_ext. symmetry. apply days_left_spec.
Qed.

Lemma generate_report_dates_closed_form_witness :
  generate_report_dates 3 (19358 * US_PER_DAY + 12 * US_PER_HOUR)
    (19365 * US_PER_DAY) 7
  = (nth_chunk (19358 * US_PER_DAY + 12 * US_PER_HOUR)
       (19365 * US_PER_DAY) 7 <$> seqZ 0 1, Exhausted).
Proof.
  pose proof (generate_report_dates_closed_form
                (19358 * US_PER_DAY + 12 * US_PER_HOUR) (19365 * US_PER_DAY) 7)
    as Hform.
  destruct Hform as (_ & _ & Hrun); [lia|vm_compute; split; discriminate|].
  rewrite (Hrun 3%nat) by (vm_compute; lia). reflexivity.
Defined.

(** X2. With a [request_range] of 0 and [start_date <= end_date] the loop of
    [generate_report_dates] never ends when [start_date] is 0001-01-02 or
    later: every iteration yields the same chunk, from the day of
    [start_date] to the day before it, and the next one starts where this
    one did, so that no number of iterations exhausts the generator. For
    a [start_date] on 0001-01-01 the day before is no datetime and the
    generator raises [OverflowError] before it has yielded anything. *)
Theorem generate_report_dates_zero_range (start_date end_date : Z) (fuel : nat) :
  start_date <= end_date ->
  DATETIME_MIN <= start_date <= DATETIME_MAX ->
  (DATETIME_MIN + US_PER_DAY <= start_date ->
   generate_report_dates fuel start_date end_date 0
   = (replicate fuel (date_of start_date, date_of start_date - 1), Unfinished))
  /\ (start_date < DATETIME_MIN + US_PER_DAY ->
      generate_report_dates (S fuel) start_date end_date 0
      = ([], Raised OverflowError)).
Proof.
  intros Hle Hvalid. unfold generate_report_dates.
  assert (Hdelta : timedelta (0 - 1) = Ok (- US_PER_DAY)).
  { reflexivity. }
  pose proof US_PER_DAY_pos as HD. split.
  - intros Hsecond. induction fuel as [|fuel IH]; [done|].
    cbn [generate_report_dates_from].
    destruct (Z.leb_spec start_date end_date); [|lia].
    rewrite Hdelta. cbn [rbind]. unfold datetime_add.
    rewrite bool_decide_eq_true_2 by lia.
    rewrite bool_decide_eq_true_2 by (unfold timedelta_days; lia).
    replace (start_date + - US_PER_DAY + timedelta_days 1) with start_date
      by (unfold timedelta_days; lia).
    rewrite IH. cbn [replicate]. do 3 f_equal.
    rewrite Z.min_r by lia.
    replace (start_date + - US_PER_DAY)
      with (start_date + timedelta_days (-1)) by (unfold timedelta_days; lia).
    by rewrite date_of_add_days.
  - intros Hfirst. cbn [generate_report_dates_from].
    destruct (Z.leb_spec start_date end_date); [|lia].
    rewrite Hdelta. cbn [rbind]. unfold datetime_add.
    by rewrite bool_decide_eq_false_2 by lia.
Qed.

Lemma generate_report_dates_zero_range_witness :
  generate_report_dates 1000 (19358 * US_PER_DAY) (19358 * US_PER_DAY) 0
  = (replicate 1000 (19358, 19357), Unfinished)
  /\ generate_report_dates 1 DATETIME_MIN (19358 * US_PER_DAY) 0
     = ([], Raised OverflowError).
Proof.
  split.
  - pose proof (generate_report_dates_zero_range
                  (19358 * US_PER_DAY) (19358 * US_PER_DAY) 1000) as [Hrun _];
      [lia|vm_compute; split; discriminate|].
    rewrite Hrun by (vm_compute; discriminate).
    by rewrite date_of_mul.
  - pose proof (generate_report_dates_zero_range
                  DATETIME_MIN (19358 * US_PER_DAY) 0) as [_ Hrun];
      [vm_compute; discriminate|vm_compute; split; discriminate|].
    apply Hrun. reflexivity.
Defined.

Lemma requests_sleep_if_quota_reached ex w :
  requests (fst (sleep_if_quota_reached ex w)) = requests w
  /\ snd (sleep_if_quota_reached ex w) = false.
Proof. by destruct ex. Qed.

Section calls.
Context (api : Api) (report : Report) (range_start_date range_end_date : Z).
Context (offset : Z).

Let request := run_report_request report range_start_date range_end_date offset.
Let body := make_request_body api report range_start_date range_end_date offset.
Let retry (remaining : nat) (tries : Z) :=
  retry_exception remaining tries 5 make_request_retryable
    sleep_if_quota_reached body.

Lemma retry_calls remaining : forall tries w,
  tries + Z.of_nat remaining = 5 -> (1 <= remaining)%nat ->
  exists (n : nat) (w' : World),
    (n < remaining)%nat
    /\ (forall i, (i < n)%nat ->
          exists ex, api (length (requests w) + i)%nat request = Raise ex
                     /\ make_request_retryable ex = true)
    /\ requests w' = requests w ++ replicate (S n) request
    /\ retry remaining tries w
       = (w', make_request_result offset
                (api (length (requests w) + n)%nat request))
    /\ (forall ex, api (length (requests w) + n)%nat request = Raise ex ->
          make_request_retryable ex = true -> S n = remaining).
Proof.
  induction remaining as [|remaining IH]; intros tries w Htries Hrem; [lia|].
  unfold retry. cbn [retry_exception]. fold body. unfold body at 1.
  unfold make_request_body. fold request. rewrite run_report_sent.
  destruct (api (length (requests w)) request) as [response|ex] eqn:Hanswer.
  { exists 0%nat, (sent request w). rewrite Nat.add_0_r, Hanswer.
    split; [lia|]. split; [intros i Hi; lia|]. split; [done|]. split; [done|].
    intros ex [=]. }
  destruct (make_request_retryable ex) eqn:Hretry.
  2:{ exists 0%nat, (sent request w). rewrite Nat.add_0_r, Hanswer.
      split; [lia|]. split; [intros i Hi; lia|]. split; [done|].
      split; [done|]. intros ex' [= <-]. congruence. }
  destruct (requests_sleep_if_quota_reached ex (sent request w)) as [Hreq Hno].
  destruct (sleep_if_quota_reached ex (sent request w)) as [w1 gave_up].
  cbn [fst snd] in Hreq, Hno. subst gave_up. cbn [orb].
  destruct (Z.eqb_spec (tries + 1) 5) as [Hlast|Hmore].
  { exists 0%nat, w1. rewrite Nat.add_0_r, Hanswer.
    split; [lia|]. split; [intros i Hi; lia|]. split; [done|].
    split; [done|]. intros _ _ _. lia. }
  fold (retry remaining (tries + 1)).
  destruct (IH (tries + 1) (time_sleep (expo (tries + 1 - 1)) w1))
    as (n & w' & Hn & Hbefore & Hrequests & Hrun & Hfull); [lia|lia|].
  assert (Hlen : forall i,
            (length (requests (time_sleep (expo (tries + 1 - 1)) w1)) + i
             = length (requests w) + S i)%nat).
  { intros i. cbn [time_sleep requests]. rewrite Hreq. cbn [sent requests].
    rewrite length_app. simpl. lia. }
  exists (S n), w'. split; [lia|]. split; [|split; [|split]].
  - intros [|i] Hi.
    + rewrite Nat.add_0_r. eauto.
    + rewrite <- Hlen. apply Hbefore. lia.
  - rewrite Hrequests. cbn [time_sleep requests]. rewrite Hreq.
    cbn [sent requests replicate]. by rewrite <- app_assoc.
  - rewrite Hrun. by rewrite Hlen.
  - intros ex' Hex' Hretry'. rewrite <- Hlen in Hex'.
    by rewrite (Hfull ex' Hex' Hretry').
Qed.

Lemma requests_backoff_waits k : forall tries w,
  requests (backoff_waits k tries request w)
  = requests w ++ replicate k request.
Proof.
  induction k as [|k IH]; intros tries w; simpl.
  - by rewrite app_nil_r.
  - rewrite IH. simpl. by rewrite <- app_assoc.
Qed.

Lemma sleeps_backoff_waits k : forall tries w,
  sleeps (backoff_waits k tries request w)
  = sleeps w ++ (expo <$> seqZ tries (Z.of_nat k)).
Proof.
  induction k as [|k IH]; intros tries w.
  - simpl. by rewrite app_nil_r.
  - cbn [backoff_waits]. rewrite IH. cbn [time_sleep sent sleeps].
    rewrite <- app_assoc. f_equal.
    rewrite (seqZ_cons tries) by lia. rewrite fmap_cons. cbn [app].
    replace (Z.succ tries) with (tries + 1) by lia.
    by replace (Z.pred (Z.of_nat (S k))) with (Z.of_nat k) by lia.
Qed.

Lemma clock_backoff_waits k : forall tries w,
  0 <= tries ->
  clock (backoff_waits k tries request w)
  = clock w + (2 ^ (tries + Z.of_nat k) - 2 ^ tries) * US_PER_SECOND.
Proof.
  induction k as [|k IH]; intros tries w Htries.
  - simpl. rewrite Z.add_0_r, Z.sub_diag. lia.
  - cbn [backoff_waits]. rewrite IH by lia. cbn [time_sleep sent clock].
    unfold expo, US_PER_SECOND.
    replace (tries + 1 + Z.of_nat k) with (tries + Z.of_nat (S k)) by lia.
    rewrite (Z.pow_add_r 2 tries 1) by lia. lia.
Qed.

Lemma retry_backoff_waits k : forall remaining tries w,
  (forall i, (i < k)%nat ->
     api (length (requests w) + i)%nat request = Raise ServerError
     \/ api (length (requests w) + i)%nat request = Raise TooManyRequests) ->
  tries + Z.of_nat k < 5 ->
  retry (k + remaining) tries w
  = retry remaining (tries + Z.of_nat k) (backoff_waits k tries request w).
Proof.
  induction k as [|k IH]; intros remaining tries w Herr Htries.
  - simpl. by rewrite Z.add_0_r.
  - change (S k + remaining)%nat with (S (k + remaining)).
    unfold retry at 1. cbn [retry_exception]. fold body. unfold body at 1.
    unfold make_request_body. fold request.
    rewrite run_report_sent.
    assert (Hstep : forall ex,
              ex = ServerError \/ ex = TooManyRequests ->
              make_request_retryable ex = true
              /\ sleep_if_quota_reached ex (sent request w)
                 = (sent request w, false))
      by (intros ex [-> | ->]; done).
    pose proof (Herr 0%nat ltac:(lia)) as H0. rewrite Nat.add_0_r in H0.
    assert (Hex : exists ex, api (length (requests w)) request = Raise ex
                             /\ (ex = ServerError \/ ex = TooManyRequests))
      by (destruct H0 as [-> | ->]; eauto).
    destruct Hex as (ex & -> & Hex). destruct (Hstep ex Hex) as [-> ->].
    cbn [orb].
    destruct (Z.eqb_spec (tries + 1) 5) as [|_]; [lia|].
    replace (tries + 1 - 1) with tries by lia.
    fold (retry (k + remaining) (tries + 1)).
    rewrite IH.
    + cbn [backoff_waits]. f_equal. lia.
    + intros i Hi. cbn [time_sleep sent requests]. rewrite length_app. simpl.
      replace (length (requests w) + 1 + i)%nat
        with (length (requests w) + S i)%nat by lia.
      apply Herr. lia.
    + lia.
Qed.

Lemma retry_last tries w :
  tries + 1 = 5 ->
  forall remaining ex,
    api (length (requests w)) request = Raise ex ->
    ex = ServerError \/ ex = TooManyRequests ->
    retry (S remaining) tries w = (sent request w, Raise ex).
Proof.
  intros Htries remaining ex Hanswer Hex. unfold retry, body. simpl.
  unfold make_request_body. fold request. rewrite run_report_sent, Hanswer.
  destruct Hex as [-> | ->]; simpl; by rewrite Htries.
Qed.

Lemma retry_first remaining tries w :
  (forall ex, api (length (requests w)) request = Raise ex ->
              make_request_retryable ex = false) ->
  retry (S remaining) tries w
  = (sent request w,
     make_request_result offset (api (length (requests w)) request)).
Proof.
  intros Hanswer. unfold retry, body. simpl.
  unfold make_request_body. fold request. rewrite run_report_sent.
  destruct (api (length (requests w)) request) as [response|ex]; [done|].
  by rewrite (Hanswer ex).
Qed.

End calls.

(** X3. Whatever the API answers, [make_request] sends the same request
    between one and five times; every call before the last was answered by
    [ServerError], [TooManyRequests] or [ResourceExhausted], and the result
    is that of the last call: its response with [has_more_rows = row_count >
    100000 + offset] and the offset advanced by 100000, or its exception. A
    last call that raised one of the three retried exceptions was the fifth. *)
Theorem make_request_calls (api : Api) (report : Report)
    (range_start_date range_end_date offset : Z) (w : World) :
  let request :=
    run_report_request report range_start_date range_end_date offset in
  let answer (i : nat) := api (length (requests w) + i)%nat request in
  exists (n : nat) (w' : World),
    (n < 5)%nat
    /\ (forall i, (i < n)%nat ->
          answer i = Raise ServerError \/ answer i = Raise TooManyRequests
          \/ answer i = Raise ResourceExhausted)
    /\ requests w' = requests w ++ replicate (S n) request
    /\ make_request api report range_start_date range_end_date offset w
       = (w', make_request_result offset (answer n))
    /\ (answer n = Raise ServerError \/ answer n = Raise TooManyRequests
        \/ answer n = Raise ResourceExhausted -> n = 4%nat).
Proof.
  intros request answer. subst request answer.
  destruct (retry_calls api report range_start_date range_end_date offset
              5 0 w) as (n & w' & Hn & Hbefore & Hrequests & Hrun & Hfull);
    [lia|lia|].
  exists n, w'. split; [done|]. split; [|split; [done|split; [done|]]].
  - intros i Hi. destruct (Hbefore i Hi) as (ex & -> & Hretry).
    destruct ex; try discriminate Hretry; auto.
  - intros Hlast.
    assert (S n = 5%nat); [|lia].
    destruct Hlast as [Hex|[Hex|Hex]]; by eapply Hfull.
Qed.

(** X4. When the first [k <= 4] calls are answered by [ServerError] or
    [TooManyRequests] and the next one by a response or by an exception that
    is not retried, [make_request] sends [k + 1] requests, sleeps 1, 2, 4,
    ... seconds between them ([2^k - 1] seconds in all) and returns that
    answer. After five such errors in a row it raises the fifth, having
    slept 1, 2, 4 and 8 seconds. *)
Theorem make_request_backoff (api : Api) (report : Report)
    (range_start_date range_end_date offset : Z) (w : World) (k : nat) :
  let request :=
    run_report_request report range_start_date range_end_date offset in
  let answer (i : nat) := api (length (requests w) + i)%nat request in
  (forall i, (i < k)%nat ->
     answer i = Raise ServerError \/ answer i = Raise TooManyRequests) ->
  ((k <= 4)%nat ->
   (forall ex, answer k = Raise ex -> make_request_retryable ex = false) ->
   let waited := backoff_waits k 0 request w in
   make_request api report range_start_date range_end_date offset w
   = (sent request waited, make_request_result offset (answer k))
   /\ requests (sent request waited) = requests w ++ replicate (S k) request
   /\ sleeps (sent request waited)
      = sleeps w ++ ((fun i => 2 ^ i) <$> seqZ 0 (Z.of_nat k))
   /\ clock (sent request waited)
      = clock w + (2 ^ Z.of_nat k - 1) * US_PER_SECOND)
  /\ (k = 5%nat ->
      let waited := backoff_waits 4 0 request w in
      exists ex,
        answer 4%nat = Raise ex
        /\ make_request api report range_start_date range_end_date offset w
           = (sent request waited, Raise ex)
        /\ requests (sent request waited) = requests w ++ replicate 5 request
        /\ sleeps (sent request waited) = sleeps w ++ [1; 2; 4; 8]
        /\ clock (sent request waited) = clock w + 15 * US_PER_SECOND).
Proof.
  intros request answer Herr. subst request answer. cbv beta in Herr. split.
  - intros Hk Hlast waited. subst waited.
    split; [|split; [|split]].
    + unfold make_request, on_exception.
      replace 5%nat with (k + S (4 - k))%nat by lia.
      replace (Z.of_nat (k + S (4 - k))) with 5 by lia.
      rewrite retry_backoff_waits by (auto || lia).
      rewrite retry_first; rewrite requests_backoff_waits, length_app,
        length_replicate; done.
    + cbn [sent requests]. rewrite requests_backoff_waits, <- app_assoc.
      f_equal. change [?x] with (replicate 1 x).
      rewrite <- replicate_add. f_equal. lia.
    + cbn [sent sleeps]. apply sleeps_backoff_waits.
    + cbn [sent clock]. rewrite clock_backoff_waits by lia.
      rewrite Z.add_0_l. done.
  - intros -> waited. subst waited.
    destruct (Herr 4%nat ltac:(lia)) as [Hex|Hex];
      (eexists; split; [exact Hex|]); (split; [|split; [|split]]).
    all: try (cbn [sent requests]; rewrite requests_backoff_waits,
                <- app_assoc; reflexivity).
    all: try (cbn [sent sleeps]; rewrite sleeps_backoff_waits; reflexivity).
    all: try (cbn [sent clock]; rewrite clock_backoff_waits by lia;
              reflexivity).
    all: unfold make_request, on_exception;
      change 5%nat with (4 + 1)%nat at 1; change (Z.of_nat 5) with 5;
      rewrite retry_backoff_waits by (auto with lia || lia);
      apply retry_last; [done| |auto];
      rewrite requests_backoff_waits, length_app, length_replicate; done.
Qed.

Lemma make_request_backoff_witness :
  exists w,
    make_request (always_raising ServerError) example_report
      19358 19364 0 example_world
    = (w, Raise ServerError)
    /\ sleeps w = [1; 2; 4; 8].
Proof.
  destruct (make_request_backoff (always_raising ServerError) example_report
              19358 19364 0 example_world 5) as [_ Hfive].
  - intros i _. left. reflexivity.
  - destruct (Hfive eq_refl) as (ex & Hex & Hrun & _ & Hsleeps & _).
    injection Hex as <-. eexists. split; [exact Hrun|exact Hsleeps].
Defined.

Example make_request_server_errors :
  let api : Api := fun n _ =>
    if (n <? 2)%nat then Raise ServerError else Ok (empty_response 5) in
  let '(w, r) := make_request api example_report 19358 19364 0 example_world in
  r = Ok (empty_response 5, false, 100000)
  /\ sleeps w = [1; 2] /\ length (requests w) = 3%nat.
Proof. vm_compute. done. Qed.

Lemma make_request_requests api report s e offset w w' r :
  make_request api report s e offset w = (w', r) ->
  (exists n, requests w' = requests w
                           ++ replicate (S n) (run_report_request report s e offset))
  /\ (forall response more offset',
        r = Ok (response, more, offset') -> offset' = offset + REPORT_LIMIT).
Proof.
  intros Hrun.
  destruct (retry_calls api report s e offset 5 0 w)
    as (n & w1 & _ & _ & Hrequests & Hrun' & _); [lia|lia|].
  unfold make_request, on_exception in Hrun.
  change (Z.of_nat 5) with 5 in Hrun. rewrite Hrun' in Hrun.
  injection Hrun as <- <-. split; [by exists n|].
  intros response more offset' Hr.
  destruct (api (length (requests w) + n)%nat
              (run_report_request report s e offset)); [|done].
  by injection Hr as _ _ <-.
Qed.

Lemma get_bookmark_write_bookmark_ne st sid k v sid' k' :
  sid' <> sid \/ k' <> k ->
  get_bookmark (write_bookmark st sid k v) sid' k' = get_bookmark st sid' k'.
Proof.
  intros Hne. unfold get_bookmark, write_bookmark. cbn [bookmarks].
  destruct (decide (sid' = sid)) as [->|Hsid].
  - rewrite lookup_insert_eq. cbn [default from_option id].
    destruct Hne as [?|Hk]; [done|]. by rewrite lookup_insert_ne.
  - by rewrite lookup_insert_ne.
Qed.

Section runs.
Context `{Externals} (api : Api) (report : Report).

Let written (st : State) (v : gmap (list Z) (list Z)) : State :=
  write_bookmark st (rep_id report) (rep_property_id report) v.

Lemma last_state_app s0 (msgs1 msgs2 : list message) :
  last_state s0 (msgs1 ++ msgs2) = last_state (last_state s0 msgs1) msgs2.
Proof. apply foldl_app. Qed.

Lemma last_state_records s0 (msgs : list message) :
  Forall (fun m => is_state m = false) msgs -> last_state s0 msgs = s0.
Proof.
  induction 1 as [|m msgs Hm _ IH]; [done|].
  cbn [last_state foldl]. by destruct m.
Qed.

Lemma last_state_cases s0 (msgs : list message) :
  last_state s0 msgs = s0 \/ STATE (last_state s0 msgs) ∈ msgs.
Proof.
  induction msgs as [|m msgs IH] using rev_ind; [by left|].
  rewrite last_state_app. cbn [last_state foldl].
  destruct m as [? ?|s].
  - destruct IH as [IH|IH]; [by left|]. right. apply elem_of_app. by left.
  - right. apply elem_of_app. right. by left.
Qed.

Lemma sync_rows_records rows dh mh : forall out log out' log' r,
  sync_rows report rows dh mh out log = (out', log', r) ->
  exists recs, out' = out ++ recs /\ Forall (fun m => is_state m = false) recs.
Proof.
  induction rows as [|row rows IH]; intros out log out' log' r Hrun.
  - injection Hrun as <- _ _. exists []. by rewrite app_nil_r.
  - cbn [sync_rows] in Hrun.
    destruct (row_to_record report row dh mh) as [rec|ex].
    2:{ injection Hrun as <- _ _. exists []. by rewrite app_nil_r. }
    destruct (transform_datetimes (rep_name report) rec) as [[rec' lines]|ex].
    2:{ injection Hrun as <- _ _. exists []. by rewrite app_nil_r. }
    destruct (singer_transform rec') as [typed|ex].
    2:{ injection Hrun as <- _ _. exists []. by rewrite app_nil_r. }
    apply IH in Hrun as (recs & -> & Hrecs).
    exists (RECORD (rep_name report) typed :: recs).
    rewrite <- app_assoc. split; [done|]. by constructor.
Qed.

Lemma sync_pages_run (st0 : State) (s e : Z) (fuel : nat) :
  forall offset has_more_rows st st' how,
    sync_pages fuel api report s e offset has_more_rows st = (st', how) ->
    (forall v, written (state st) v = written st0 v) ->
    0 <= offset -> offset mod REPORT_LIMIT = 0 ->
    (forall v, written (state st') v = written st0 v)
    /\ (exists msgs,
          output st' = output st ++ msgs
          /\ state st' = last_state (state st) msgs
          /\ Forall (fun m => is_state m = false
                              \/ m = STATE (bookmark_state report st0 e)) msgs)
    /\ (exists reqs,
          requests (world st') = requests (world st) ++ reqs
          /\ Forall (page_request report s e) reqs).
Proof.
  assert (Hnone : forall st : Sync,
    (exists msgs,
       output st = output st ++ msgs
       /\ state st = last_state (state st) msgs
       /\ Forall (fun m => is_state m = false
                           \/ m = STATE (bookmark_state report st0 e)) msgs)
    /\ (exists reqs,
          requests (world st) = requests (world st) ++ reqs
          /\ Forall (page_request report s e) reqs)).
  { intros st. split; exists []; by rewrite app_nil_r. }
  induction fuel as [|fuel IH];
    intros offset has_more_rows st st' how Hrun Hstate Hoffset Hmod.
  - destruct has_more_rows; injection Hrun as <- _; split; auto.
  - destruct has_more_rows; [|injection Hrun as <- _; split; auto].
    cbn [sync_pages] in Hrun.
    destruct (make_request api report s e offset (world st))
      as [w r] eqn:Hrequest.
    destruct (make_request_requests _ _ _ _ _ _ _ _ Hrequest)
      as [[n Hrequests] Hnext].
    assert (Hreqs : Forall (page_request report s e)
                      (replicate (S n) (run_report_request report s e offset))).
    { apply Forall_replicate. by exists offset. }
    destruct r as [[[response more] offset']|ex].
    2:{ injection Hrun as <- _. cbn [world output state]. split; [done|].
        split; [exists []; by rewrite app_nil_r|]. by eexists. }
    rewrite (Hnext _ _ _ eq_refl) in Hrun.
    destruct (sync_rows report (rows response) (dimension_headers response)
                (metric_headers response) (output st) (logged st))
      as [[out log] r] eqn:Hrows.
    destruct (sync_rows_records _ _ _ _ _ _ _ _ Hrows) as (recs & -> & Hrecs).
    destruct r as [[]|ex].
    2:{ injection Hrun as <- _. cbn [world output state]. split; [done|].
        split; [|by eexists].
        exists recs. split; [done|]. split; [by rewrite last_state_records|].
        eapply list.Forall_impl; [exact Hrecs|]. by left. }
    fold (written (state st) {[ py "last_report_date" := strftime_ymd e ]})
      in Hrun.
    rewrite Hstate in Hrun. fold (bookmark_state report st0 e) in Hrun.
    apply IH in Hrun as (Hstate' & (msgs & Hout & Hlast & Hmsgs)
                         & (reqs & Hreqs' & Hall)).
    + split; [done|]. cbn [world output state] in *. split.
      * exists (recs ++ STATE (bookmark_state report st0 e) :: msgs).
        split; [by rewrite Hout, <- !app_assoc|]. split.
        { rewrite last_state_app, (last_state_records _ recs) by done. done. }
        apply Forall_app. split.
        { eapply list.Forall_impl; [exact Hrecs|]. by left. }
        constructor; [by right|done].
      * exists (replicate (S n) (run_report_request report s e offset) ++ reqs).
        split; [by rewrite Hreqs', Hrequests, <- app_assoc|].
        by apply Forall_app.
    + intros v. cbn [state]. unfold bookmark_state. apply write_bookmark_overwrite.
    + unfold REPORT_LIMIT. lia.
    + unfold REPORT_LIMIT in *. rewrite <- Z.add_mod_idemp_l by lia.
      rewrite Hmod. done.
Qed.

Lemma sync_chunks_run (st0 : State) (fuel : nat) (chunks : list (Z * Z)) :
  forall st st' how,
    sync_chunks fuel api report chunks st = (st', how) ->
    (forall v, written (state st) v = written st0 v) ->
    (exists msgs,
       output st' = output st ++ msgs
       /\ state st' = last_state (state st) msgs
       /\ Forall (fun m => is_state m = false
                           \/ exists c, c ∈ chunks
                                /\ m = STATE (bookmark_state report st0 (snd c)))
            msgs)
    /\ (exists reqs,
          requests (world st') = requests (world st) ++ reqs
          /\ Forall (fun r => exists c, c ∈ chunks
                                /\ page_request report (fst c) (snd c) r) reqs).
Proof.
  induction chunks as [|[s e] chunks IH]; intros st st' how Hrun Hstate.
  - injection Hrun as <- _. split; exists []; by rewrite app_nil_r.
  - cbn [sync_chunks] in Hrun.
    destruct (sync_pages fuel api report s e 0 true st) as [st1 how1] eqn:Hpages.
    destruct (sync_pages_run st0 s e fuel 0 true st st1 how1 Hpages Hstate)
      as (Hstate1 & (msgs1 & Hout1 & Hlast1 & Hmsgs1)
          & (reqs1 & Hreqs1 & Hall1)); [lia|done|].
    assert (Hmsgs1' : Forall (fun m => is_state m = false
                        \/ exists c, c ∈ (s, e) :: chunks
                             /\ m = STATE (bookmark_state report st0 (snd c)))
                        msgs1).
    { eapply list.Forall_impl; [exact Hmsgs1|]. intros m [Hm|Hm]; [by left|].
      right. exists (s, e). split; [by left|done]. }
    assert (Hall1' : Forall (fun r => exists c, c ∈ (s, e) :: chunks
                               /\ page_request report (fst c) (snd c) r) reqs1).
    { eapply list.Forall_impl; [exact Hall1|]. intros r Hr.
      exists (s, e). split; [by left|done]. }
    destruct how1 as [|ex|].
    2,3: injection Hrun as <- _; split; [exists msgs1|exists reqs1]; done.
    apply IH in Hrun as ((msgs & Hout & Hlast & Hmsgs) & (reqs & Hreqs & Hall));
      [|done].
    split.
    + exists (msgs1 ++ msgs). split; [by rewrite Hout, Hout1, <- app_assoc|].
      split; [by rewrite last_state_app, <- Hlast1|].
      apply Forall_app. split; [done|].
      eapply list.Forall_impl; [exact Hmsgs|]. intros m [Hm|(c & Hc & Hm)]; [by left|].
      right. exists c. split; [by right|done].
    + exists (reqs1 ++ reqs). split; [by rewrite Hreqs, Hreqs1, <- app_assoc|].
      apply Forall_app. split; [done|].
      eapply list.Forall_impl; [exact Hall|]. intros r (c & Hc & Hr).
      exists c. split; [by right|done].
Qed.

End runs.

(** The chunks lie within the days from [start_date] to [end_date]. *)
Section exhausted.
Context `{Externals} (api : Api) (report : Report).

Lemma sync_pages_exhausted (st0 : State) (s e : Z) (fuel : nat) :
  forall offset has_more_rows st st',
    sync_pages fuel api report s e offset has_more_rows st = (st', Exhausted) ->
    (forall v, write_bookmark (state st) (rep_id report)
                 (rep_property_id report) v
               = write_bookmark st0 (rep_id report) (rep_property_id report) v) ->
    state st' = if has_more_rows then bookmark_state report st0 e else state st.
Proof.
  induction fuel as [|fuel IH]; intros offset has_more_rows st st' Hrun Hstate.
  - destruct has_more_rows; [done|]. by injection Hrun as <-.
  - destruct has_more_rows; [|by injection Hrun as <-].
    cbn [sync_pages] in Hrun.
    destruct (make_request api report s e offset (world st))
      as [w [[[response more] offset']|ex]]; [|done].
    destruct (sync_rows report (rows response) (dimension_headers response)
                (metric_headers response) (output st) (logged st))
      as [[out log] [[]|ex]]; [|done].
    rewrite Hstate in Hrun. fold (bookmark_state report st0 e) in Hrun.
    apply IH in Hrun.
    + rewrite Hrun. cbn [state]. by destruct more.
    + intros v. cbn [state]. unfold bookmark_state.
      apply write_bookmark_overwrite.
Qed.

Lemma sync_chunks_exhausted (st0 : State) (fuel : nat) (chunks : list (Z * Z)) :
  forall st st',
    sync_chunks fuel api report chunks st = (st', Exhausted) ->
    (forall v, write_bookmark (state st) (rep_id report)
                 (rep_property_id report) v
               = write_bookmark st0 (rep_id report) (rep_property_id report) v) ->
    state st' = match list.last chunks with
                | None => state st
                | Some chunk => bookmark_state report st0 (snd chunk)
                end.
Proof.
  induction chunks as [|[s e] chunks IH]; intros st st' Hrun Hstate.
  - by injection Hrun as <-.
  - cbn [sync_chunks] in Hrun.
    destruct (sync_pages fuel api report s e 0 true st) as [st1 how1] eqn:Hpages.
    destruct how1; [|done..].
    pose proof (sync_pages_exhausted st0 s e fuel 0 true st st1 Hpages Hstate)
      as Hst1.
    apply IH in Hrun.
    + rewrite Hrun, last_cons. by destruct (list.last chunks).
    + intros v. rewrite Hst1. unfold bookmark_state.
      apply write_bookmark_overwrite.
Qed.

End exhausted.

(** A run of [sync_report] is a run of the loop over the chunks that the
    generator yields. *)
Lemma sync_report_fst `{Externals} (fuel : nat) (api : Api) (report : Report)
    (start_date end_date request_range : Z) (st : Sync) :
  fst (sync_report fuel api report start_date end_date request_range st)
  = fst (sync_chunks fuel api report
           (fst (generate_report_dates fuel start_date end_date request_range))
           st).
Proof.
  unfold sync_report.
  destruct (generate_report_dates fuel start_date end_date request_range)
    as [chunks generated].
  cbn [fst]. by destruct (sync_chunks fuel api report chunks st) as [st' []].
Qed.

Lemma sync_report_Exhausted `{Externals} (fuel : nat) (api : Api)
    (report : Report) (start_date end_date request_range : Z) (st st' : Sync) :
  sync_report fuel api report start_date end_date request_range st
  = (st', Exhausted) ->
  exists chunks,
    generate_report_dates fuel start_date end_date request_range
    = (chunks, Exhausted)
    /\ sync_chunks fuel api report chunks st = (st', Exhausted).
Proof.
  unfold sync_report.
  destruct (generate_report_dates fuel start_date end_date request_range)
    as [chunks generated].
  destruct (sync_chunks fuel api report chunks st) as [st1 []] eqn:Hsync;
    intros Hrun; simplify_eq. by exists chunks.
Qed.

(** X5. In every run of [sync_report] with a positive [request_range],
    whether it ends normally, ends by an exception or is cut short, the
    output only grows, the state held in memory at the end is the state of
    the last STATE message written in the run (the initial state when none
    was written), and every STATE message written is the initial state with
    the bookmark of the report set to a day from [start_date] to [end_date]. *)
Theorem sync_report_persisted `{Externals} (fuel : nat) (api : Api)
    (report : Report) (start_date end_date request_range : Z) (st : Sync) :
  0 < request_range ->
  let st' :=
    fst (sync_report fuel api report start_date end_date request_range st) in
  exists msgs,
    output st' = output st ++ msgs
    /\ state st' = last_state (state st) msgs
    /\ Forall (fun m =>
         is_state m = false
         \/ exists e,
              date_of start_date <= e <= date_of end_date
              /\ m = STATE (bookmark_state report (state st) e)) msgs.
Proof.
  intros Hrange st'. subst st'. rewrite sync_report_fst.
  unfold generate_report_dates.
  pose proof (generate_report_dates_from_within end_date request_range fuel
                Hrange start_date) as Hwithin.
  destruct (generate_report_dates_from fuel start_date end_date request_range)
    as [chunks generated]. cbn [fst] in *.
  destruct (sync_chunks fuel api report chunks st) as [st' how] eqn:Hrun.
  destruct (sync_chunks_run api report (state st) fuel chunks st st' how Hrun)
    as [(msgs & Hout & Hlast & Hmsgs) _]; [done|].
  exists msgs. split; [done|]. split; [done|].
  eapply list.Forall_impl; [exact Hmsgs|].
  intros m [Hm|(c & Hc & ->)]; [by left|]. right. exists (snd c).
  split; [|done]. rewrite list.Forall_forall in Hwithin.
  specialize (Hwithin c Hc). lia.
Qed.

Lemma sync_report_persisted_witness :
  let st' :=
    fst (@sync_report iso_externals 3 (answering (fun _ _ => example_page))
           example_report (19358 * US_PER_DAY) (19358 * US_PER_DAY) 7
           example_sync) in
  exists msgs,
    output st' = output example_sync ++ msgs
    /\ state st' = last_state (state example_sync) msgs
    /\ Forall (fun m =>
         is_state m = false
         \/ exists e,
              date_of (19358 * US_PER_DAY) <= e <= date_of (19358 * US_PER_DAY)
              /\ m = STATE (@bookmark_state iso_externals example_report
                             (state example_sync) e))
         msgs.
Proof.
  apply (@sync_report_persisted iso_externals 3
           (answering (fun _ _ => example_page)) example_report
           (19358 * US_PER_DAY) (19358 * US_PER_DAY) 7 example_sync).
  lia.
Defined.

(** X6. However a run of [sync_report] ends, it leaves [currently_syncing]
    and the bookmark of every other stream and of every other property as
    they were. *)
Theorem sync_report_other_bookmarks `{Externals} (fuel : nat) (api : Api)
    (report : Report) (start_date end_date request_range : Z) (st : Sync) :
  let st' :=
    fst (sync_report fuel api report start_date end_date request_range st) in
  currently_syncing (state st') = currently_syncing (state st)
  /\ forall tap_stream_id property_id,
       tap_stream_id <> rep_id report \/ property_id <> rep_property_id report ->
       get_bookmark (state st') tap_stream_id property_id
       = get_bookmark (state st) tap_stream_id property_id.
Proof.
  intros st'. subst st'. rewrite sync_report_fst.
  destruct (generate_report_dates fuel start_date end_date request_range)
    as [chunks generated]. cbn [fst].
  destruct (sync_chunks fuel api report chunks st) as [st' how] eqn:Hrun.
  destruct (sync_chunks_run api report (state st) fuel chunks st st' how Hrun)
    as [(msgs & Hout & Hlast & Hmsgs) _]; [done|].
  cbn [fst]. rewrite Hlast.
  destruct (last_state_cases (state st) msgs) as [->|Hin]; [done|].
  rewrite list.Forall_forall in Hmsgs.
  destruct (Hmsgs _ Hin) as [Hm|(c & _ & Hm)]; [done|].
  injection Hm as ->. split; [done|].
  intros sid pid Hne. by apply get_bookmark_write_bookmark_ne.
Qed.

(** X7. Every request that a run of [sync_report] with a positive
    [request_range] sends, however the run ends, is for the property, the
    dimensions and the metrics of the report, with limit 100000 and an
    offset that is a multiple of 100000, over a range of fewer than
    [request_range] days that starts no earlier than the day of [start_date]
    and ends no later than the day of [end_date]. *)
Theorem sync_report_requests `{Externals} (fuel : nat) (api : Api)
    (report : Report) (start_date end_date request_range : Z) (st : Sync) :
  0 < request_range ->
  let st' :=
    fst (sync_report fuel api report start_date end_date request_range st) in
  exists reqs,
    requests (world st') = requests (world st) ++ reqs
    /\ Forall (fun r =>
         req_property r = py "properties/" ++ rep_property_id report
         /\ req_dimensions r = rep_dimensions report
         /\ req_metrics r = rep_metrics report
         /\ req_limit r = 100000
         /\ 0 <= req_offset r /\ req_offset r mod 100000 = 0
         /\ date_of start_date <= req_start_date r
         /\ req_start_date r <= req_end_date r
         /\ req_end_date r <= date_of end_date
         /\ req_end_date r - req_start_date r < request_range) reqs.
Proof.
  intros Hrange st'. subst st'. rewrite sync_report_fst.
  unfold generate_report_dates.
  pose proof (generate_report_dates_from_within end_date request_range fuel
                Hrange start_date) as Hwithin.
  destruct (generate_report_dates_from fuel start_date end_date request_range)
    as [chunks generated]. cbn [fst] in *.
  destruct (sync_chunks fuel api report chunks st) as [st' how] eqn:Hrun.
  destruct (sync_chunks_run api report (state st) fuel chunks st st' how Hrun)
    as [_ (reqs & Hreqs & Hall)]; [done|].
  exists reqs. split; [done|].
  eapply list.Forall_impl; [exact Hall|].
  intros r (c & Hc & offset & -> & Hoffset & Hmod).
  rewrite list.Forall_forall in Hwithin. specialize (Hwithin c Hc).
  cbn [run_report_request req_property req_dimensions req_metrics req_limit
       req_offset req_start_date req_end_date].
  unfold REPORT_LIMIT in Hmod. repeat split; try done; lia.
Qed.

Lemma sync_report_requests_witness :
  let st' :=
    fst (@sync_report iso_externals 3 (answering (fun _ _ => example_page))
           example_report (19358 * US_PER_DAY) (19358 * US_PER_DAY) 7
           example_sync) in
  exists reqs,
    requests (world st') = requests (world example_sync) ++ reqs
    /\ Forall (fun r =>
         req_property r = py "properties/" ++ rep_property_id example_report
         /\ req_dimensions r = rep_dimensions example_report
         /\ req_metrics r = rep_metrics example_report
         /\ req_limit r = 100000
         /\ 0 <= req_offset r /\ req_offset r mod 100000 = 0
         /\ date_of (19358 * US_PER_DAY) <= req_start_date r
         /\ req_start_date r <= req_end_date r
         /\ req_end_date r <= date_of (19358 * US_PER_DAY)
         /\ req_end_date r - req_start_date r < 7) reqs.
Proof.
  apply (@sync_report_requests iso_externals 3
           (answering (fun _ _ => example_page)) example_report
           (19358 * US_PER_DAY) (19358 * US_PER_DAY) 7 example_sync).
  lia.
Defined.

(** X8. When the first page of the first chunk reports further rows, its
    rows make records, and the request for the second page fails,
    [sync_report] raises that exception after it has written the records of
    the first page and the state whose bookmark is the end date of the
    chunk: the bookmark is ahead of the rows that were read. *)
Theorem sync_report_bookmark_ahead `{Externals} (fuel : nat) (api : Api)
    (report : Report) (start_date end_date request_range : Z) (st : Sync)
    (chunk_start chunk_end : Z) (rest : list (Z * Z))
    (page : Response) (w1 w2 : World) (ex : exn) :
  fst (generate_report_dates (S (S fuel)) start_date end_date request_range)
  = (chunk_start, chunk_end) :: rest ->
  make_request api report chunk_start chunk_end 0 (world st)
  = (w1, Ok (page, true, 100000)) ->
  forallb (makes_message report page) (rows page) = true ->
  make_request api report chunk_start chunk_end 100000 w1 = (w2, Raise ex) ->
  exists st',
    sync_report (S (S fuel)) api report start_date end_date request_range st
    = (st', Raised ex)
    /\ world st' = w2
    /\ output st'
       = output st ++ page_records report page
         ++ [STATE (bookmark_state report (state st) chunk_end)]
    /\ state st' = bookmark_state report (state st) chunk_end
    /\ get_bookmark (state st') (rep_id report) (rep_property_id report)
       = {[ py "last_report_date" := strftime_ymd chunk_end ]}.
Proof.
  intros Hchunks Hfirst Hrows Hsecond. unfold sync_report.
  destruct (generate_report_dates (S (S fuel)) start_date end_date
              request_range) as [chunks generated].
  cbn [fst] in Hchunks. subst chunks.
  cbn [sync_chunks sync_pages]. rewrite Hfirst.
  destruct (sync_rows_convert report page (rows page) (output st) (logged st)
              Hrows) as [log' ->].
  fold (page_records report page). fold (bookmark_state report (state st) chunk_end).
  cbn [world]. rewrite Hsecond. eexists. split; [reflexivity|].
  cbn [world output state]. split; [done|]. split; [by rewrite <- app_assoc|].
  split; [done|]. apply get_bookmark_write_bookmark.
Qed.

Lemma sync_report_bookmark_ahead_witness :
  exists st',
    @sync_report iso_externals 2 (failing_after_first example_page OtherError)
      example_report (19358 * US_PER_DAY) (19364 * US_PER_DAY) 7 example_sync
    = (st', Raised OtherError)
    /\ get_bookmark (state st') (py "sessions") (py "123")
       = {[ py "last_report_date" := py "2023-01-07" ]}.
Proof.
  destruct (@sync_report_bookmark_ahead iso_externals 0
              (failing_after_first example_page OtherError) example_report
              (19358 * US_PER_DAY) (19364 * US_PER_DAY) 7 example_sync
              19358 19364 [] example_page
              (sent (run_report_request example_report 19358 19364 0)
                 example_world)
              (sent (run_report_request example_report 19358 19364 100000)
                 (sent (run_report_request example_report 19358 19364 0)
                    example_world))
              OtherError)
    as (st' & Hrun & _ & _ & _ & Hbookmark);
    [vm_compute; reflexivity..|].
  exists st'. split; [exact Hrun|exact Hbookmark].
Defined.

(** X9. After a run of [sync_report] over the dates [start_date <= end_date]
    that ended normally, the bookmark of the report is [end_date] written as
    YYYY-MM-DD, and [get_report_start_date] on the resulting state returns
    [min(b, max(configured start, conversion day))], where [b] is that
    bookmark read back. *)
Theorem sync_report_resume `{Externals} (fuel : nat) (api : Api)
    (report : Report) (start_date end_date request_range : Z) (st st' : Sync)
    (config : Config) (now configured bookmark : Z) :
  is_date start_date -> is_date end_date -> start_date <= end_date ->
  0 < request_range ->
  sync_report fuel api report start_date end_date request_range st
  = (st', Exhausted) ->
  strptime_to_utc (cfg_start_date config) = Some configured ->
  truthy (strftime_ymd (date_of end_date)) = true ->
  strptime_to_utc (strftime_ymd (date_of end_date)) = Some bookmark ->
  get_bookmark (state st') (rep_id report) (rep_property_id report)
  = {[ py "last_report_date" := strftime_ymd (date_of end_date) ]}
  /\ get_report_start_date config (rep_property_id report) (state st')
       (rep_id report) now
     = Ok (Z.min bookmark (Z.max configured (conversion_day now))).
Proof.
  intros Hs He Hse Hrange Hrun Hconfigured Htruthy Hbookmark.
  apply sync_report_Exhausted in Hrun as (chunks & Hchunks & Hrun).
  pose proof (generate_report_dates_from_last_end _ _ _ Hrange He _ _ Hs Hse
                Hchunks) as Hlast.
  apply (sync_chunks_exhausted api report (state st)) in Hrun; [|done].
  destruct (list.last chunks) as [[cs ce]|]; [|done].
  injection Hlast as ->.
  assert (Hget : get_bookmark (state st') (rep_id report)
                   (rep_property_id report)
                 = {[ py "last_report_date" := strftime_ymd (date_of end_date) ]}).
  { rewrite Hrun. apply get_bookmark_write_bookmark. }
  split; [done|].
  unfold get_report_start_date. rewrite Hget, lookup_singleton_eq, Hconfigured.
  cbn [of_option rbind]. rewrite Htruthy. cbn [negb]. rewrite Hbookmark.
  reflexivity.
Qed.

Lemma sync_report_resume_witness :
  exists st',
    @sync_report iso_externals 3 (answering (fun _ _ => empty_response 0))
      example_report (19358 * US_PER_DAY) (19367 * US_PER_DAY) 7 example_sync
    = (st', Exhausted)
    /\ @get_report_start_date iso_externals example_config (py "123")
         (state st') (py "sessions") example_now
       = Ok (19367 * US_PER_DAY).
Proof.
  destruct (@sync_report iso_externals 3
              (answering (fun _ _ => empty_response 0)) example_report
              (19358 * US_PER_DAY) (19367 * US_PER_DAY) 7 example_sync)
    as [st' how] eqn:Hrun.
  assert (Hhow : how = Exhausted).
  { change how with (snd (st', how)). rewrite <- Hrun. vm_compute. reflexivity. }
  subst how. exists st'. split; [reflexivity|].
  destruct (@sync_report_resume iso_externals 3
              (answering (fun _ _ => empty_response 0)) example_report
              (19358 * US_PER_DAY) (19367 * US_PER_DAY) 7 example_sync st'
              example_config example_now (18993 * US_PER_DAY)
              (19367 * US_PER_DAY)) as [_ Hstart];
    [reflexivity|reflexivity|vm_compute; discriminate|lia|exact Hrun
    |vm_compute; reflexivity..|].
  etransitivity; [exact Hstart|]. vm_compute. reflexivity.
Defined.

Lemma hex_digit_lower d : lower_hex (hex_digit (d mod 16)).
Proof.
  unfold lower_hex, hex_digit. pose proof (Z.mod_pos_bound d 16).
  destruct (Z.ltb_spec (d mod 16) 10); lia.
Qed.

Lemma hex4_lower n : Forall lower_hex (hex4 n) /\ length (hex4 n) = 4%nat.
Proof.
  split; [|done]. unfold hex4.
  do 4 (apply List.Forall_cons; [apply hex_digit_lower|]). apply List.Forall_nil.
Qed.

Lemma sha256_hexdigest_lower msg :
  Forall lower_hex (sha256_hexdigest msg)
  /\ length (sha256_hexdigest msg) = 64%nat.
Proof.
  unfold sha256_hexdigest.
  destruct (sha256 msg) as [[[[[[[a b] c] d] e] f] g] h].
  unfold hex8. split.
  - repeat (apply Forall_app; split); apply hex4_lower.
  - rewrite !length_app. by rewrite !(proj2 (hex4_lower _)).
Qed.

Lemma dict_update_lookup_notin pairs : forall (rec : gmap (list Z) (list Z)) k,
  k ∉ pairs.*1 -> dict_update rec pairs !! k = rec !! k.
Proof.
  induction pairs as [|[k0 v0] pairs IH]; intros rec k Hk; [done|].
  rewrite fmap_cons in Hk. apply not_elem_of_cons in Hk as [Hne Hk].
  cbn [dict_update foldl fst snd]. fold (dict_update (<[k0:=v0]> rec) pairs).
  rewrite IH by done. by rewrite lookup_insert_ne.
Qed.

Lemma dict_update_lookup_is_Some pairs : forall (rec : gmap (list Z) (list Z)) k,
  is_Some (rec !! k) \/ k ∈ pairs.*1 -> is_Some (dict_update rec pairs !! k).
Proof.
  induction pairs as [|[k0 v0] pairs IH]; intros rec k Hk.
  - destruct Hk as [Hk|Hk]; [done|]. by apply elem_of_nil in Hk.
  - cbn [dict_update foldl fst snd]. fold (dict_update (<[k0:=v0]> rec) pairs).
    apply IH. rewrite fmap_cons in Hk.
    destruct (decide (k = k0)) as [->|Hne].
    + left. rewrite lookup_insert_eq. by eexists.
    + rewrite lookup_insert_ne by done.
      destruct Hk as [Hk|Hk]; [by left|]. right.
      by apply elem_of_cons in Hk as [?|?].
Qed.

Lemma dict_update_lookup_NoDup pairs : forall (rec : gmap (list Z) (list Z)) k v,
  NoDup pairs.*1 -> (k, v) ∈ pairs -> dict_update rec pairs !! k = Some v.
Proof.
  induction pairs as [|[k0 v0] pairs IH]; intros rec k v Hnodup Hin.
  - by apply elem_of_nil in Hin.
  - rewrite fmap_cons in Hnodup. apply list.NoDup_cons in Hnodup as [Hk0 Hnodup].
    cbn [dict_update foldl fst snd]. fold (dict_update (<[k0:=v0]> rec) pairs).
    apply elem_of_cons in Hin as [[= -> ->]|Hin].
    + rewrite dict_update_lookup_notin by done. by rewrite lookup_insert_eq.
    + by apply IH.
Qed.

Lemma elem_of_zip_fst (l1 l2 : list (list Z)) k :
  k ∈ (zip l1 l2).*1 -> k ∈ l1.
Proof.
  intros Hin. apply list_elem_of_fmap in Hin as ([k' v] & -> & Hin).
  apply elem_of_zip_lookup in Hin as (j & Hj & _).
  by eapply list_elem_of_lookup_2.
Qed.

Lemma NoDup_zip_fst (l1 : list (list Z)) : forall l2 : list (list Z),
  NoDup l1 -> NoDup (zip l1 l2).*1.
Proof.
  induction l1 as [|x l1 IH]; intros l2 Hnodup; [constructor|].
  apply list.NoDup_cons in Hnodup as [Hx Hnodup].
  destruct l2 as [|y l2]; [constructor|].
  cbn [zip zip_with]. rewrite fmap_cons. apply list.NoDup_cons. split.
  - intros Hin. by apply Hx, (elem_of_zip_fst l1 l2).
  - by apply IH.
Qed.

Lemma elem_of_zip_at (l1 l2 : list (list Z)) j k v :
  l1 !! j = Some k -> l2 !! j = Some v -> (k, v) ∈ zip l1 l2.
Proof.
  intros H1 H2. apply list_elem_of_lookup. exists j.
  apply lookup_zip_with_Some. by exists k, v.
Qed.

(** X10. In a record that [row_to_record] returns, [property_id] is the
    property of the report whatever the headers are, and every header that
    has a value at its position is a key of the record. A metric header
    other than the four keys that [row_to_record] sets itself holds the
    value at its position when the metric names are distinct, also when a
    dimension has the same name; a dimension header that is no metric header
    does so when the dimension names are distinct. *)
Theorem row_to_record_fields (report : Report) (row : Row)
    (dimension_headers metric_headers : list (list Z))
    (rec : gmap (list Z) (list Z)) :
  row_to_record report row dimension_headers metric_headers = Ok rec ->
  rec !! py "property_id" = Some (rep_property_id report)
  /\ (forall j k v,
        (dimension_headers !! j = Some k /\ dimension_values row !! j = Some v)
        \/ (metric_headers !! j = Some k /\ metric_values row !! j = Some v) ->
        is_Some (rec !! k))
  /\ (forall j k v,
        k ∉ reserved_fields -> NoDup metric_headers ->
        metric_headers !! j = Some k -> metric_values row !! j = Some v ->
        rec !! k = Some v)
  /\ (forall j k v,
        k ∉ reserved_fields -> NoDup dimension_headers ->
        k ∉ metric_headers ->
        dimension_headers !! j = Some k -> dimension_values row !! j = Some v ->
        rec !! k = Some v).
Proof.
  rewrite row_to_record_eq. intros Hrec.
  destruct (list_index (py "date") dimension_headers) as [i|]; [|done].
  destruct (dimension_values row !! i) as [d|]; [|done].
  injection Hrec as <-.
  assert (Hother : forall k,
            k ∉ reserved_fields ->
            (<[py "_sdc_record_hash" :=
                 record_hash (rep_property_id report)
                   (zip dimension_headers (dimension_values row)) d d]>
               (record_before_hash report row dimension_headers
                  metric_headers d)) !! k
            = dict_update
                (dict_update ∅ (zip dimension_headers (dimension_values row)))
                (zip metric_headers (metric_values row)) !! k).
  { intros k Hk. unfold reserved_fields in Hk.
    rewrite !not_elem_of_cons in Hk. destruct Hk as (? & ? & ? & ? & _).
    unfold record_before_hash. by rewrite !lookup_insert_ne. }
  split; [|split; [|split]].
  - rewrite lookup_insert_ne by py_neq.
    apply (record_before_hash_lookups report row dimension_headers
             metric_headers d).
  - intros j k v Hat.
    destruct (decide (k ∈ reserved_fields)) as [Hk|Hk].
    + unfold reserved_fields in Hk. unfold record_before_hash.
      repeat (apply elem_of_cons in Hk as [->|Hk];
              [rewrite ?lookup_insert_eq, ?lookup_insert_ne by py_neq;
               rewrite ?lookup_insert_eq; by eexists|]).
      by apply elem_of_nil in Hk.
    + rewrite Hother by done. apply dict_update_lookup_is_Some.
      destruct Hat as [[Hh Hv]|[Hh Hv]].
      * left. apply dict_update_lookup_is_Some. right.
        apply list_elem_of_fmap. exists (k, v). split; [done|].
        by eapply elem_of_zip_at.
      * right. apply list_elem_of_fmap. exists (k, v). split; [done|].
        by eapply elem_of_zip_at.
  - intros j k v Hk Hnodup Hh Hv. rewrite Hother by done.
    apply dict_update_lookup_NoDup; [by apply NoDup_zip_fst|].
    by eapply elem_of_zip_at.
  - intros j k v Hk Hnodup Hmetric Hh Hv. rewrite Hother by done.
    rewrite dict_update_lookup_notin.
    + apply dict_update_lookup_NoDup; [by apply NoDup_zip_fst|].
      by eapply elem_of_zip_at.
    + intros Hin. by apply Hmetric, (elem_of_zip_fst _ (metric_values row)).
Qed.

Lemma row_to_record_fields_witness :
  exists rec : gmap (list Z) (list Z),
    row_to_record example_report example_row [py "date"; py "country"]
      [py "sessions"] = Ok rec
    /\ rec !! py "property_id" = Some (py "123").
Proof.
  pose proof (row_to_record_eq example_report example_row
                [py "date"; py "country"] [py "sessions"]) as Hrec.
  change (list_index (py "date") [py "date"; py "country"])
    with (Some 0%nat) in Hrec.
  change (dimension_values example_row !! 0%nat)
    with (Some (py "20230115")) in Hrec.
  eexists. split; [exact Hrec|].
  exact (proj1 (row_to_record_fields _ _ _ _ _ Hrec)).
Defined.

(** A dimension and a metric of the same name: the field holds the value
    of the metric; a header named [property_id]: the field holds the
    property of the report. *)
Example row_to_record_name_clash :
  let r := row_to_record example_report
             {| dimension_values := [py "20230115"; py "US"; py "999"];
                metric_values := [py "5"] |}
             [py "date"; py "sessions"; py "property_id"] [py "sessions"] in
  field_of (py "sessions") r = Some (py "5")
  /\ field_of (py "property_id") r = Some (py "123").
Proof. vm_compute. repeat split. Qed.

(** X11. [generate_sdc_record_hash] returns a string of 64 characters from
    0-9 and a-f when the record has the keys [property_id], [start_date] and
    [end_date], and raises [KeyError] when one of them is missing; the
    [_sdc_record_hash] of every record that [row_to_record] returns is such
    a string. *)
Theorem generate_sdc_record_hash_format (record : gmap (list Z) (list Z))
    (dimension_pairs : list (list Z * list Z)) :
  (is_Some (record !! py "property_id") /\ is_Some (record !! py "start_date")
   /\ is_Some (record !! py "end_date") ->
   exists h,
     generate_sdc_record_hash record dimension_pairs = Ok h
     /\ length h = 64%nat /\ Forall lower_hex h)
  /\ (record !! py "property_id" = None \/ record !! py "start_date" = None
      \/ record !! py "end_date" = None ->
      generate_sdc_record_hash record dimension_pairs = Raise KeyError)
  /\ (forall report row dimension_headers metric_headers
             (rec : gmap (list Z) (list Z)),
        row_to_record report row dimension_headers metric_headers = Ok rec ->
        exists h,
          rec !! py "_sdc_record_hash" = Some h
          /\ length h = 64%nat /\ Forall lower_hex h).
Proof.
  split; [|split].
  - intros ([p Hp] & [s Hs] & [e He]).
    rewrite (generate_sdc_record_hash_eq _ _ _ _ _ Hp Hs He).
    eexists. split; [reflexivity|]. unfold record_hash.
    split; apply sha256_hexdigest_lower.
  - unfold generate_sdc_record_hash.
    destruct (record !! py "property_id"); cbn [of_option rbind];
      [|done].
    destruct (record !! py "start_date"); cbn [of_option rbind];
      [|done].
    destruct (record !! py "end_date"); cbn [of_option rbind]; [|done].
    by intros [?|[?|?]].
  - intros report row dh mh rec. rewrite row_to_record_eq. intros Hrec.
    destruct (list_index (py "date") dh) as [i|]; [|done].
    destruct (dimension_values row !! i) as [d|]; [|done].
    injection Hrec as <-. rewrite lookup_insert_eq.
    eexists. split; [reflexivity|]. unfold record_hash.
    split; apply sha256_hexdigest_lower.
Qed.

Lemma omap_cons_eq {A B} (f : A -> option B) x l :
  omap f (x :: l) = match f x with Some y => y :: omap f l | None => omap f l end.
Proof. reflexivity. Qed.

Lemma sync_fields_step (item : list (list Z) * gmap (list Z) pyvalue)
    (items : Metadata) metrics dimensions :
  breadcrumb_ok item ->
  sync_fields (item :: items) metrics dimensions
  = sync_fields items
      (metrics ++ option_list (requested_as (py "METRIC") item))
      (dimensions ++ option_list (requested_as (py "DIMENSION") item)).
Proof.
  destruct item as [path field_mdata]. intros Hpath.
  cbn [sync_fields].
  destruct Hpath as [Hpath|Hpath]; cbn [fst] in Hpath.
  { subst path. rewrite bool_decide_eq_true_2 by done.
    cbn [requested_as option_list]. by rewrite !app_nil_r. }
  destruct path as [|parent [|field_name [|? ?]]]; try discriminate Hpath.
  rewrite (bool_decide_eq_false_2 ([parent; field_name] = [])) by done.
  cbn [requested_as]. unfold field_requested.
  destruct (bool_decide (dict_get field_mdata (py "inclusion")
                         = PyStr (py "unsupported"))); cbn [negb andb];
    [cbn [option_list]; by rewrite !app_nil_r|].
  destruct (bool_decide (dict_get field_mdata (py "inclusion")
                         = PyStr (py "automatic"))
            || truthy_value (dict_get field_mdata (py "selected"))
            || (truthy_value (dict_get field_mdata (py "selected-by-default"))
                && bool_decide (dict_get field_mdata (py "selected") = PyNone)));
    cbn [andb]; [|cbn [option_list]; by rewrite !app_nil_r].
  destruct (decide (dict_get field_mdata (py "behavior") = PyStr (py "METRIC")))
    as [Hmetric|Hmetric].
  { rewrite Hmetric.
    rewrite (bool_decide_eq_true_2 (PyStr (py "METRIC") = PyStr (py "METRIC")))
      by done.
    rewrite (bool_decide_eq_false_2
               (PyStr (py "METRIC") = PyStr (py "DIMENSION")))
      by (intros [= Heq]; vm_compute in Heq; discriminate Heq).
    cbn [option_list]. by rewrite !app_nil_r. }
  rewrite (bool_decide_eq_false_2 _ Hmetric).
  destruct (decide (dict_get field_mdata (py "behavior")
                    = PyStr (py "DIMENSION"))) as [Hdim|Hdim].
  { rewrite (bool_decide_eq_true_2 _ Hdim). cbn [option_list].
    by rewrite !app_nil_r. }
  rewrite (bool_decide_eq_false_2 _ Hdim). cbn [option_list].
  by rewrite !app_nil_r.
Qed.

Lemma omap_cons_option_list {A B} (f : A -> option B) x l :
  omap f (x :: l) = option_list (f x) ++ omap f l.
Proof. rewrite omap_cons_eq. by destruct (f x). Qed.

Lemma sync_fields_app (before : Metadata) : forall after metrics dimensions,
  Forall breadcrumb_ok before ->
  sync_fields (before ++ after) metrics dimensions
  = sync_fields after (metrics ++ omap (requested_as (py "METRIC")) before)
      (dimensions ++ omap (requested_as (py "DIMENSION")) before).
Proof.
  induction before as [|item before IH]; intros after metrics dimensions Hok.
  - cbn [app omap list_omap]. by rewrite !app_nil_r.
  - apply Forall_cons_1 in Hok as [Hitem Hok].
    cbn [app]. rewrite sync_fields_step, IH by done.
    by rewrite !omap_cons_option_list, !app_assoc.
Qed.

Lemma sync_fields_acc (items : Metadata) metrics dimensions :
  Forall breadcrumb_ok items ->
  sync_fields items metrics dimensions
  = Ok (metrics ++ omap (requested_as (py "METRIC")) items,
        dimensions ++ omap (requested_as (py "DIMENSION")) items).
Proof.
  intros Hok. rewrite <- (app_nil_r items) at 1.
  by rewrite sync_fields_app.
Qed.

Lemma requested_as_Some behavior item name :
  requested_as behavior item = Some name <->
  exists parent,
    fst item = [parent; name]
    /\ field_requested (snd item) = true
    /\ dict_get (snd item) (py "behavior") = PyStr behavior.
Proof.
  destruct item as [path field_mdata]. cbn [fst snd requested_as].
  destruct path as [|parent [|field_name [|? ?]]];
    try (split; [done|by intros (? & ? & _)]).
  destruct (field_requested field_mdata); cbn [andb].
  - case_bool_decide as Hb.
    + split; [intros [= <-]; by exists parent|]. by intros (? & [= _ ->] & _).
    + split; [done|]. intros (? & _ & _ & ?). done.
  - split; [done|]. by intros (? & _ & ? & _).
Qed.

(** X12. When every breadcrumb of the metadata of a stream is empty or a
    pair, the field loop of [sync] requests as metrics and as dimensions, in
    the order of the metadata, the fields of behavior METRIC and DIMENSION
    that are not [unsupported] and are [automatic], or have a true
    [selected], or have a true [selected-by-default] and no [selected]: a
    requested field is never [unsupported], a field with [selected] false is
    requested only when [automatic], and an [automatic] field or a selected
    supported field of either behavior is requested. A breadcrumb that is
    neither empty nor a pair, on a field that is not [unsupported], raises
    [ValueError]. *)
Theorem sync_fields_selection (mdata : Metadata) :
  (Forall breadcrumb_ok mdata ->
   exists metrics dimensions,
     sync_fields mdata [] [] = Ok (metrics, dimensions)
     /\ metrics = omap (requested_as (py "METRIC")) mdata
     /\ dimensions = omap (requested_as (py "DIMENSION")) mdata
     /\ (forall name,
           name ∈ metrics ++ dimensions ->
           exists parent field_mdata,
             ([parent; name], field_mdata) ∈ mdata
             /\ dict_get field_mdata (py "inclusion") <> PyStr (py "unsupported")
             /\ (dict_get field_mdata (py "selected") = PyBool false ->
                 dict_get field_mdata (py "inclusion") = PyStr (py "automatic")))
     /\ (forall parent name field_mdata,
           ([parent; name], field_mdata) ∈ mdata ->
           dict_get field_mdata (py "inclusion") = PyStr (py "automatic")
           \/ (dict_get field_mdata (py "inclusion") <> PyStr (py "unsupported")
               /\ dict_get field_mdata (py "selected") = PyBool true) ->
           (dict_get field_mdata (py "behavior") = PyStr (py "METRIC") ->
            name ∈ metrics)
           /\ (dict_get field_mdata (py "behavior") = PyStr (py "DIMENSION") ->
               name ∈ dimensions)))
  /\ (forall before path field_mdata after,
        mdata = before ++ (path, field_mdata) :: after ->
        Forall breadcrumb_ok before ->
        path <> [] -> length path <> 2%nat ->
        dict_get field_mdata (py "inclusion") <> PyStr (py "unsupported") ->
        sync_fields mdata [] [] = Raise ValueError).
Proof.
  split.
  - intros Hok. eexists _, _. split; [by apply sync_fields_acc|].
    cbn [app]. split; [done|]. split; [done|]. split.
    + intros name Hname.
      assert (Hsome : exists behavior item,
                item ∈ mdata /\ requested_as behavior item = Some name).
      { apply elem_of_app in Hname as [Hname|Hname];
          apply list_elem_of_omap in Hname as (item & ? & ?); eauto. }
      destruct Hsome as (behavior & [path field_mdata] & Hin & Hsome).
      apply requested_as_Some in Hsome as (parent & Hpath & Hreq & _).
      cbn [fst snd] in *. subst path. exists parent, field_mdata.
      split; [done|]. unfold field_requested in Hreq.
      apply andb_prop in Hreq as [Hsupported Hreq].
      apply negb_true_iff, bool_decide_eq_false_1 in Hsupported.
      split; [done|]. intros Hselected. rewrite Hselected in Hreq.
      cbn [truthy_value] in Hreq.
      rewrite (bool_decide_eq_false_2 (PyBool false = PyNone)) in Hreq by done.
      rewrite andb_false_r, !orb_false_r in Hreq.
      by apply bool_decide_eq_true_1 in Hreq.
    + intros parent name field_mdata Hin Hsel.
      assert (Hreq : field_requested field_mdata = true).
      { unfold field_requested. destruct Hsel as [Hauto|[Hsupported Hselected]].
        - rewrite Hauto.
          rewrite (bool_decide_eq_false_2
                     (PyStr (py "automatic") = PyStr (py "unsupported")))
            by (intros [= Heq]; vm_compute in Heq; discriminate Heq).
          by rewrite bool_decide_eq_true_2.
        - rewrite (bool_decide_eq_false_2 _ Hsupported), Hselected.
          cbn [negb andb truthy_value]. by rewrite orb_true_r. }
      split; intros Hbehavior; apply list_elem_of_omap;
        exists ([parent; name], field_mdata); (split; [done|]);
        apply requested_as_Some; exists parent; done.
  - intros before path field_mdata after -> Hok Hne Hlen Hsupported.
    rewrite sync_fields_app by done. cbn [sync_fields].
    rewrite (bool_decide_eq_false_2 _ Hne), (bool_decide_eq_false_2 _ Hsupported).
    by destruct path as [|? [|? [|? ?]]].
Qed.

Example sync_fields_example :
  let field inclusion selected behavior : gmap (list Z) pyvalue :=
    {[ py "inclusion" := PyStr inclusion; py "selected" := selected;
       py "behavior" := PyStr behavior ]} in
  sync_fields
    [([], {[ py "selected" := PyBool true ]});
     ([py "properties"; py "date"],
      field (py "automatic") (PyBool false) (py "DIMENSION"));
     ([py "properties"; py "country"],
      field (py "available") (PyBool true) (py "DIMENSION"));
     ([py "properties"; py "city"],
      field (py "available") (PyBool false) (py "DIMENSION"));
     ([py "properties"; py "sessions"],
      field (py "available") (PyBool true) (py "METRIC"));
     ([py "properties"; py "cohort"],
      field (py "unsupported") (PyBool true) (py "DIMENSION"));
     ([py "properties"; py "property_id"],
      {[ py "inclusion" := PyStr (py "automatic") ]})] [] []
  = Ok ([py "sessions"], [py "date"; py "country"]).
Proof. vm_compute. reflexivity. Qed.

Lemma sync_report_run `{Externals} (fuel : nat) (api : Api) (report : Report)
    (start_date end_date request_range : Z) (st st' : Sync) (how : ending) :
  0 < request_range ->
  sync_report fuel api report start_date end_date request_range st = (st', how) ->
  (exists msgs,
     output st' = output st ++ msgs
     /\ state st' = last_state (state st) msgs
     /\ Forall (state_within report (state st) start_date end_date) msgs)
  /\ (exists reqs,
        requests (world st') = requests (world st) ++ reqs
        /\ Forall (request_within report start_date end_date request_range) reqs).
Proof.
  intros Hrange Hreport.
  assert (Hst : st' = fst (sync_report fuel api report start_date end_date
                             request_range st)) by by rewrite Hreport.
  rewrite sync_report_fst in Hst. unfold generate_report_dates in Hst.
  pose proof (generate_report_dates_from_within end_date request_range fuel
                Hrange start_date) as Hwithin.
  destruct (generate_report_dates_from fuel start_date end_date request_range)
    as [chunks generated]. cbn [fst] in *.
  rewrite list.Forall_forall in Hwithin.
  destruct (sync_chunks fuel api report chunks st) as [st1 how1] eqn:Hrun.
  cbn [fst] in Hst. subst st1.
  destruct (sync_chunks_run api report (state st) fuel chunks st st' how1 Hrun)
    as [(msgs & Hout & Hlast & Hmsgs) (reqs & Hreqs & Hall)]; [done|].
  split.
  - exists msgs. split; [done|]. split; [done|].
    eapply list.Forall_impl; [exact Hmsgs|].
    intros m [Hm|(c & Hc & ->)]; [by left|]. right. exists (snd c).
    split; [|done]. specialize (Hwithin c Hc). lia.
  - exists reqs. split; [done|].
    eapply list.Forall_impl; [exact Hall|].
    intros r (c & Hc & offset & -> & Hoffset & Hmod).
    specialize (Hwithin c Hc). unfold request_within.
    cbn [run_report_request req_property req_dimensions req_metrics req_limit
         req_offset req_start_date req_end_date].
    unfold REPORT_LIMIT in Hmod. repeat split; try done; lia.
Qed.

Lemma last_state_within `{Externals} (report : Report) (st0 : State)
    (start_date end_date : Z) (msgs : list message) :
  Forall (state_within report st0 start_date end_date) msgs ->
  last_state st0 msgs = st0
  \/ exists e, last_state st0 msgs = bookmark_state report st0 e.
Proof.
  intros Hmsgs. destruct (last_state_cases st0 msgs) as [?|Hin]; [by left|].
  rewrite list.Forall_forall in Hmsgs.
  destruct (Hmsgs _ Hin) as [?|(e & _ & [= ->])]; [done|]. right. by exists e.
Qed.

Section tap.
Context `{Externals} (fuel : nat) (api : Api) (config : Config).

Lemma tap_last_state_app s0 (msgs1 msgs2 : list tap_message) :
  tap_last_state s0 (msgs1 ++ msgs2)
  = tap_last_state (tap_last_state s0 msgs1) msgs2.
Proof. apply foldl_app. Qed.

Lemma tap_last_state_written s0 (msgs : list message) :
  tap_last_state s0 (WRITTEN <$> msgs) = last_state s0 msgs.
Proof.
  revert s0. induction msgs as [|m msgs IH]; intros s0; [done|].
  cbn [fmap list_fmap tap_last_state last_state foldl].
  destruct m; apply IH.
Qed.

Lemma sync_stream_run (stream : CatalogEntry) (t t' : Tap) (how : ending) :
  sync_stream fuel api config stream t = (t', how) ->
  let syncing :=
    set_currently_syncing (tap_state t) (Some (cat_tap_stream_id stream)) in
  (exists msgs,
     tap_output t' = tap_output t ++ WRITTEN (STATE syncing) :: msgs
     /\ tap_state t' = tap_last_state syncing msgs
     /\ (how = Exhausted ->
         list.last msgs = Some (WRITTEN (STATE (tap_state t')))))
  /\ currently_syncing (tap_state t') = Some (cat_tap_stream_id stream)
  /\ (exists reqs,
        requests (tap_world t') = requests (tap_world t) ++ reqs
        /\ Forall (stream_request config stream) reqs).
Proof.
  intros Hrun syncing. unfold sync_stream in Hrun. fold syncing in Hrun.
  cbv zeta in Hrun.
  assert (Hstopped : forall (out : list tap_message) e,
    ({| tap_world := tap_world t;
        tap_output := (tap_output t ++ [WRITTEN (STATE syncing)]) ++ out;
        tap_logged := tap_logged t; tap_state := syncing |}, Raised e)
    = (t', how) ->
    Forall (fun m => forall s, m <> WRITTEN (STATE s)) out ->
    (exists msgs,
       tap_output t' = tap_output t ++ WRITTEN (STATE syncing) :: msgs
       /\ tap_state t' = tap_last_state syncing msgs
       /\ (how = Exhausted ->
           list.last msgs = Some (WRITTEN (STATE (tap_state t')))))
    /\ currently_syncing (tap_state t') = Some (cat_tap_stream_id stream)
    /\ (exists reqs,
          requests (tap_world t') = requests (tap_world t) ++ reqs
          /\ Forall (stream_request config stream) reqs)).
  { intros out e [= <- <-] Hout. cbn [tap_output tap_state tap_world].
    split; [|split; [done|exists []; by rewrite app_nil_r]].
    exists out. split; [by rewrite <- app_assoc|]. split; [|done].
    clear -Hout. induction Hout as [|m out Hm _ IH]; [done|].
    cbn [tap_last_state foldl]. destruct m as [? ? ?|[? ?|s]]; try apply IH.
    by destruct (Hm s). }
  destruct (sync_fields (cat_metadata stream) [] [])
    as [[metrics dimensions]|e] eqn:Hfields.
  2:{ apply (Hstopped [] e); [by rewrite app_nil_r|constructor]. }
  destruct (get_end_date config (clock (tap_world t))) as [end_date|e]
    eqn:Hend.
  2:{ apply (Hstopped [] e); [by rewrite app_nil_r|constructor]. }
  set (report := {| rep_property_id := cfg_property_id config;
                    rep_name := cat_stream stream;
                    rep_id := cat_tap_stream_id stream;
                    rep_metrics := metrics;
                    rep_dimensions := dimensions |}) in *.
  destruct (get_report_start_date config (rep_property_id report) syncing
              (rep_id report) (clock (tap_world t))) as [start_date|e].
  2:{ apply (Hstopped [SCHEMA (cat_stream stream) (cat_schema stream)
                 (cat_key_properties stream)] e); [done|].
      constructor; [done|constructor]. }
  destruct (sync_report fuel api report start_date end_date 7
              {| world := tap_world t; output := [];
                 logged := tap_logged t; state := syncing |})
    as [st how'] eqn:Hreport.
  destruct (sync_report_run fuel api report start_date end_date 7 _ st how'
              ltac:(lia) Hreport)
    as [(msgs & Hout & Hlast & Hmsgs) (reqs & Hreqs & Hall)].
  cbn [output state world app] in Hout, Hlast, Hreqs, Hmsgs.
  assert (Hsyncing : currently_syncing (state st)
                     = Some (cat_tap_stream_id stream)).
  { rewrite Hlast.
    by destruct (last_state_within _ _ _ _ _ Hmsgs) as [->|[e ->]]. }
  assert (Hrequests : Forall (stream_request config stream) reqs).
  { eapply list.Forall_impl; [exact Hall|].
    intros r (Hp & Hd & Hm & Hl & Ho & Hmod & Hs & Hse & He & Hspan).
    unfold stream_request. rewrite Hd, Hm.
    repeat split; try done; try lia.
    intros e E Hcfg HE. unfold get_end_date in Hend.
    rewrite Hcfg, HE in Hend. injection Hend as <-. done. }
  assert (Hstate : state st
                   = tap_last_state syncing
                       (SCHEMA (cat_stream stream) (cat_schema stream)
                 (cat_key_properties stream) :: (WRITTEN <$> output st))).
  { cbn [tap_last_state foldl].
    fold (tap_last_state syncing (WRITTEN <$> output st)).
    by rewrite tap_last_state_written, Hout. }
  destruct how'; injection Hrun as <- <-;
    cbn [tap_output tap_state tap_world].
  - split; [|split; [done|by exists reqs]].
    exists (SCHEMA (cat_stream stream) (cat_schema stream)
                 (cat_key_properties stream) :: (WRITTEN <$> output st)
            ++ [WRITTEN (STATE (state st))]).
    split; [by rewrite <- !app_assoc|]. split.
    + rewrite app_comm_cons, tap_last_state_app. done.
    + intros _. by rewrite app_comm_cons, last_snoc.
  - split; [|split; [done|by exists reqs]].
    exists (SCHEMA (cat_stream stream) (cat_schema stream)
                 (cat_key_properties stream) :: (WRITTEN <$> output st)).
    split; [by rewrite <- !app_assoc|]. split; [done|]. intros [=].
  - split; [|split; [done|by exists reqs]].
    exists (SCHEMA (cat_stream stream) (cat_schema stream)
                 (cat_key_properties stream) :: (WRITTEN <$> output st)).
    split; [by rewrite <- !app_assoc|]. split; [done|]. intros [=].
Qed.

Lemma sync_streams_run (streams : list CatalogEntry) :
  forall (t t' : Tap) (how : ending),
    sync_streams fuel api config streams t = (t', how) ->
    (exists msgs,
       tap_output t' = tap_output t ++ msgs
       /\ tap_state t' = tap_last_state (tap_state t) msgs)
    /\ (how <> Exhausted ->
        exists stream,
          stream ∈ streams
          /\ currently_syncing (tap_state t') = Some (cat_tap_stream_id stream))
    /\ (exists reqs,
          requests (tap_world t') = requests (tap_world t) ++ reqs
          /\ Forall (fun r => exists stream,
                       stream ∈ streams /\ stream_request config stream r) reqs).
Proof.
  induction streams as [|stream streams IH]; intros t t' how Hrun.
  - injection Hrun as <- <-. split; [exists []; by rewrite app_nil_r|].
    split; [done|]. exists []. by rewrite app_nil_r.
  - cbn [sync_streams] in Hrun.
    destruct (sync_stream fuel api config stream t) as [t1 how1] eqn:Hstream.
    destruct (sync_stream_run stream t t1 how1 Hstream)
      as ((msgs1 & Hout1 & Hstate1 & _) & Hsyncing & (reqs1 & Hreqs1 & Hall1)).
    assert (Hall1' : Forall (fun r => exists stream0,
                       stream0 ∈ stream :: streams
                       /\ stream_request config stream0 r) reqs1).
    { eapply list.Forall_impl; [exact Hall1|]. intros r Hr.
      exists stream. split; [by left|done]. }
    assert (Hfirst : (exists msgs,
                        tap_output t1 = tap_output t ++ msgs
                        /\ tap_state t1 = tap_last_state (tap_state t) msgs)).
    { eexists. split; [exact Hout1|]. done. }
    destruct how1.
    2,3: injection Hrun as <- <-; (split; [done|]);
      (split; [intros _; exists stream; split; [by left|done]|by exists reqs1]).
    apply IH in Hrun as ((msgs & Hout & Hstate) & Hstopped
                         & (reqs & Hreqs & Hall)).
    destruct Hfirst as (msgs0 & Hout0 & Hstate0).
    split; [|split].
    + exists (msgs0 ++ msgs). split; [by rewrite Hout, Hout0, <- app_assoc|].
      by rewrite tap_last_state_app, <- Hstate0.
    + intros Hhow. destruct (Hstopped Hhow) as (stream' & Hin & Hs).
      exists stream'. split; [by right|done].
    + exists (reqs1 ++ reqs). split; [by rewrite Hreqs, Hreqs1, <- app_assoc|].
      apply Forall_app. split; [done|].
      eapply list.Forall_impl; [exact Hall|]. intros r (stream' & Hin & Hr).
      exists stream'. split; [by right|done].
Qed.

End tap.

(** X13. Every request that [sync] sends is for the configured property,
    with limit 100000 and an offset that is a multiple of 100000, over a
    range of at most 7 days whatever [request_range] the configuration
    gives, for the metrics and dimensions that the metadata of one of the
    selected streams selects, and it ends no later than the configured
    [end_date] when there is one. *)
Theorem sync_requests `{Externals} (fuel : nat) (api : Api) (config : Config)
    (selected_streams : list CatalogEntry) (t : Tap) :
  let t' := fst (sync fuel api config selected_streams t) in
  exists reqs,
    requests (tap_world t') = requests (tap_world t) ++ reqs
    /\ Forall (fun r =>
         req_property r = py "properties/" ++ cfg_property_id config
         /\ req_limit r = 100000
         /\ 0 <= req_offset r /\ req_offset r mod 100000 = 0
         /\ 0 <= req_end_date r - req_start_date r < 7
         /\ (exists stream,
               stream ∈ selected_streams
               /\ sync_fields (cat_metadata stream) [] []
                  = Ok (req_metrics r, req_dimensions r))
         /\ (forall e E,
               cfg_end_date config = Some e -> strptime_to_utc e = Some E ->
               req_end_date r <= date_of E)) reqs.
Proof.
  intros t'. subst t'. unfold sync.
  destruct (sync_streams fuel api config selected_streams t) as [t1 how]
    eqn:Hrun.
  destruct (sync_streams_run fuel api config selected_streams t t1 how Hrun)
    as (_ & _ & (reqs & Hreqs & Hall)).
  exists reqs. split; [by destruct how|].
  eapply list.Forall_impl; [exact Hall|].
  intros r (stream & Hin & Hp & Hfields & Hl & Ho & Hmod & Hdays & Hend).
  repeat split; try done; try lia. by exists stream.
Qed.

(** X14. In every run of [sync] the output only grows and the state held in
    memory at the end is the state of the last STATE message written. A run
    that ends normally has written the state last, with [currently_syncing]
    cleared; a run that ends otherwise leaves [currently_syncing] at one of
    the selected streams; without selected streams [sync] sends no request
    and writes only the state with [currently_syncing] cleared. *)
Theorem sync_state_written `{Externals} (fuel : nat) (api : Api)
    (config : Config) (selected_streams : list CatalogEntry) (t : Tap) :
  let t' := fst (sync fuel api config selected_streams t) in
  let how := snd (sync fuel api config selected_streams t) in
  (exists msgs,
     tap_output t' = tap_output t ++ msgs
     /\ tap_state t' = tap_last_state (tap_state t) msgs
     /\ (how = Exhausted ->
         list.last msgs = Some (WRITTEN (STATE (tap_state t')))))
  /\ (how = Exhausted -> currently_syncing (tap_state t') = None)
  /\ (how <> Exhausted ->
      exists stream,
        stream ∈ selected_streams
        /\ currently_syncing (tap_state t') = Some (cat_tap_stream_id stream))
  /\ (selected_streams = [] ->
      how = Exhausted
      /\ tap_world t' = tap_world t
      /\ tap_output t'
         = tap_output t
           ++ [WRITTEN (STATE (set_currently_syncing (tap_state t) None))]).
Proof.
  intros t' how. subst t' how. unfold sync.
  destruct (sync_streams fuel api config selected_streams t) as [t1 how]
    eqn:Hrun.
  destruct (sync_streams_run fuel api config selected_streams t t1 how Hrun)
    as ((msgs & Hout & Hstate) & Hstopped & _).
  split; [|split; [|split]].
  - destruct how; cbn [fst snd tap_output tap_state].
    + exists (msgs ++ [WRITTEN (STATE (set_currently_syncing (tap_state t1) None))]).
      split; [by rewrite Hout, <- app_assoc|]. split.
      * by rewrite tap_last_state_app.
      * intros _. by rewrite last_snoc.
    + exists msgs. split; [done|]. split; [done|]. intros [=].
    + exists msgs. split; [done|]. split; [done|]. intros [=].
  - by destruct how.
  - destruct how; [done|..]; cbn [fst snd]; intros _; by apply Hstopped.
  - intros ->. by injection Hrun as <- <-.
Qed.

Lemma add_dimensions_to_schema_lookup dimensions : forall (schema : Schema) name,
  add_dimensions_to_schema schema dimensions !! name
  = if bool_decide (name ∈ dim_api_name <$> dimensions)
    then Some (dimension_schema name)
    else schema !! name.
Proof.
  induction dimensions as [|d dimensions IH] using rev_ind; intros schema name.
  - cbn. by rewrite bool_decide_eq_false_2 by apply not_elem_of_nil.
  - unfold add_dimensions_to_schema. rewrite foldl_app. cbn [foldl].
    fold (add_dimensions_to_schema schema dimensions).
    rewrite fmap_app. cbn [fmap list_fmap].
    assert (Hstep : forall S : Schema,
      (if bool_decide (dim_api_name d ∈ DIMENSION_INTEGER_FIELD_OVERRIDES)
       then <[dim_api_name d := SchemaIntegerOrNull]> S
       else if bool_decide (dim_api_name d ∈ DIMENSION_DATETIME_FIELD_OVERRIDES)
       then <[dim_api_name d := SchemaDateTimeOrString]> S
       else <[dim_api_name d := SchemaStringOrNull]> S)
      = <[dim_api_name d := dimension_schema (dim_api_name d)]> S).
    { intros S. unfold dimension_schema.
      by repeat case_bool_decide. }
    rewrite Hstep.
    destruct (decide (name = dim_api_name d)) as [->|Hne].
    + rewrite lookup_insert_eq. rewrite bool_decide_eq_true_2; [done|].
      apply elem_of_app. right. by left.
    + rewrite lookup_insert_ne by done. rewrite IH.
      apply (f_equal (fun b : bool => if b then _ else _)).
      apply bool_decide_ext. rewrite elem_of_app, list_elem_of_singleton.
      split; [by left|by intros [?|?]].
Qed.

Lemma add_metrics_to_schema_Ok metrics : forall schema : Schema,
  Forall known_type metrics ->
  exists schema' : Schema,
    add_metrics_to_schema schema metrics = Ok schema'
    /\ (forall name, name ∉ met_api_name <$> metrics ->
          schema' !! name = schema !! name)
    /\ (forall name, name ∈ met_api_name <$> metrics ->
          exists metric,
            metric ∈ metrics /\ met_api_name metric = name
            /\ schema' !! name = Some (metric_schema metric))
    /\ (NoDup (met_api_name <$> metrics) ->
        forall metric, metric ∈ metrics ->
          schema' !! met_api_name metric = Some (metric_schema metric)).
Proof.
  induction metrics as [|m metrics IH]; intros schema Hknown.
  - exists schema. split; [done|]. split; [done|]. split.
    + intros name Hin. by apply elem_of_nil in Hin.
    + intros _ metric Hin. by apply elem_of_nil in Hin.
  - apply Forall_cons_1 in Hknown as [Hm Hknown].
    assert (Hstep : add_metrics_to_schema schema (m :: metrics)
                    = add_metrics_to_schema
                        (<[met_api_name m := metric_schema m]> schema) metrics).
    { cbn [add_metrics_to_schema]. unfold metric_schema.
      case_bool_decide as Hint; [done|].
      destruct Hm as [?|Hfloat]; [done|]. by rewrite bool_decide_eq_true_2. }
    destruct (IH (<[met_api_name m := metric_schema m]> schema) Hknown)
      as (schema' & Hrun & Hout & Hin & Hnodup).
    exists schema'. rewrite Hstep. split; [done|]. split; [|split].
    + intros name Hname. rewrite fmap_cons in Hname.
      apply not_elem_of_cons in Hname as [Hne Hname].
      rewrite Hout by done. by rewrite lookup_insert_ne.
    + intros name Hname.
      destruct (decide (name ∈ met_api_name <$> metrics)) as [Hrest|Hrest].
      * destruct (Hin name Hrest) as (metric & ? & ? & ?).
        exists metric. split; [by right|done].
      * rewrite fmap_cons in Hname.
        apply elem_of_cons in Hname as [->|?]; [|done].
        exists m. split; [by left|]. split; [done|].
        rewrite Hout by done. by rewrite lookup_insert_eq.
    + intros Hnd metric Hmetric. rewrite fmap_cons in Hnd.
      apply list.NoDup_cons in Hnd as [Hfresh Hnd].
      apply elem_of_cons in Hmetric as [->|Hmetric]; [|by apply Hnodup].
      rewrite Hout by done. by rewrite lookup_insert_eq.
Qed.

Lemma add_metrics_to_schema_Raise metrics : forall schema : Schema,
  ~ Forall known_type metrics ->
  add_metrics_to_schema schema metrics = Raise OtherError.
Proof.
  induction metrics as [|m metrics IH]; intros schema Hunknown.
  - destruct Hunknown. constructor.
  - cbn [add_metrics_to_schema].
    case_bool_decide as Hint.
    { apply IH. intros Hrest. apply Hunknown. constructor; [by left|done]. }
    case_bool_decide as Hfloat; [|done].
    apply IH. intros Hrest. apply Hunknown. constructor; [by right|done].
Qed.

#[local] Instance known_type_dec metric : Decision (known_type metric).
Proof. unfold known_type. apply _. Defined.

Lemma generate_base_schema_lookup name :
  generate_base_schema !! name
  = if bool_decide (name ∈ base_fields) then Some SchemaString else None.
Proof.
  unfold generate_base_schema, base_fields.
  destruct (decide (name = py "_sdc_record_hash")) as [->|?].
  { by rewrite lookup_insert_eq. }
  rewrite lookup_insert_ne by done.
  destruct (decide (name = py "property_id")) as [->|?].
  { by rewrite lookup_insert_eq. }
  rewrite lookup_insert_ne by done.
  destruct (decide (name = py "account_id")) as [->|?].
  { by rewrite lookup_singleton_eq. }
  rewrite lookup_singleton_ne by done.
  rewrite bool_decide_eq_false_2; [done|].
  rewrite !not_elem_of_cons. repeat split; try done. apply not_elem_of_nil.
Qed.

Lemma generate_schema_and_metadata_Ok
    (get_standard_metadata : Schema -> Metadata)
    (dimensions : list DimensionMetadata) (metrics : list MetricMetadata)
    (field_exclusions : gmap (list Z) (list (list Z))) :
  Forall known_type metrics ->
  exists schema : Schema,
    generate_schema_and_metadata get_standard_metadata dimensions metrics
      field_exclusions
    = Ok (schema,
          generate_metadata (get_standard_metadata schema) dimensions metrics
            field_exclusions)
    /\ (forall name,
          is_Some (schema !! name) <->
          name ∈ base_fields \/ name ∈ (dim_api_name <$> dimensions)
          \/ name ∈ (met_api_name <$> metrics))
    /\ (forall name,
          name ∈ (met_api_name <$> metrics) ->
          exists metric,
            metric ∈ metrics /\ met_api_name metric = name
            /\ schema !! name = Some (metric_schema metric))
    /\ (forall name,
          name ∈ (dim_api_name <$> dimensions) ->
          name ∉ (met_api_name <$> metrics) ->
          schema !! name = Some (dimension_schema name))
    /\ (forall name,
          name ∈ base_fields ->
          name ∉ (dim_api_name <$> dimensions) ->
          name ∉ (met_api_name <$> metrics) ->
          schema !! name = Some SchemaString).
Proof.
  intros Hknown. unfold generate_schema_and_metadata.
  destruct (add_metrics_to_schema_Ok metrics
              (add_dimensions_to_schema generate_base_schema dimensions)
              Hknown) as (schema & -> & Hout & Hin & _).
  cbn [rbind]. exists schema. split; [reflexivity|].
  assert (Hother : forall name,
            name ∉ (met_api_name <$> metrics) ->
            schema !! name
            = if bool_decide (name ∈ (dim_api_name <$> dimensions))
              then Some (dimension_schema name)
              else if bool_decide (name ∈ base_fields)
                   then Some SchemaString else None).
  { intros name Hname.
    by rewrite Hout, add_dimensions_to_schema_lookup,
      generate_base_schema_lookup. }
  split; [|split; [done|split]].
  - intros name.
    destruct (decide (name ∈ (met_api_name <$> metrics))) as [Hm|Hm].
    { destruct (Hin name Hm) as (metric & _ & _ & ->).
      split; [auto|by eexists]. }
    rewrite Hother by done.
    case_bool_decide as Hd; [split; [auto|by eexists]|].
    case_bool_decide as Hb; [split; [auto|by eexists]|].
    split; [by intros [? ?]|]. by intros [?|[?|?]].
  - intros name Hd Hm. rewrite Hother by done.
    by rewrite bool_decide_eq_true_2.
  - intros name Hb Hd Hm. rewrite Hother by done.
    by rewrite bool_decide_eq_false_2, bool_decide_eq_true_2.
Qed.

Lemma generate_schema_and_metadata_Raise
    (get_standard_metadata : Schema -> Metadata)
    (dimensions : list DimensionMetadata) (metrics : list MetricMetadata)
    (field_exclusions : gmap (list Z) (list (list Z))) :
  ~ Forall known_type metrics ->
  generate_schema_and_metadata get_standard_metadata dimensions metrics
    field_exclusions = Raise OtherError.
Proof.
  intros Hunknown. unfold generate_schema_and_metadata.
  by rewrite add_metrics_to_schema_Raise.
Qed.

(** X15. [generate_schema_and_metadata] raises when a metric has a type
    other than TYPE_INTEGER and the float types. Otherwise the properties of
    the schema are exactly the three base fields, the dimensions and the
    metrics: a metric name has the schema of a metric of that name,
    integer-or-null for TYPE_INTEGER and number-or-null otherwise; a
    dimension that is no metric has integer-or-null, the date-time schema or
    string-or-null as its name is among the integer overrides, among the
    datetime overrides or in neither; a base field that is neither is a
    string. *)
Theorem generate_schema_types (get_standard_metadata : Schema -> Metadata)
    (dimensions : list DimensionMetadata) (metrics : list MetricMetadata)
    (field_exclusions : gmap (list Z) (list (list Z))) :
  let generated :=
    generate_schema_and_metadata get_standard_metadata dimensions metrics
      field_exclusions in
  ((exists metric,
      metric ∈ metrics /\ met_type metric <> py "TYPE_INTEGER"
      /\ met_type metric ∉ FLOAT_TYPES) ->
   generated = Raise OtherError)
  /\ ((forall metric,
         metric ∈ metrics ->
         met_type metric = py "TYPE_INTEGER" \/ met_type metric ∈ FLOAT_TYPES) ->
      exists (schema : Schema) mdata,
        generated = Ok (schema, mdata)
        /\ (forall name,
              is_Some (schema !! name) <->
              name ∈ base_fields \/ name ∈ (dim_api_name <$> dimensions)
              \/ name ∈ (met_api_name <$> metrics))
        /\ (forall name,
              name ∈ (met_api_name <$> metrics) ->
              exists metric,
                metric ∈ metrics /\ met_api_name metric = name
                /\ schema !! name
                   = Some (if bool_decide (met_type metric = py "TYPE_INTEGER")
                           then SchemaIntegerOrNull else SchemaNumberOrNull))
        /\ (forall name,
              name ∈ (dim_api_name <$> dimensions) ->
              name ∉ (met_api_name <$> metrics) ->
              schema !! name = Some (dimension_schema name))
        /\ (forall name,
              name ∈ base_fields ->
              name ∉ (dim_api_name <$> dimensions) ->
              name ∉ (met_api_name <$> metrics) ->
              schema !! name = Some SchemaString)).
Proof.
  intros generated. subst generated. split.
  - intros (metric & Hin & Hint & Hfloat).
    apply generate_schema_and_metadata_Raise.
    rewrite list.Forall_forall. intros Hall.
    destruct (Hall metric Hin) as [Hknown|Hknown];
      [exact (Hint Hknown)|exact (Hfloat Hknown)].
  - intros Hknown.
    destruct (generate_schema_and_metadata_Ok get_standard_metadata dimensions
                metrics field_exclusions) as (schema & Hrun & Hrest).
    { by apply list.Forall_forall. }
    by eexists schema, _.
Qed.

Example generate_schema_example :
  let generated :=
    generate_schema_and_metadata (fun _ => [])
      [{| dim_api_name := py "date"; dim_category := py "Time" |};
       {| dim_api_name := py "hour"; dim_category := py "Time" |};
       {| dim_api_name := py "country"; dim_category := py "Geography" |}]
      [{| met_api_name := py "sessions"; met_type := py "TYPE_INTEGER";
          met_category := py "Session" |};
       {| met_api_name := py "bounceRate"; met_type := py "TYPE_FLOAT";
          met_category := py "Session" |}] ∅ in
  let field name := rbind generated (fun sm => Ok (fst sm !! name)) in
  field (py "date") = Ok (Some SchemaDateTimeOrString)
  /\ field (py "hour") = Ok (Some SchemaIntegerOrNull)
  /\ field (py "country") = Ok (Some SchemaStringOrNull)
  /\ field (py "sessions") = Ok (Some SchemaIntegerOrNull)
  /\ field (py "bounceRate") = Ok (Some SchemaNumberOrNull)
  /\ field (py "property_id") = Ok (Some SchemaString)
  /\ field (py "start_date") = Ok None.
Proof. vm_compute. repeat split. Qed.

Lemma elem_of_DATETIME_OVERRIDES name :
  name ∈ DIMENSION_DATETIME_FIELD_OVERRIDES <-> is_Some (DATETIME_FORMATS !! name).
Proof.
  unfold DIMENSION_DATETIME_FIELD_OVERRIDES. rewrite elem_of_list_to_set.
  rewrite !elem_of_cons, elem_of_nil. split.
  - intros [->|[->|[->|[->|[]]]]]; by eexists.
  - intros [fmt Hfmt]. apply DATETIME_FORMATS_lookup in Hfmt.
    destruct Hfmt as [[-> _]|[[-> _]|[[-> _]|[-> _]]]]; auto.
Qed.

Lemma DATETIME_OVERRIDES_not_integer name :
  name ∈ DIMENSION_DATETIME_FIELD_OVERRIDES ->
  name ∉ DIMENSION_INTEGER_FIELD_OVERRIDES.
Proof.
  unfold DIMENSION_DATETIME_FIELD_OVERRIDES. rewrite elem_of_list_to_set.
  rewrite !elem_of_cons, elem_of_nil.
  intros [->|[->|[->|[->|[]]]]]; apply (bool_decide_unpack _);
    vm_compute; exact I.
Qed.

(** X16. The fields that discovery declares as date-time are the fields that
    [transform_datetimes] rewrites: a dimension gets the date-time schema
    exactly when its name is a key of [DATETIME_FORMATS] of [sync.py], and a
    property of a generated schema has the date-time schema exactly when it
    is such a dimension and no metric has its name. *)
Theorem schema_datetime_fields (api_name : list Z) :
  (dimension_schema api_name = SchemaDateTimeOrString
   <-> is_Some (DATETIME_FORMATS !! api_name))
  /\ forall (get_standard_metadata : Schema -> Metadata)
            (dimensions : list DimensionMetadata)
            (metrics : list MetricMetadata)
            (field_exclusions : gmap (list Z) (list (list Z)))
            (schema : Schema) mdata,
       generate_schema_and_metadata get_standard_metadata dimensions metrics
         field_exclusions = Ok (schema, mdata) ->
       (schema !! api_name = Some SchemaDateTimeOrString
        <-> (api_name ∈ (dim_api_name <$> dimensions))
            /\ (api_name ∉ (met_api_name <$> metrics))
            /\ is_Some (DATETIME_FORMATS !! api_name)).
Proof.
  assert (Hdim : dimension_schema api_name = SchemaDateTimeOrString
                 <-> is_Some (DATETIME_FORMATS !! api_name)).
  { rewrite <- elem_of_DATETIME_OVERRIDES. unfold dimension_schema. split.
    - repeat case_bool_decide; done.
    - intros Hin. pose proof (DATETIME_OVERRIDES_not_integer _ Hin).
      by rewrite bool_decide_eq_false_2, bool_decide_eq_true_2. }
  split; [done|].
  intros gsm dimensions metrics fe schema mdata Hrun.
  destruct (decide (Forall known_type metrics)) as [Hknown|Hunknown].
  2:{ by rewrite generate_schema_and_metadata_Raise in Hrun. }
  destruct (generate_schema_and_metadata_Ok gsm dimensions metrics fe Hknown)
    as (schema' & Hrun' & Hdom & Hmet & Hd & Hb).
  rewrite Hrun in Hrun'. injection Hrun' as <- _.
  split.
  - intros Hschema.
    destruct (decide (api_name ∈ (met_api_name <$> metrics))) as [Hm|Hm].
    { destruct (Hmet _ Hm) as (metric & _ & _ & Hs). rewrite Hs in Hschema.
      unfold metric_schema in Hschema. by case_bool_decide. }
    destruct (decide (api_name ∈ (dim_api_name <$> dimensions))) as [Hin|Hin].
    { rewrite (Hd _ Hin Hm) in Hschema. apply (inj Some) in Hschema.
      split; [exact Hin|]. split; [exact Hm|]. apply Hdim. exact Hschema. }
    assert (Hsome : is_Some (schema !! api_name)) by by eexists.
    apply Hdom in Hsome as [Hbase|[?|?]]; [|done..].
    by rewrite (Hb _ Hbase Hin Hm) in Hschema.
  - intros (Hin & Hm & Hfmt). rewrite (Hd _ Hin Hm). f_equal. by apply Hdim.
Qed.

Lemma append_exclusions_lookup fields :
  forall (fe : gmap (list Z) (list (list Z))) name name',
    append_exclusions fe name fields !! name'
    = if bool_decide (name' = name)
      then match fields with
           | [] => fe !! name
           | _ :: _ => Some (exclusions_of fe name ++ fields)
           end
      else fe !! name'.
Proof.
  induction fields as [|field fields IH]; intros fe name name'.
  - cbn. by case_bool_decide; subst.
  - cbn [append_exclusions foldl].
    fold (append_exclusions
            (<[name := exclusions_of fe name ++ [field]]> fe) name fields).
    rewrite IH. case_bool_decide as Hname.
    + subst name'. destruct fields as [|field' fields].
      * by rewrite lookup_insert_eq.
      * unfold exclusions_of at 1. rewrite lookup_insert_eq.
        cbn [default from_option id]. by rewrite <- app_assoc.
    + by rewrite lookup_insert_ne.
Qed.

Section exclusions.
Context {A : Type} (api_name : A -> list Z).
Context (check : nat -> list Z -> A -> result CompatibilityResponse).
Context (call : list Z -> list Z -> client_call) (property_id : list Z).

Lemma exclusions_loop_run (fields : list A) :
  forall (fe : gmap (list Z) (list (list Z))) calls calls' r,
    exclusions_loop api_name check call property_id fields fe calls
    = (calls', r) ->
    (exists new,
       calls' = calls ++ new
       /\ (length new <= length fields)%nat
       /\ Forall (fun c => exists name,
                    c = call property_id name
                    /\ name ∈ (api_name <$> fields)
                    /\ fe !! name = None) new)
    /\ (forall fe' : gmap (list Z) (list (list Z)),
          r = Ok fe' ->
          (forall name l, fe !! name = Some l -> fe' !! name = Some l)
          /\ (forall name l,
                fe' !! name = Some l ->
                fe !! name = Some l
                \/ (l <> [] /\ name ∈ (api_name <$> fields)))).
Proof.
  induction fields as [|field fields IH]; intros fe calls calls' r Hrun.
  - injection Hrun as <- <-. split.
    + exists []. rewrite app_nil_r. split; [done|]. split; [done|constructor].
    + intros fe' [= <-]. split; [done|]. intros name l Hl. by left.
  - cbn [exclusions_loop] in Hrun. rewrite fmap_cons.
    case_bool_decide as Hlisted.
    { apply IH in Hrun as [(new & -> & Hlen & Hnew) Hok]. split.
      - exists new. split; [done|]. split; [simpl; lia|].
        eapply list.Forall_impl; [exact Hnew|].
        intros c (name & -> & Hin & Hnone). exists name.
        split; [done|]. split; [by right|done].
      - intros fe' Hr. destruct (Hok fe' Hr) as [Hkeep Hnew'].
        split; [done|]. intros name l Hl.
        destruct (Hnew' name l Hl) as [?|[? ?]]; [by left|].
        right. split; [done|by right]. }
    assert (Hnone : fe !! api_name field = None).
    { destruct (fe !! api_name field) eqn:Hfe; [|done].
      destruct Hlisted. by eexists. }
    assert (Hfirst : exists name,
              call property_id (api_name field) = call property_id name
              /\ name ∈ api_name field :: (api_name <$> fields)
              /\ fe !! name = None).
    { exists (api_name field). split; [done|]. split; [by left|done]. }
    destruct (check (length calls) property_id field) as [res|e].
    2:{ injection Hrun as <- <-. split; [|done].
        exists [call property_id (api_name field)]. split; [done|].
        split; [simpl; lia|]. by constructor. }
    set (fe1 := append_exclusions
                  (append_exclusions fe (api_name field)
                     (dimension_compatibilities res))
                  (api_name field) (metric_compatibilities res)) in *.
    assert (Hfe1 : forall name,
              fe1 !! name
              = if bool_decide (name = api_name field)
                then match dimension_compatibilities res
                           ++ metric_compatibilities res with
                     | [] => None
                     | l => Some l
                     end
                else fe !! name).
    { intros name. subst fe1. rewrite append_exclusions_lookup.
      case_bool_decide as Hname; [|by rewrite append_exclusions_lookup,
                                      bool_decide_eq_false_2].
      unfold exclusions_of. rewrite !append_exclusions_lookup.
      rewrite bool_decide_eq_true_2 by done. rewrite Hnone.
      unfold exclusions_of. rewrite Hnone. cbn [default from_option id app].
      destruct (dimension_compatibilities res) as [|? ?];
        destruct (metric_compatibilities res) as [|? ?];
        cbn [default from_option id app]; rewrite ?app_nil_r; done. }
    apply IH in Hrun as [(new & -> & Hlen & Hnew) Hok]. split.
    + exists (call property_id (api_name field) :: new).
      split; [by rewrite <- app_assoc|]. split; [simpl; lia|].
      constructor; [done|].
      eapply list.Forall_impl; [exact Hnew|].
      intros c (name & -> & Hin & Hnone'). exists name.
      split; [done|]. split; [by right|].
      rewrite Hfe1 in Hnone'. case_bool_decide; [by subst|done].
    + intros fe' Hr. destruct (Hok fe' Hr) as [Hkeep Hnew']. split.
      * intros name l Hl. apply Hkeep. rewrite Hfe1.
        case_bool_decide; [subst; congruence|done].
      * intros name l Hl.
        destruct (Hnew' name l Hl) as [Hl1|[? ?]]; [|right; split;
                                                       [done|by right]].
        rewrite Hfe1 in Hl1. case_bool_decide as Hname; [|by left].
        subst name. right. split; [|by left].
        destruct (dimension_compatibilities res ++ metric_compatibilities res);
          [done|]. by injection Hl1 as <-.
Qed.

End exclusions.

Lemma get_field_exclusions_run (listed : gmap (list Z) (list (list Z)))
    (client : Client) (property_id : list Z)
    (dimensions : list DimensionMetadata) (metrics : list MetricMetadata)
    (calls : list client_call) :
  let run :=
    get_field_exclusions listed client property_id dimensions metrics calls in
  (exists new,
     fst run = calls ++ new
     /\ (length new <= length dimensions + length metrics)%nat
     /\ Forall (fun c => exists name,
                  listed !! name = None
                  /\ ((c = CheckDimensionCompatibility property_id name
                       /\ name ∈ (dim_api_name <$> dimensions))
                      \/ (c = CheckMetricCompatibility property_id name
                          /\ name ∈ (met_api_name <$> metrics)))) new)
  /\ (forall field_exclusions : gmap (list Z) (list (list Z)),
        snd run = Ok field_exclusions ->
        (forall name l,
           listed !! name = Some l -> field_exclusions !! name = Some l)
        /\ (forall name l,
              field_exclusions !! name = Some l ->
              listed !! name = Some l
              \/ (l <> []
                  /\ (name ∈ (dim_api_name <$> dimensions)
                      \/ name ∈ (met_api_name <$> metrics))))).
Proof.
  intros run. subst run. unfold get_field_exclusions.
  destruct (exclusions_loop dim_api_name
              (client_check_dimension_compatibility client)
              CheckDimensionCompatibility property_id dimensions listed calls)
    as [calls1 r1] eqn:Hdims.
  destruct (exclusions_loop_run _ _ _ _ _ _ _ _ _ Hdims)
    as [(new1 & -> & Hlen1 & Hnew1) Hok1].
  assert (Hnew1' : Forall (fun c => exists name,
            listed !! name = None
            /\ ((c = CheckDimensionCompatibility property_id name
                 /\ name ∈ (dim_api_name <$> dimensions))
                \/ (c = CheckMetricCompatibility property_id name
                    /\ name ∈ (met_api_name <$> metrics)))) new1).
  { eapply list.Forall_impl; [exact Hnew1|].
    intros c (name & -> & Hin & Hnone). exists name. split; [done|]. by left. }
  destruct r1 as [fe1|e]; cbn [fst snd].
  2:{ split; [|done]. exists new1. split; [done|]. split; [lia|done]. }
  destruct (Hok1 fe1 eq_refl) as [Hkeep1 Hfrom1].
  destruct (exclusions_loop met_api_name
              (client_check_metric_compatibility client)
              CheckMetricCompatibility property_id metrics fe1 (calls ++ new1))
    as [calls2 r2] eqn:Hmets.
  destruct (exclusions_loop_run _ _ _ _ _ _ _ _ _ Hmets)
    as [(new2 & -> & Hlen2 & Hnew2) Hok2].
  cbn [fst snd]. split.
  - exists (new1 ++ new2). split; [by rewrite app_assoc|].
    split; [rewrite length_app; lia|]. apply Forall_app. split; [done|].
    eapply list.Forall_impl; [exact Hnew2|].
    intros c (name & -> & Hin & Hnone). exists name. split; [|by right].
    destruct (listed !! name) as [l|] eqn:Hl; [|done].
    by rewrite (Hkeep1 _ _ Hl) in Hnone.
  - intros fe Hr. destruct (Hok2 fe Hr) as [Hkeep2 Hfrom2]. split.
    + intros name l Hl. by apply Hkeep2, Hkeep1.
    + intros name l Hl.
      destruct (Hfrom2 name l Hl) as [Hl1|[? ?]]; [|by right; split; [|right]].
      destruct (Hfrom1 name l Hl1) as [?|[? ?]]; [by left|].
      by right; split; [|left].
Qed.

Lemma get_field_exclusions_calls (listed : gmap (list Z) (list (list Z)))
    (client : Client) (property_id : list Z)
    (dimensions : list DimensionMetadata) (metrics : list MetricMetadata)
    (calls : list client_call) :
  exists new,
    fst (get_field_exclusions listed client property_id dimensions metrics
           calls) = calls ++ new.
Proof.
  destruct (get_field_exclusions_run listed client property_id dimensions
              metrics calls) as [(new & Hnew & _) _].
  by exists new.
Qed.

(** X17. [get_field_exclusions] sends at most as many compatibility checks
    as there are dimensions and metrics, each for a dimension or a metric of
    the property that [field_exclusions.json] does not list; the listed
    names keep their listed exclusions, and every other entry of the result
    belongs to a dimension or a metric and is not empty. *)
Theorem get_field_exclusions_listed (listed : gmap (list Z) (list (list Z)))
    (client : Client) (property_id : list Z)
    (dimensions : list DimensionMetadata) (metrics : list MetricMetadata)
    (calls : list client_call) :
  let run :=
    get_field_exclusions listed client property_id dimensions metrics calls in
  (exists new,
     fst run = calls ++ new
     /\ (length new <= length dimensions + length metrics)%nat
     /\ Forall (fun c => exists name,
                  listed !! name = None
                  /\ ((c = CheckDimensionCompatibility property_id name
                       /\ name ∈ (dim_api_name <$> dimensions))
                      \/ (c = CheckMetricCompatibility property_id name
                          /\ name ∈ (met_api_name <$> metrics)))) new)
  /\ (forall field_exclusions : gmap (list Z) (list (list Z)),
        snd run = Ok field_exclusions ->
        (forall name l,
           listed !! name = Some l -> field_exclusions !! name = Some l)
        /\ (forall name l,
              field_exclusions !! name = Some l ->
              listed !! name = Some l
              \/ (l <> []
                  /\ (name ∈ (dim_api_name <$> dimensions)
                      \/ name ∈ (met_api_name <$> metrics))))).
Proof.
  exact (get_field_exclusions_run listed client property_id dimensions
           metrics calls).
Qed.

Lemma metadata_lookup_write (mdata : Metadata) breadcrumb k val breadcrumb' :
  metadata_lookup (metadata_write mdata breadcrumb k val) breadcrumb'
  = if bool_decide (breadcrumb' = breadcrumb)
    then Some (<[k := val]> (default ∅ (metadata_lookup mdata breadcrumb)))
    else metadata_lookup mdata breadcrumb'.
Proof.
  induction mdata as [|[b d] mdata IH]; cbn [metadata_write metadata_lookup].
  - cbn [default from_option id]. repeat case_bool_decide; by simplify_eq.
  - destruct (decide (b = breadcrumb)) as [->|Hb].
    + rewrite !(bool_decide_eq_true_2 (breadcrumb = breadcrumb)) by done.
      cbn [metadata_lookup default from_option id].
      repeat case_bool_decide; by simplify_eq.
    + rewrite !(bool_decide_eq_false_2 (b = breadcrumb)) by done.
      cbn [metadata_lookup]. rewrite IH.
      repeat case_bool_decide; by simplify_eq.
Qed.

Lemma metadata_get_write (mdata : Metadata) breadcrumb k val breadcrumb' k' :
  metadata_get (metadata_write mdata breadcrumb k val) breadcrumb' k'
  = if bool_decide (breadcrumb' = breadcrumb /\ k' = k) then val
    else metadata_get mdata breadcrumb' k'.
Proof.
  unfold metadata_get, dict_get. rewrite metadata_lookup_write.
  case_bool_decide as Hb.
  - subst breadcrumb'. cbn [default from_option id].
    destruct (decide (k' = k)) as [->|Hk].
    + rewrite lookup_insert_eq. by rewrite bool_decide_eq_true_2.
    + rewrite lookup_insert_ne by done.
      by rewrite bool_decide_eq_false_2 by by intros [_ ?].
  - by rewrite bool_decide_eq_false_2 by by intros [? _].
Qed.

Lemma metadata_write_breadcrumbs (mdata : Metadata) breadcrumb k val :
  Forall breadcrumb_ok mdata -> length breadcrumb = 2%nat ->
  Forall breadcrumb_ok (metadata_write mdata breadcrumb k val).
Proof.
  intros Hok Hlen. induction Hok as [|[b d] mdata Hb Hok IH].
  - constructor; [by right|constructor].
  - cbn [metadata_write]. case_bool_decide; constructor; done.
Qed.

Lemma metadata_lookup_elem_of (mdata : Metadata) breadcrumb d :
  metadata_lookup mdata breadcrumb = Some d -> (breadcrumb, d) ∈ mdata.
Proof.
  induction mdata as [|[b d'] mdata IH]; [done|].
  cbn [metadata_lookup]. case_bool_decide as Hb.
  - intros [= <-]. subst. by left.
  - intros Hl. right. by apply IH.
Qed.

Lemma metadata_get_field_writes mdata api_name category behavior fe b k :
  metadata_get (field_writes mdata api_name category behavior fe) b k
  = if bool_decide (b = field_breadcrumb api_name)
    then if bool_decide (k = py "fieldExclusions")
         then PyList (exclusions_of fe api_name)
         else if bool_decide (k = py "behavior") then PyStr behavior
         else if bool_decide (k = py "tap_ga4.group") then PyStr category
         else metadata_get mdata b k
    else metadata_get mdata b k.
Proof.
  unfold field_writes. rewrite !metadata_get_write.
  destruct (decide (b = field_breadcrumb api_name)) as [->|Hb].
  - rewrite (bool_decide_eq_true_2 (field_breadcrumb api_name = _)) by done.
    repeat case_bool_decide; first [done | exfalso; tauto].
  - rewrite (bool_decide_eq_false_2 (b = _)) by done.
    repeat case_bool_decide; first [done | exfalso; tauto].
Qed.

Lemma field_writes_breadcrumbs mdata api_name category behavior fe :
  Forall breadcrumb_ok mdata ->
  Forall breadcrumb_ok (field_writes mdata api_name category behavior fe).
Proof.
  intros Hok. unfold field_writes.
  repeat (apply metadata_write_breadcrumbs; [|done]). done.
Qed.

(** A loop of [generate_metadata] over the dimensions or over the
    metrics. *)
Lemma metadata_get_fields_loop {A} (api_name category : A -> list Z)
    (behavior : list Z) fe (fields : list A) : forall (mdata : Metadata) b k,
  let looped :=
    foldl (fun mdata field =>
             field_writes mdata (api_name field) (category field) behavior fe)
      mdata fields in
  ((forall name, b <> field_breadcrumb name) \/
   k ∉ [py "fieldExclusions"; py "behavior"; py "tap_ga4.group"] \/
   (forall field, field ∈ fields -> b <> field_breadcrumb (api_name field)) ->
   metadata_get looped b k = metadata_get mdata b k)
  /\ (forall field, field ∈ fields ->
        metadata_get looped (field_breadcrumb (api_name field)) (py "behavior")
        = PyStr behavior
        /\ metadata_get looped (field_breadcrumb (api_name field))
             (py "fieldExclusions")
           = PyList (exclusions_of fe (api_name field))
        /\ (NoDup (api_name <$> fields) ->
            metadata_get looped (field_breadcrumb (api_name field))
              (py "tap_ga4.group")
            = PyStr (category field)))
  /\ (Forall breadcrumb_ok mdata -> Forall breadcrumb_ok looped).
Proof.
  induction fields as [|x fields IH] using rev_ind; intros mdata b k looped.
  - subst looped. cbn [foldl]. split; [done|]. split; [|done].
    intros field Hin. by apply elem_of_nil in Hin.
  - subst looped. rewrite foldl_app. cbn [foldl].
    set (before := foldl _ mdata fields) in *.
    split; [|split].
    + intros Hframe. rewrite metadata_get_field_writes.
      assert (Hbefore : metadata_get before b k = metadata_get mdata b k).
      { apply IH. destruct Hframe as [?|[?|Hf]]; [by left|by right; left|].
        right. right. intros field Hin. apply Hf, elem_of_app. by left. }
      case_bool_decide as Hb; [|done].
      destruct Hframe as [Hf|[Hk|Hf]].
      * by destruct (Hf (api_name x)).
      * rewrite !not_elem_of_cons in Hk. destruct Hk as (? & ? & ? & _).
        by rewrite !bool_decide_eq_false_2.
      * destruct (Hf x); [|done]. apply elem_of_app. right. by left.
    + intros field Hin. rewrite !metadata_get_field_writes.
      rewrite (bool_decide_eq_false_2 (py "behavior" = py "fieldExclusions"))
        by (intros Heq; vm_compute in Heq; discriminate Heq).
      rewrite (bool_decide_eq_true_2 (py "behavior" = py "behavior")) by done.
      rewrite (bool_decide_eq_true_2
                 (py "fieldExclusions" = py "fieldExclusions")) by done.
      rewrite (bool_decide_eq_false_2
                 (py "tap_ga4.group" = py "fieldExclusions"))
        by (intros Heq; vm_compute in Heq; discriminate Heq).
      rewrite (bool_decide_eq_false_2 (py "tap_ga4.group" = py "behavior"))
        by (intros Heq; vm_compute in Heq; discriminate Heq).
      rewrite (bool_decide_eq_true_2 (py "tap_ga4.group" = py "tap_ga4.group"))
        by done.
      destruct (decide (api_name field = api_name x)) as [Heq|Hne].
      * rewrite Heq,
          (bool_decide_eq_true_2 (field_breadcrumb (api_name x) = _)) by done.
        split; [done|]. split; [done|]. intros Hnodup.
        rewrite fmap_app in Hnodup. apply list.NoDup_app in Hnodup as (_ & Hdisj & _).
        apply elem_of_app in Hin as [Hin|Hin].
        { destruct (Hdisj (api_name field)).
          - apply list_elem_of_fmap. by exists field.
          - rewrite Heq. by left. }
        apply list_elem_of_singleton in Hin. by subst.
      * rewrite (bool_decide_eq_false_2 (field_breadcrumb (api_name field) = _))
          by (unfold field_breadcrumb; congruence).
        apply elem_of_app in Hin as [Hin|Hin].
        2:{ apply list_elem_of_singleton in Hin. by subst. }
        destruct (IH mdata b k) as (_ & Hfields & _).
        destruct (Hfields field Hin) as (? & ? & Hgroup).
        split; [done|]. split; [done|]. intros Hnodup. apply Hgroup.
        rewrite fmap_app in Hnodup. by apply list.NoDup_app in Hnodup as (? & _).
    + intros Hok. apply field_writes_breadcrumbs. by apply IH.
Qed.

Ltac decide_write :=
  match goal with
  | |- context [bool_decide ?P] =>
      first
        [ rewrite (bool_decide_eq_true_2 P) by (split; reflexivity)
        | rewrite (bool_decide_eq_false_2 P)
            by (let Hb := fresh in let Hk := fresh in
                intros [Hb Hk];
                first [ vm_compute in Hb; discriminate Hb
                      | vm_compute in Hk; discriminate Hk ]) ]
  end.

Section generated.
Context (standard : Metadata).
Context (dimensions : list DimensionMetadata) (metrics : list MetricMetadata).
Context (field_exclusions : gmap (list Z) (list (list Z))).

Let included : Metadata :=
  foldl (fun mdata field_name =>
    metadata_write mdata (field_breadcrumb field_name) (py "inclusion")
      (PyStr (py "automatic"))) standard automatic_fields.
Let grouped : Metadata :=
  foldl (fun mdata field_name =>
    metadata_write mdata (field_breadcrumb field_name) (py "tap_ga4.group")
      (PyStr (py "Report Field"))) included base_fields.
Let with_dimensions : Metadata :=
  foldl (fun mdata dimension =>
    field_writes mdata (dim_api_name dimension) (dim_category dimension)
      (py "DIMENSION") field_exclusions) grouped dimensions.

Lemma generate_metadata_eq :
  generate_metadata standard dimensions metrics field_exclusions
  = foldl (fun mdata metric =>
      field_writes mdata (met_api_name metric) (met_category metric)
        (py "METRIC") field_exclusions) with_dimensions metrics.
Proof. reflexivity. Qed.

Lemma metadata_get_grouped b k :
  metadata_get grouped b k
  = if bool_decide (b ∈ (field_breadcrumb <$> base_fields)
                    /\ k = py "tap_ga4.group")
    then PyStr (py "Report Field")
    else if bool_decide (b ∈ (field_breadcrumb <$> automatic_fields)
                         /\ k = py "inclusion")
    then PyStr (py "automatic")
    else metadata_get standard b k.
Proof.
  subst grouped included. unfold base_fields, automatic_fields.
  cbn [foldl fmap list_fmap]. rewrite !metadata_get_write.
  repeat match goal with
         | |- context [bool_decide (?x ∈ ?l /\ ?Q)] =>
             rewrite (bool_decide_ext (x ∈ l /\ Q)
                        (foldr (fun y P => x = y /\ Q \/ P) False l))
               by (cbn [foldr]; rewrite !elem_of_cons, elem_of_nil; tauto)
         end.
  cbn [foldr].
  repeat case_bool_decide; first [done | exfalso; tauto | idtac].
  all: exfalso;
    repeat match goal with
           | H : _ /\ _ |- _ => destruct H
           | H : _ \/ _ |- _ => destruct H
           end;
    subst; try done;
    repeat match goal with
           | H : ?a = ?b |- _ => vm_compute in H; discriminate H
           end.
Qed.

Lemma grouped_breadcrumbs :
  Forall breadcrumb_ok standard -> Forall breadcrumb_ok grouped.
Proof.
  intros Hok. subst grouped included. unfold base_fields, automatic_fields.
  cbn [foldl]. repeat (apply metadata_write_breadcrumbs; [|done]). done.
Qed.

End generated.

Lemma generate_metadata_get (standard : Metadata)
    (dimensions : list DimensionMetadata) (metrics : list MetricMetadata)
    (field_exclusions : gmap (list Z) (list (list Z))) :
  let mdata :=
    generate_metadata standard dimensions metrics field_exclusions in
  (forall name,
     name ∈ automatic_fields ->
     metadata_get mdata (field_breadcrumb name) (py "inclusion")
     = PyStr (py "automatic"))
  /\ (forall metric,
        metric ∈ metrics ->
        metadata_get mdata (field_breadcrumb (met_api_name metric))
          (py "behavior") = PyStr (py "METRIC")
        /\ metadata_get mdata (field_breadcrumb (met_api_name metric))
             (py "fieldExclusions")
           = PyList (exclusions_of field_exclusions (met_api_name metric))
        /\ (NoDup (met_api_name <$> metrics) ->
            metadata_get mdata (field_breadcrumb (met_api_name metric))
              (py "tap_ga4.group") = PyStr (met_category metric)))
  /\ (forall dimension,
        dimension ∈ dimensions ->
        dim_api_name dimension ∉ (met_api_name <$> metrics) ->
        metadata_get mdata (field_breadcrumb (dim_api_name dimension))
          (py "behavior") = PyStr (py "DIMENSION")
        /\ metadata_get mdata (field_breadcrumb (dim_api_name dimension))
             (py "fieldExclusions")
           = PyList (exclusions_of field_exclusions (dim_api_name dimension))
        /\ (NoDup (dim_api_name <$> dimensions) ->
            metadata_get mdata (field_breadcrumb (dim_api_name dimension))
              (py "tap_ga4.group") = PyStr (dim_category dimension)))
  /\ (forall breadcrumb k,
        (forall name, breadcrumb <> field_breadcrumb name)
        \/ k ∉ [py "inclusion"; py "tap_ga4.group"; py "behavior";
                py "fieldExclusions"] ->
        metadata_get mdata breadcrumb k = metadata_get standard breadcrumb k)
  /\ (Forall breadcrumb_ok standard -> Forall breadcrumb_ok mdata).
Proof.
  intros mdata. subst mdata. rewrite generate_metadata_eq.
  match goal with
  | |- context [foldl ?f (foldl ?g ?g0 dimensions) metrics] =>
      set (grouped := g0);
      set (with_dimensions := foldl g grouped dimensions);
      pose proof (fun b k => metadata_get_fields_loop dim_api_name
                               dim_category (py "DIMENSION") field_exclusions
                               dimensions grouped b k) as Hdims;
      pose proof (fun b k => metadata_get_fields_loop met_api_name
                               met_category (py "METRIC") field_exclusions
                               metrics with_dimensions b k) as Hmets;
      pose proof (metadata_get_grouped standard) as Hgrouped;
      pose proof (grouped_breadcrumbs standard) as Hcrumbs
  end.
  cbv zeta in Hdims, Hmets. fold with_dimensions in Hdims.
  assert (Hother : forall k,
            k ∉ [py "inclusion"; py "tap_ga4.group"; py "behavior";
                 py "fieldExclusions"] ->
            k ∉ [py "fieldExclusions"; py "behavior"; py "tap_ga4.group"]).
  { intros k. rewrite !not_elem_of_cons. tauto. }
  assert (Hframe : forall b k,
            (forall name, b <> field_breadcrumb name)
            \/ k ∉ [py "fieldExclusions"; py "behavior"; py "tap_ga4.group"] ->
            metadata_get
              (foldl (fun mdata metric =>
                 field_writes mdata (met_api_name metric)
                   (met_category metric) (py "METRIC") field_exclusions)
                 with_dimensions metrics) b k
            = metadata_get grouped b k).
  { intros b k Hf.
    destruct (Hmets b k) as (Hm & _ & _). rewrite Hm by tauto.
    destruct (Hdims b k) as (Hd & _ & _). by rewrite Hd by tauto. }
  split; [|split; [|split; [|split]]].
  - intros name Hname. rewrite Hframe.
    2:{ right. rewrite !not_elem_of_cons.
        repeat split; try py_neq. apply not_elem_of_nil. }
    rewrite Hgrouped.
    rewrite bool_decide_eq_false_2
      by (intros [_ Hk]; vm_compute in Hk; discriminate Hk).
    rewrite bool_decide_eq_true_2; [done|]. split; [|done].
    apply list_elem_of_fmap. by exists name.
  - intros metric Hin.
    by destruct (Hmets (field_breadcrumb (met_api_name metric)) (py "behavior"))
      as (_ & Hfields & _); apply Hfields.
  - intros dimension Hin Hmetric.
    assert (Hkeep : forall k,
              metadata_get
                (foldl (fun mdata metric =>
                   field_writes mdata (met_api_name metric)
                     (met_category metric) (py "METRIC") field_exclusions)
                   with_dimensions metrics)
                (field_breadcrumb (dim_api_name dimension)) k
              = metadata_get with_dimensions
                  (field_breadcrumb (dim_api_name dimension)) k).
    { intros k. destruct (Hmets (field_breadcrumb (dim_api_name dimension)) k)
        as (Hm & _ & _). apply Hm. right. right. intros metric Hm' [= Heq].
      apply Hmetric. rewrite Heq. apply list_elem_of_fmap. by exists metric. }
    rewrite !Hkeep.
    by destruct (Hdims (field_breadcrumb (dim_api_name dimension))
                   (py "behavior")) as (_ & Hfields & _); apply Hfields.
  - intros breadcrumb k Hf. rewrite Hframe.
    2:{ destruct Hf as [?|?]; [by left|right; by apply Hother]. }
    rewrite Hgrouped.
    rewrite !bool_decide_eq_false_2; [done|..].
    + intros [Hb Hk]. destruct Hf as [Hf|Hf].
      * apply list_elem_of_fmap in Hb as (name & -> & _). by destruct (Hf name).
      * subst k. apply Hf. by left.
    + intros [Hb Hk]. destruct Hf as [Hf|Hf].
      * apply list_elem_of_fmap in Hb as (name & -> & _). by destruct (Hf name).
      * subst k. apply Hf. right. by left.
  - intros Hok.
    destruct (Hmets [] []) as (_ & _ & Hm). apply Hm.
    destruct (Hdims [] []) as (_ & _ & Hd). apply Hd. by apply Hcrumbs.
Qed.

(** X18. In the metadata that [generate_metadata] returns,
    [_sdc_record_hash], [property_id], [account_id] and [date] have
    inclusion [automatic]; every metric has behavior METRIC and every
    dimension that is no metric behavior DIMENSION, each with the exclusions
    of [field_exclusions] for its name (none when the name has no entry)
    and, names being distinct, its category as group; and what the standard
    metadata says under other breadcrumbs or under other keys, [selected]
    among them, is left as it is. *)
Theorem generate_metadata_fields (standard : Metadata)
    (dimensions : list DimensionMetadata) (metrics : list MetricMetadata)
    (field_exclusions : gmap (list Z) (list (list Z))) :
  let mdata :=
    generate_metadata standard dimensions metrics field_exclusions in
  let inclusion name :=
    metadata_get mdata [py "properties"; name] (py "inclusion") in
  let behavior name :=
    metadata_get mdata [py "properties"; name] (py "behavior") in
  let exclusions name :=
    metadata_get mdata [py "properties"; name] (py "fieldExclusions") in
  let group name :=
    metadata_get mdata [py "properties"; name] (py "tap_ga4.group") in
  (inclusion (py "_sdc_record_hash") = PyStr (py "automatic")
   /\ inclusion (py "property_id") = PyStr (py "automatic")
   /\ inclusion (py "account_id") = PyStr (py "automatic")
   /\ inclusion (py "date") = PyStr (py "automatic"))
  /\ (forall metric,
        metric ∈ metrics ->
        behavior (met_api_name metric) = PyStr (py "METRIC")
        /\ exclusions (met_api_name metric)
           = PyList (default [] (field_exclusions !! met_api_name metric))
        /\ (NoDup (met_api_name <$> metrics) ->
            group (met_api_name metric) = PyStr (met_category metric)))
  /\ (forall dimension,
        dimension ∈ dimensions ->
        dim_api_name dimension ∉ (met_api_name <$> metrics) ->
        behavior (dim_api_name dimension) = PyStr (py "DIMENSION")
        /\ exclusions (dim_api_name dimension)
           = PyList (default [] (field_exclusions !! dim_api_name dimension))
        /\ (NoDup (dim_api_name <$> dimensions) ->
            group (dim_api_name dimension) = PyStr (dim_category dimension)))
  /\ (forall breadcrumb k,
        (forall name, breadcrumb <> [py "properties"; name])
        \/ k ∉ [py "inclusion"; py "tap_ga4.group"; py "behavior";
                py "fieldExclusions"] ->
        metadata_get mdata breadcrumb k = metadata_get standard breadcrumb k).
Proof.
  intros mdata inclusion behavior exclusions group.
  subst mdata inclusion behavior exclusions group.
  destruct (generate_metadata_get standard dimensions metrics field_exclusions)
    as (Hauto & Hmets & Hdims & Hframe & _).
  split; [|split; [|split]]; [|exact Hmets|exact Hdims|exact Hframe].
  repeat split; apply Hauto; unfold automatic_fields; in_list.
Qed.

Example generate_metadata_example :
  let mdata :=
    generate_metadata [([], {[ py "inclusion" := PyStr (py "available") ]})]
      [{| dim_api_name := py "date"; dim_category := py "Time" |};
       {| dim_api_name := py "country"; dim_category := py "Geography" |}]
      [{| met_api_name := py "sessions"; met_type := py "TYPE_INTEGER";
          met_category := py "Session" |}]
      {[ py "country" := [py "sessions"] ]} in
  mdata.*1
  = [[]; [py "properties"; py "_sdc_record_hash"];
     [py "properties"; py "property_id"]; [py "properties"; py "account_id"];
     [py "properties"; py "date"]; [py "properties"; py "country"];
     [py "properties"; py "sessions"]]
  /\ metadata_get mdata [py "properties"; py "country"] (py "fieldExclusions")
     = PyList [py "sessions"]
  /\ metadata_get mdata [py "properties"; py "date"] (py "fieldExclusions")
     = PyList []
  /\ metadata_get mdata [py "properties"; py "sessions"] (py "behavior")
     = PyStr (py "METRIC")
  /\ sync_fields mdata [] [] = Ok ([], [py "date"]).
Proof. vm_compute. repeat split. Qed.

Lemma metadata_get_Some (mdata : Metadata) breadcrumb k v :
  metadata_get mdata breadcrumb k = v -> v <> PyNone ->
  exists d, metadata_lookup mdata breadcrumb = Some d.
Proof.
  unfold metadata_get. intros Hget Hv.
  destruct (metadata_lookup mdata breadcrumb) as [d|]; [by exists d|].
  unfold dict_get in Hget. cbn [default from_option id] in Hget.
  rewrite lookup_empty in Hget. cbn in Hget. congruence.
Qed.

Lemma same_fields_breadcrumbs (original edited : Metadata) :
  same_fields original edited ->
  Forall breadcrumb_ok original -> Forall breadcrumb_ok edited.
Proof.
  induction 1 as [|o e original edited (Hfst & _) _ IH]; [done|].
  intros Hok. apply Forall_cons_1 in Hok as [Ho Hok].
  constructor; [|by apply IH]. unfold breadcrumb_ok in *. by rewrite Hfst.
Qed.

Lemma sync_fields_automatic_dimension (edited : Metadata) parent field_name d :
  Forall breadcrumb_ok edited ->
  ([parent; field_name], d) ∈ edited ->
  dict_get d (py "inclusion") = PyStr (py "automatic") ->
  dict_get d (py "behavior") = PyStr (py "DIMENSION") ->
  exists requested_metrics requested_dimensions,
    sync_fields edited [] [] = Ok (requested_metrics, requested_dimensions)
    /\ field_name ∈ requested_dimensions.
Proof.
  intros Hok Hin Hinclusion Hbehavior.
  eexists _, _. split; [by apply sync_fields_acc|]. cbn [app].
  apply list_elem_of_omap. exists ([parent; field_name], d). split; [done|].
  apply requested_as_Some. exists parent. cbn [fst snd].
  split; [done|]. split; [|done]. unfold field_requested. rewrite Hinclusion.
  rewrite (bool_decide_eq_false_2
             (PyStr (py "automatic") = PyStr (py "unsupported")))
    by (intros [= Heq]; vm_compute in Heq; discriminate Heq).
  by rewrite bool_decide_eq_true_2.
Qed.

(** X19. If the API reports a dimension [date] and no metric of that name,
    then on the metadata that discovery generates, and on any edit of it
    that keeps the breadcrumbs and what they say of [inclusion] and
    [behavior], the field loop of [sync] raises nothing and requests the
    dimension [date], selected or not. *)
Theorem discovered_date_requested (standard edited : Metadata)
    (dimensions : list DimensionMetadata) (metrics : list MetricMetadata)
    (field_exclusions : gmap (list Z) (list (list Z))) :
  Forall breadcrumb_ok standard ->
  py "date" ∈ (dim_api_name <$> dimensions) ->
  py "date" ∉ (met_api_name <$> metrics) ->
  same_fields
    (generate_metadata standard dimensions metrics field_exclusions) edited ->
  exists requested_metrics requested_dimensions,
    sync_fields edited [] [] = Ok (requested_metrics, requested_dimensions)
    /\ py "date" ∈ requested_dimensions.
Proof.
  intros Hok Hdim Hmet Hsame.
  destruct (generate_metadata_get standard dimensions metrics field_exclusions)
    as (Hauto & _ & Hdims & _ & Hcrumbs).
  specialize (Hcrumbs Hok).
  apply list_elem_of_fmap in Hdim as (dimension & Hname & Hin).
  destruct (Hdims dimension Hin) as (Hbehavior & _); [by rewrite <- Hname|].
  rewrite <- Hname in Hbehavior.
  specialize (Hauto (py "date") ltac:(unfold automatic_fields; in_list)).
  set (mdata := generate_metadata standard dimensions metrics field_exclusions)
    in *.
  destruct (metadata_get_Some _ _ _ _ Hauto ltac:(done)) as (d & Hd).
  unfold metadata_get in Hauto, Hbehavior. rewrite Hd in Hauto, Hbehavior.
  cbn [default from_option id] in Hauto, Hbehavior.
  apply metadata_lookup_elem_of, list_elem_of_lookup in Hd as [i Hi].
  destruct (Forall2_lookup_l _ _ _ _ _ Hsame Hi)
    as ([b' d'] & Hi' & Hfst & Hinclusion & Hbehavior').
  cbn [fst snd] in Hfst, Hinclusion, Hbehavior'. subst b'.
  apply (sync_fields_automatic_dimension edited (py "properties") (py "date") d').
  - by eapply same_fields_breadcrumbs.
  - by eapply list_elem_of_lookup_2.
  - by rewrite Hinclusion.
  - by rewrite Hbehavior'.
Qed.

Lemma discovered_date_requested_witness :
  exists requested_metrics requested_dimensions,
    sync_fields
      [([], {[ py "selected" := PyBool true ]});
       ([py "properties"; py "_sdc_record_hash"],
        {[ py "inclusion" := PyStr (py "automatic") ]});
       ([py "properties"; py "property_id"],
        {[ py "inclusion" := PyStr (py "automatic") ]});
       ([py "properties"; py "account_id"],
        {[ py "inclusion" := PyStr (py "automatic") ]});
       ([py "properties"; py "date"],
        {[ py "inclusion" := PyStr (py "automatic");
           py "behavior" := PyStr (py "DIMENSION");
           py "selected" := PyBool false ]})] [] []
    = Ok (requested_metrics, requested_dimensions)
    /\ py "date" ∈ requested_dimensions.
Proof.
  apply (discovered_date_requested
           [([], ∅)] _
           [{| dim_api_name := py "date"; dim_category := py "Time" |}] [] ∅).
  - repeat constructor.
  - apply (bool_decide_unpack _). vm_compute. exact I.
  - apply not_elem_of_nil.
  - unfold same_fields. vm_compute generate_metadata.
    repeat (apply Forall2_cons; [split; [reflexivity|split]; vm_compute;
                                 reflexivity|]).
    apply Forall2_nil.
Defined.

(** X20. [discover] first asks for the dimensions and metrics of the
    property, and an exception of that call ends it after this one call. A
    metric outside the category Cohort with a type that discovery does not
    know makes [discover] raise. A catalog that it returns has one entry per
    report, in order, all with the same schema and metadata and the key
    [_sdc_record_hash]; the properties of the schema are the base fields and
    the dimensions and metrics reported outside the category Cohort. *)
Theorem discover_catalog (get_standard_metadata : Schema -> Metadata)
    (listed : gmap (list Z) (list (list Z))) (client : Client)
    (reports : list ReportDefinition) (property_id : list Z) :
  let run := discover get_standard_metadata listed client reports property_id in
  let answer := client_get_dimensions_and_metrics client 0 property_id in
  (exists rest, fst run = GetDimensionsAndMetrics property_id :: rest)
  /\ (forall e,
        answer = Raise e ->
        run = ([GetDimensionsAndMetrics property_id], Raise e))
  /\ (forall response metric,
        answer = Ok response ->
        metric ∈ response_metrics response ->
        met_category metric <> py "Cohort" ->
        met_type metric <> py "TYPE_INTEGER" ->
        met_type metric ∉ FLOAT_TYPES ->
        exists e, snd run = Raise e)
  /\ (forall catalog,
        snd run = Ok catalog ->
        exists response (schema : Schema) mdata,
          answer = Ok response
          /\ catalog
             = (fun report =>
                  {| cat_stream := def_name report;
                     cat_tap_stream_id := def_id report;
                     cat_schema := schema;
                     cat_key_properties := [py "_sdc_record_hash"];
                     cat_metadata := mdata |}) <$> reports
          /\ (forall name,
                is_Some (schema !! name) <->
                name ∈ base_fields
                \/ (exists dimension,
                      dimension ∈ response_dimensions response
                      /\ dim_api_name dimension = name
                      /\ dim_category dimension <> py "Cohort")
                \/ (exists metric,
                      metric ∈ response_metrics response
                      /\ met_api_name metric = name
                      /\ met_category metric <> py "Cohort"))).
Proof.
  intros run answer. subst run answer.
  unfold discover, get_dimensions_and_metrics. cbn [length app].
  destruct (client_get_dimensions_and_metrics client 0 property_id)
    as [response|e0].
  2:{ split; [by eexists|]. split; [by intros e [= <-]|]. split; done. }
  set (dimensions := filter _ (response_dimensions response)).
  set (metrics := filter _ (response_metrics response)).
  destruct (get_field_exclusions listed client property_id dimensions metrics
              [GetDimensionsAndMetrics property_id]) as [calls r] eqn:Hfe.
  pose proof (get_field_exclusions_calls listed client property_id dimensions
                metrics [GetDimensionsAndMetrics property_id]) as Hcalls.
  rewrite Hfe in Hcalls. cbn [fst] in Hcalls. destruct Hcalls as [new ->].
  assert (Hdims : forall name,
            name ∈ (dim_api_name <$> dimensions) <->
            exists dimension,
              dimension ∈ response_dimensions response
              /\ dim_api_name dimension = name
              /\ dim_category dimension <> py "Cohort").
  { intros name. rewrite list_elem_of_fmap. subst dimensions.
    setoid_rewrite list_elem_of_filter. unfold INCOMPATIBLE_CATEGORIES.
    setoid_rewrite not_elem_of_singleton.
    split; [intros (x & -> & ? & ?); by exists x
           |intros (x & ? & <- & ?); by exists x]. }
  assert (Hmets : forall name,
            name ∈ (met_api_name <$> metrics) <->
            exists metric,
              metric ∈ response_metrics response
              /\ met_api_name metric = name
              /\ met_category metric <> py "Cohort").
  { intros name. rewrite list_elem_of_fmap. subst metrics.
    setoid_rewrite list_elem_of_filter. unfold INCOMPATIBLE_CATEGORIES.
    setoid_rewrite not_elem_of_singleton.
    split; [intros (x & -> & ? & ?); by exists x
           |intros (x & ? & <- & ?); by exists x]. }
  split; [destruct r; by eexists|]. split; [done|]. split.
  - intros response' metric [= <-] Hin Hcat Hint Hfloat.
    destruct r as [fe|e]; cbn [snd]; [|by eexists].
    exists OtherError. unfold generate_catalog.
    rewrite generate_schema_and_metadata_Raise; [done|].
    rewrite list.Forall_forall. intros Hall.
    destruct (Hall metric) as [Hknown|Hknown];
      [|exact (Hint Hknown)|exact (Hfloat Hknown)].
    subst metrics. apply list_elem_of_filter. split; [|exact Hin].
    unfold INCOMPATIBLE_CATEGORIES. apply not_elem_of_singleton. exact Hcat.
  - intros catalog Hcatalog. destruct r as [fe|e]; cbn [snd] in Hcatalog; [|done].
    unfold generate_catalog in Hcatalog.
    destruct (decide (Forall known_type metrics)) as [Hknown|Hunknown].
    2:{ by rewrite generate_schema_and_metadata_Raise in Hcatalog. }
    destruct (generate_schema_and_metadata_Ok get_standard_metadata dimensions
                metrics fe Hknown) as (schema & Hrun & Hdom & _).
    rewrite Hrun in Hcatalog. cbn [rbind] in Hcatalog.
    injection Hcatalog as <-.
    eexists response, schema, _. split; [done|]. split; [done|].
    intros name. by rewrite Hdom, Hdims, Hmets.
Qed.

Lemma client_waits_fields k : forall tries request w,
  client_sleeps (client_waits k tries request w)
  = client_sleeps w ++ (expo <$> seqZ tries (Z.of_nat k))
  /\ client_requests (client_waits k tries request w)
     = client_requests w ++ replicate k request.
Proof.
  induction k as [|k IH]; intros tries request w.
  - simpl. by rewrite !app_nil_r.
  - cbn [client_waits]. destruct (IH (tries + 1) request
      {| client_sleeps := client_sleeps w ++ [expo tries];
         client_requests := client_requests w ++ [request] |}) as [-> ->].
    cbn [client_sleeps client_requests]. rewrite <- !app_assoc. split.
    + f_equal. rewrite (seqZ_cons tries) by lia. rewrite fmap_cons. cbn [app].
      replace (Z.succ tries) with (tries + 1) by lia.
      by replace (Z.pred (Z.of_nat (S k))) with (Z.of_nat k) by lia.
    + done.
Qed.

Lemma Client_retry_waits (api : DataApi) request k :
  forall remaining tries w,
    (forall i, (i < k)%nat ->
       api (length (client_requests w) + i)%nat request = Raise ServerError
       \/ api (length (client_requests w) + i)%nat request
          = Raise TooManyRequests) ->
    tries + Z.of_nat k < 5 ->
    Client_retry (k + remaining) tries api request w
    = Client_retry remaining (tries + Z.of_nat k) api request
        (client_waits k tries request w).
Proof.
  induction k as [|k IH]; intros remaining tries w Herr Htries.
  - simpl. by rewrite Z.add_0_r.
  - change (S k + remaining)%nat with (S (k + remaining)).
    cbn [Client_retry client_requests client_sleeps].
    pose proof (Herr 0%nat ltac:(lia)) as H0. rewrite Nat.add_0_r in H0.
    assert (Hstep : forall w' : ClientWorld,
      match api (length (client_requests w)) request with
      | Ok ret => (w', inr ret)
      | Raise e =>
          if make_request_retryable e then
            match Client_sleep_if_quota_reached e with
            | inl raised => (w', inl raised)
            | inr gave_up =>
                if gave_up || (tries + 1 =? 5) then (w', inl (ApiError e))
                else
                  Client_retry (k + remaining) (tries + 1) api request
                    {| client_sleeps := client_sleeps w' ++ [expo (tries + 1 - 1)];
                       client_requests := client_requests w' |}
            end
          else (w', inl (ApiError e))
      end
      = Client_retry (k + remaining) (tries + 1) api request
          {| client_sleeps := client_sleeps w' ++ [expo tries];
             client_requests := client_requests w' |}).
    { intros w'. replace (tries + 1 - 1) with tries by lia.
      destruct (Z.eqb_spec (tries + 1) 5) as [|_]; [lia|].
      by destruct H0 as [-> | ->]. }
    rewrite Hstep. cbn [client_sleeps client_requests].
    rewrite IH.
    + cbn [client_waits]. f_equal. lia.
    + intros i Hi. cbn [client_requests]. rewrite length_app. simpl.
      replace (length (client_requests w) + 1 + i)%nat
        with (length (client_requests w) + S i)%nat by lia.
      apply Herr. lia.
    + lia.
Qed.

(** X21. [Client._make_request] of [client.py] does not wait for the quota:
    when the API answers with [ResourceExhausted], after up to four
    [ServerError] or [TooManyRequests] answers that were retried, the call
    raises [NameError], having sent one request per answer and slept only
    the back-off waits of 1, 2, 4, ... seconds. *)
Theorem Client_make_request_quota (api : DataApi) (request : api_request)
    (w : ClientWorld) (k : nat) :
  let answer (i : nat) := api (length (client_requests w) + i)%nat request in
  (k < 5)%nat ->
  (forall i, (i < k)%nat ->
     answer i = Raise ServerError \/ answer i = Raise TooManyRequests) ->
  answer k = Raise ResourceExhausted ->
  Client_make_request api request w
  = ({| client_sleeps := client_sleeps w ++ ((fun i => 2 ^ i) <$> seqZ 0 (Z.of_nat k));
        client_requests := client_requests w ++ replicate (S k) request |},
     inl NameError).
Proof.
  intros answer Hk Herr Hquota. subst answer. cbv beta in *.
  unfold Client_make_request.
  replace 5%nat with (k + S (4 - k))%nat by lia.
  rewrite Client_retry_waits by (auto || lia).
  destruct (client_waits_fields k 0 request w) as [Hsleeps Hrequests].
  cbn [Client_retry]. rewrite Hsleeps, Hrequests.
  rewrite !length_app, length_replicate.
  rewrite Hquota. cbn [make_request_retryable Client_sleep_if_quota_reached].
  f_equal. f_equal. rewrite <- app_assoc. f_equal.
  change [request] with (replicate 1 request).
  rewrite <- replicate_add. f_equal. lia.
Qed.

Lemma Client_make_request_quota_witness :
  Client_make_request (fun _ _ => Raise ResourceExhausted)
    (GetMetadataRequest (py "properties/123/metadata"))
    {| client_sleeps := []; client_requests := [] |}
  = ({| client_sleeps := [];
        client_requests := [GetMetadataRequest (py "properties/123/metadata")] |},
     inl NameError).
Proof.
  apply (Client_make_request_quota (fun _ _ => Raise ResourceExhausted)
           (GetMetadataRequest (py "properties/123/metadata"))
           {| client_sleeps := []; client_requests := [] |} 0).
  - lia.
  - intros i Hi. lia.
  - reflexivity.
Defined.

Lemma make_request_Ok api report s e offset w w' response more offset' :
  make_request api report s e offset w = (w', Ok (response, more, offset')) ->
  more = (REPORT_LIMIT + offset <? row_count response)
  /\ offset' = offset + REPORT_LIMIT.
Proof.
  intros Hrun.
  destruct (retry_calls api report s e offset 5 0 w)
    as (n & w1 & _ & _ & _ & Hrun' & _); [lia|lia|].
  unfold make_request, on_exception in Hrun.
  change (Z.of_nat 5) with 5 in Hrun. rewrite Hrun' in Hrun.
  injection Hrun as _ Hr.
  destruct (api (length (requests w) + n)%nat
              (run_report_request report s e offset)); [|done].
  by injection Hr as <- <- <-.
Qed.

Lemma make_request_count api report s e offset w w' r :
  make_request api report s e offset w = (w', r) ->
  (length (requests w) + 1 <= length (requests w') <= length (requests w) + 5)%nat.
Proof.
  intros Hrun.
  destruct (retry_calls api report s e offset 5 0 w)
    as (n & w1 & Hn & _ & Hreq & Hrun' & _); [lia|lia|].
  unfold make_request, on_exception in Hrun.
  change (Z.of_nat 5) with 5 in Hrun. rewrite Hrun' in Hrun.
  injection Hrun as <- _. rewrite Hreq, length_app, length_replicate. lia.
Qed.

Section any_api.
Context (api : Api) (report : Report) (s e : Z).

Lemma get_report_from_run fuel :
  forall offset more w w' pages how,
    get_report_from fuel api report s e offset more w = (w', pages, how) ->
    (forall (i : nat) page,
       pages !! i = Some page -> is_Some (pages !! S i) ->
       offset + Z.of_nat i * REPORT_LIMIT + REPORT_LIMIT < row_count page)
    /\ (how = Exhausted ->
        if more
        then exists page,
               list.last pages = Some page
               /\ row_count page <= offset + Z.of_nat (length pages) * REPORT_LIMIT
        else pages = [])
    /\ (forall ex,
          how = Raised ex ->
          exists w1,
            make_request api report s e
              (offset + Z.of_nat (length pages) * REPORT_LIMIT) w1
            = (w', Raise ex))
    /\ (length (requests w) + length pages <= length (requests w')
        <= length (requests w) + 5 * (length pages + 1))%nat.
Proof.
  induction fuel as [|fuel IH]; intros offset more w w' pages how Hrun.
  - destruct more; injection Hrun as <- <- <-; cbn [length];
      (split; [done|]); (split; [done|]); (split; [done|lia]).
  - destruct more.
    2:{ injection Hrun as <- <- <-. cbn [length].
        split; [done|]. split; [done|]. split; [done|lia]. }
    cbn [get_report_from] in Hrun.
    destruct (make_request api report s e offset w) as [w1 r] eqn:Hrequest.
    pose proof (make_request_count _ _ _ _ _ _ _ _ Hrequest) as Hcount.
    destruct r as [[[response more'] offset']|ex].
    2:{ injection Hrun as <- <- <-. cbn [length].
        split; [done|]. split; [done|]. split; [|lia].
        intros ex' [= <-]. exists w. by rewrite Z.add_0_r. }
    destruct (make_request_Ok _ _ _ _ _ _ _ _ _ _ Hrequest) as [-> ->].
    destruct (get_report_from fuel api report s e (offset + REPORT_LIMIT)
                (REPORT_LIMIT + offset <? row_count response) w1)
      as [[w2 rest] how'] eqn:Hrest.
    injection Hrun as <- <- <-.
    destruct (IH _ _ _ _ _ _ Hrest) as (Hnext & Hlast & Hraised & Hlen).
    cbn [length]. split; [|split; [|split]].
    + intros [|i] page Hi Hsucc; cbn in Hi, Hsucc.
      * injection Hi as <-.
        destruct (Z.ltb_spec (REPORT_LIMIT + offset) (row_count response));
          [lia|].
        destruct fuel; cbn in Hrest; injection Hrest as _ <- _;
          by destruct Hsucc.
      * specialize (Hnext i page Hi Hsucc). lia.
    + intros ->. specialize (Hlast eq_refl).
      destruct (Z.ltb_spec (REPORT_LIMIT + offset) (row_count response)).
      * destruct Hlast as (page & Hpage & Hrows). exists page.
        split; [|lia]. destruct rest; [done|]. by rewrite last_cons_cons.
      * subst rest. exists response. split; [done|]. cbn [length]. lia.
    + intros ex Hex. destruct (Hraised ex Hex) as [w3 Hw3]. exists w3.
      rewrite <- Hw3.
      refine (f_equal (fun o => make_request _ _ _ _ o _) _). lia.
    + lia.
Qed.

End any_api.

(** X22. Whatever the API answers, among the pages that [get_report] yields
    a page is followed by another only if it reported more than [offset +
    100000] rows; a run that is exhausted ended on a page that reported no
    more than that; a run that ends by an exception raises the exception of
    the request for the page after the last one yielded; and it has sent at
    least one request per page and at most five per page and for the failed
    one. *)
Theorem get_report_any_api (fuel : nat) (api : Api) (report : Report)
    (range_start_date range_end_date : Z) (w : World) :
  let run := get_report fuel api report range_start_date range_end_date w in
  let w' := fst (fst run) in
  let pages := snd (fst run) in
  let how := snd run in
  (forall (i : nat) page,
     pages !! i = Some page -> is_Some (pages !! S i) ->
     Z.of_nat i * 100000 + 100000 < row_count page)
  /\ (how = Exhausted ->
      exists page,
        list.last pages = Some page
        /\ row_count page <= Z.of_nat (length pages) * 100000)
  /\ (forall ex,
        how = Raised ex ->
        exists w1,
          make_request api report range_start_date range_end_date
            (Z.of_nat (length pages) * 100000) w1
          = (w', Raise ex))
  /\ (length (requests w) + length pages <= length (requests w')
      <= length (requests w) + 5 * (length pages + 1))%nat.
Proof.
  intros run w' pages how. subst w' pages how run. unfold get_report.
  destruct (get_report_from fuel api report range_start_date range_end_date
              0 true w) as [[w' pages] how] eqn:Hrun.
  destruct (get_report_from_run api report range_start_date range_end_date
              fuel 0 true w w' pages how Hrun)
    as (Hnext & Hlast & Hraised & Hlen).
  cbn [fst snd]. unfold REPORT_LIMIT in *. split; [|split; [|split]].
  - intros i page Hi Hsucc. specialize (Hnext i page Hi Hsucc). lia.
  - intros Hhow. destruct (Hlast Hhow) as (page & ? & ?). exists page.
    split; [done|lia].
  - intros ex Hex. destruct (Hraised ex Hex) as [w1 Hw1]. exists w1.
    by rewrite Z.add_0_l in Hw1.
  - done.
Qed.

(** Two pages are received, then the API fails for good: the two pages
    are yielded before the error is raised. *)
Example get_report_error_after_two_pages :
  let api : Api := fun n _ =>
    if (n <? 2)%nat then Ok (empty_response 250000) else Raise OtherError in
  let '(w', pages, how) :=
    get_report 10 api example_report 19358 19364 example_world in
  how = Raised OtherError /\ length pages = 2%nat
  /\ req_offset <$> requests w' = [0; 100000; 200000].
Proof. vm_compute. done. Qed.

(** X23. Without [end_date] in the configuration [get_end_date] returns
    midnight of the current UTC day, so that a sync from an earlier date
    yields its chunks, the generator is exhausted and the last chunk ends
    today (the start after the last chunk being a datetime, not after
    9999-12-31); with [end_date] it returns that date parsed, or raises the
    parser's error when it does not parse. *)
Theorem get_end_date_today `{Externals} (config : Config) (now : Z) :
  (cfg_end_date config = None ->
   exists end_date,
     get_end_date config now = Ok end_date
     /\ is_date end_date
     /\ end_date <= now < end_date + US_PER_DAY
     /\ date_of end_date = date_of now
     /\ forall start_date request_range,
          is_date start_date -> DATETIME_MIN <= start_date <= end_date ->
          0 < request_range ->
          last_range_start start_date end_date request_range <= DATETIME_MAX ->
          exists chunks,
            (forall fuel,
               (Z.to_nat (chunk_count start_date end_date request_range)
                < fuel)%nat ->
               generate_report_dates fuel start_date end_date request_range
               = (chunks, Exhausted))
            /\ snd <$> list.last chunks = Some (date_of now))
  /\ (forall text,
        cfg_end_date config = Some text ->
        get_end_date config now
        = match strptime_to_utc text with
          | Some end_date => Ok end_date
          | None => Raise ParserError
          end).
Proof.
  unfold get_end_date. split.
  - intros ->. exists (replace_midnight now).
    assert (Hdate : is_date (replace_midnight now)
                    /\ replace_midnight now <= now
                                            < replace_midnight now + US_PER_DAY
                    /\ date_of (replace_midnight now) = date_of now).
    { unfold is_date, replace_midnight, date_of, US_PER_DAY, US_PER_HOUR,
        US_PER_SECOND. Z.div_mod_to_equations. lia. }
    destruct Hdate as (Hdate & Hnow & Hday).
    split; [done|]. split; [done|]. split; [done|]. split; [done|].
    intros start_date request_range Hs Hle Hrange Hroom.
    set (end_date := replace_midnight now) in *.
    pose proof (chunk_count_nonneg start_date end_date request_range Hrange)
      as Hn.
    destruct (last_range_start_spec start_date end_date request_range Hrange)
      as [Hspec Hbound].
    assert (Hvalid : DATETIME_MIN <= start_date <= DATETIME_MAX).
    { split; [lia|]. apply Hspec in Hroom.
      pose proof (proj2 (days_left_spec start_date 0)) as Hzero.
      unfold timedelta_days in Hzero. nia. }
    assert (Hrun : forall fuel,
               (Z.to_nat (chunk_count start_date end_date request_range)
                < fuel)%nat ->
               generate_report_dates fuel start_date end_date request_range
               = (nth_chunk start_date end_date request_range
                    <$> seqZ 0 (chunk_count start_date end_date request_range),
                  Exhausted)).
    { intros fuel Hfuel. unfold generate_report_dates.
      rewrite (generate_report_dates_from_closed_form end_date request_range
                 (Z.to_nat (chunk_count start_date end_date request_range))
                 Hrange start_date Hvalid) by (rewrite ?Z2Nat.id; done).
      rewrite Z2Nat.id by done.
      by rewrite bool_decide_eq_true_2 by by apply Hspec. }
    eexists. split; [exact Hrun|].
    rewrite <- Hday.
    apply (generate_report_dates_from_last_end end_date request_range
             (S (Z.to_nat (chunk_count start_date end_date request_range)))
             Hrange Hdate start_date); [done|lia|].
    apply Hrun. lia.
  - intros text ->. by destruct (strptime_to_utc text).
Qed.

Lemma get_end_date_today_witness :
  exists end_date chunks,
    @get_end_date iso_externals example_config example_now = Ok end_date
    /\ date_of end_date = date_of example_now
    /\ generate_report_dates 3 (19510 * US_PER_DAY) end_date 7
       = (chunks, Exhausted)
    /\ snd <$> list.last chunks = Some 19523.
Proof.
  destruct (@get_end_date_today iso_externals example_config example_now)
    as [Hnone _].
  destruct (Hnone eq_refl) as (end_date & Hrun & _ & _ & Hday & Hchunks).
  assert (Hend : end_date = 19523 * US_PER_DAY).
  { vm_compute in Hrun. injection Hrun as <-. reflexivity. }
  destruct (Hchunks (19510 * US_PER_DAY) 7) as (chunks & Hgen & Hlast);
    [reflexivity
    |rewrite Hend; vm_compute; split; discriminate
    |lia
    |rewrite Hend; vm_compute; discriminate|].
  exists end_date, chunks. split; [exact Hrun|]. split; [exact Hday|].
  split; [|exact Hlast].
  apply Hgen. rewrite Hend. vm_compute. lia.
Defined.

(** X24. [get_report_start_date] raises nothing but the parser's error: it
    raises it when the configured start date does not parse, with or without
    a bookmark, and when a non-empty bookmark does not parse. When the
    configured start date parses, it returns that date for a missing or
    empty bookmark, and for a bookmark that parses it returns a date that
    is not later than the bookmark and not earlier than the earlier of
    bookmark and configured start, nor than the earlier of bookmark and
    conversion day. *)
Theorem get_report_start_date_errors `{Externals} (config : Config)
    (property_id tap_stream_id : list Z) (state : State) (now : Z) :
  let stored :=
    get_bookmark state tap_stream_id property_id !! py "last_report_date" in
  let returned :=
    get_report_start_date config property_id state tap_stream_id now in
  (strptime_to_utc (cfg_start_date config) = None ->
   returned = Raise ParserError)
  /\ (forall b,
        stored = Some b -> b <> [] -> strptime_to_utc b = None ->
        returned = Raise ParserError)
  /\ (forall ex, returned = Raise ex -> ex = ParserError)
  /\ (forall start,
        strptime_to_utc (cfg_start_date config) = Some start ->
        (stored = None \/ stored = Some [] -> returned = Ok start)
        /\ (forall b bk,
              stored = Some b -> b <> [] -> strptime_to_utc b = Some bk ->
              exists r,
                returned = Ok r
                /\ r <= bk
                /\ Z.min bk start <= r
                /\ Z.min bk (conversion_day now) <= r)).
Proof.
  intros stored returned. subst returned. unfold get_report_start_date.
  fold stored. clearbody stored.
  destruct (strptime_to_utc (cfg_start_date config)) as [start|];
    cbn [of_option rbind].
  2:{ split; [done|]. split; [done|]. split; [by intros ex [= <-]|done]. }
  split; [done|].
  destruct stored as [[|c b]|]; cbn [truthy negb].
  - split; [by intros b [= <-]|]. split; [done|].
    intros start' [= <-]. split; [done|]. by intros b bk [= <-].
  - destruct (strptime_to_utc (c :: b)) as [bk|] eqn:Hbk; cbn [of_option rbind].
    + split; [intros b' [= <-] _ Hnone; congruence|]. split; [done|].
      intros start' [= <-]. split; [by intros [|]|].
      intros b' bk' [= <-] _ Hbk'. rewrite Hbk in Hbk'. injection Hbk' as <-.
      eexists. split; [reflexivity|]. fold (conversion_day now). lia.
    + split; [done|]. split; [by intros ex [= <-]|].
      intros start' [= <-]. split; [by intros [|]|].
      intros b' bk' [= <-] _ Hbk'. congruence.
  - split; [done|]. split; [done|].
    intros start' [= <-]. split; [done|]. done.
Qed.

Lemma get_report_start_date_errors_witness :
  exists r,
    @get_report_start_date iso_externals example_config (py "123")
      (example_state (py "2023-01-01")) (py "sessions") example_now = Ok r
    /\ r <= 19358 * US_PER_DAY.
Proof.
  destruct (@get_report_start_date_errors iso_externals example_config
              (py "123") (py "sessions") (example_state (py "2023-01-01"))
              example_now) as (_ & _ & _ & Hreturns).
  destruct (Hreturns (18993 * US_PER_DAY)) as [_ Hbookmark];
    [vm_compute; reflexivity|].
  destruct (Hbookmark (py "2023-01-01") (19358 * US_PER_DAY))
    as (r & Hrun & Hle & _); [vm_compute; reflexivity|discriminate
                             |vm_compute; reflexivity|].
  by exists r.
Defined.
